(** * debindex: the Debian index statistics tool, embedded and verified

    The program ([debindex.py]) fetches a gzip-compressed [Contents-<arch>.gz]
    index, reads it with [pandas.read_csv], splits every value at its first
    run of whitespace, counts the rows per package with [pivot_table], sorts
    the counts in descending order and either saves them as CSV or prints the
    first [n] of them.

    The file is organised as the program is: the Python and library
    operations the program calls ([Py], [Re], [Gzip], [Csv], [Pd]) come first,
    then the functions of [debindex.py] under their own names ([Debindex]),
    sample worlds ([Sample]) and the vocabulary of the statements ([Props]);
    then the lemmas, the model run on known inputs, the properties
    C1 to C10, and further properties of the program (X1 to X29) with the
    notions they are stated in ([Further]).

    Conventions of the embedding.
    - A Python [str] is a [string]: a sequence of characters whose code points
      are below 256.  [bytes] are [list byte].
    - A call that may raise returns a [result]: [Ok v] or [Raise e].
    - What the program does not compute itself is a field of the environment
      [Debindex.env]: the HTTP transport ([http_get]), DEFLATE decoding
      ([inflate]) and encoding ([compress]), the clock ([now]), and what
      opening a name for writing comes to ([open_wb] for [open], [get_handle]
      for [to_csv]).  A file that was opened is written in full (no full
      disk).
    - The library models follow pandas 1.5 on CPython 3.8-3.11, the versions
      the program's calls ([str.split(sep, 1, expand=True)] with positional
      arguments, [gzip.BadGzipFile]) run on, on a POSIX system: [os.linesep]
      is the line feed and [%Y] is not padded.  The reader is fed the whole
      text at once (the chunked reading of very large files is not modelled).
    - Floating-point arithmetic is not modelled: whether a literal is beyond
      the range of a double is decided on its exact value. *)

From Stdlib Require Import ZArith List Ascii String Strings.Byte Bool Lia.
From Stdlib Require Import Permutation Sorted.
From stdpp Require Import base tactics option list strings pretty gmap.
Import ListNotations.

Open Scope Z_scope.
Open Scope nat_scope.

(* ===================================================================== *)
(** * Python values, exceptions and built-in operations                   *)
(* ===================================================================== *)

Module Py.

(** The exceptions that the operations used by the program can raise. *)
Inductive exn :=
| InvalidURL          (* requests.exceptions.InvalidURL *)
| ConnectionError     (* requests.exceptions.ConnectionError *)
| BadGzipFile         (* gzip.BadGzipFile *)
| EOFError
| ZlibError           (* zlib.error *)
| UnicodeDecodeError
| ParserError         (* pandas.errors.ParserError *)
| ValueError
| AttributeError
| KeyError
| FileNotFoundError
| PermissionError
| OSError             (* OSError itself and its subclasses not listed here *)
| KeyboardInterrupt.

Inductive result (A : Type) :=
| Ok (a : A)
| Raise (e : exn).
Arguments Ok {A} a.
Arguments Raise {A} e.

Definition bind {A B} (m : result A) (k : A -> result B) : result B :=
  match m with
  | Ok a => k a
  | Raise e => Raise e
  end.

(** Characters the program and the libraries name. *)
Definition LF : ascii := "010"%char.
Definition CR : ascii := "013"%char.
Definition TAB : ascii := "009"%char.
Definition DQUOTE : ascii := "034"%char.
Definition NUL : ascii := "000"%char.

Definition chr (c : ascii) : string := String c EmptyString.

(** [str.isspace] on one character (code points below 256): what [strip]
    removes and what the pattern [\s] matches. *)
Definition isspace (c : ascii) : bool :=
  let n := nat_of_ascii c in
  ((9 <=? n) && (n <=? 13)) || ((28 <=? n) && (n <=? 32))
  || (n =? 133) || (n =? 160).

(** [s.lower()] and [s.endswith(suffix)] (code points below 256: the
    capital letters of ASCII and of Latin-1). *)
Definition lower_char (c : ascii) : ascii :=
  let n := nat_of_ascii c in
  if ((65 <=? n) && (n <=? 90))
     || ((192 <=? n) && (n <=? 222) && negb (n =? 215))
  then ascii_of_nat (n + 32) else c.

Fixpoint lower (s : string) : string :=
  match s with
  | EmptyString => EmptyString
  | String c s' => String (lower_char c) (lower s')
  end.

Definition endswith (s suffix : string) : bool :=
  let n := String.length s in
  let k := String.length suffix in
  (k <=? n) && String.eqb (substring (n - k) k s) suffix.

(** [s.lstrip()], [s.rstrip()], [s.strip()]. *)
Fixpoint lstrip (s : string) : string :=
  match s with
  | String c s' => if isspace c then lstrip s' else s
  | EmptyString => EmptyString
  end.

Fixpoint rstrip_by (drop : ascii -> bool) (s : string) : string :=
  match s with
  | EmptyString => EmptyString
  | String c s' =>
      match rstrip_by drop s' with
      | EmptyString => if drop c then EmptyString else chr c
      | r => String c r
      end
  end.

Definition rstrip : string -> string := rstrip_by isspace.
Definition strip (s : string) : string := lstrip (rstrip s).

(** [s.rstrip(ch)] for a one-character argument. *)
Definition rstrip_char (ch : ascii) : string -> string :=
  rstrip_by (Ascii.eqb ch).

(** [s.split(sep)] for a one-character separator: never an empty list. *)
Fixpoint split (sep : ascii) (s : string) : list string :=
  match s with
  | EmptyString => [EmptyString]
  | String c s' =>
      if Ascii.eqb c sep then EmptyString :: split sep s'
      else match split sep s' with
           | piece :: rest => String c piece :: rest
           | [] => [chr c]
           end
  end.

(** [sep.join(pieces)]. *)
Fixpoint join (sep : string) (pieces : list string) : string :=
  match pieces with
  | [] => EmptyString
  | [p] => p
  | p :: rest => p +:+ sep +:+ join sep rest
  end.

(** [l.insert(i, x)]: a negative index counts from the end, and an index
    outside the list is clamped to its ends. *)
Definition list_insert {A} (i : Z) (x : A) (l : list A) : list A :=
  let len := Z.of_nat (length l) in
  let j := if (i <? 0)%Z then Z.max 0 (i + len) else Z.min i len in
  take (Z.to_nat j) l ++ x :: drop (Z.to_nat j) l.

(** [str(n)] and the zero-padded two-digit fields of [strftime]. *)
Definition str_nat (n : nat) : string := pretty n.
Definition str_Z (n : Z) : string := pretty n.

Definition digit (n : nat) : ascii := ascii_of_nat (48 + n mod 10).
Definition pad2 (n : nat) : string :=
  String (digit (n / 10)) (chr (digit n)).

(** [s.encode('utf-8')] for code points below 256: one byte below 128,
    two bytes from there on. *)
Definition encode_char (c : ascii) : list byte :=
  let n := nat_of_ascii c in
  if n <? 128 then [byte_of_ascii c]
  else [byte_of_ascii (ascii_of_nat (192 + n / 64));
        byte_of_ascii (ascii_of_nat (128 + n mod 64))].

Fixpoint encode_utf8 (s : string) : list byte :=
  match s with
  | EmptyString => []
  | String c s' => encode_char c ++ encode_utf8 s'
  end.

(** [datetime]: the fields [strftime] reads. *)
Record datetime := {
  year : nat; month : nat; day : nat;
  hour : nat; minute : nat; second : nat
}.

(** [dt.strftime("%Y%m%d-%H%M%S")].  [%Y] is the year in decimal (the C
    library does not pad it); the other fields are two digits. *)
Definition strftime (dt : datetime) : string :=
  str_nat (year dt) +:+ pad2 (month dt) +:+ pad2 (day dt) +:+ "-"
  +:+ pad2 (hour dt) +:+ pad2 (minute dt) +:+ pad2 (second dt).

End Py.

Export Py (exn(..), result(..)).

Notation "'let*' x := m 'in' k" := (Py.bind m (fun x => k))
  (at level 10, x name, m at level 100, k at level 200, only parsing).

(* ===================================================================== *)
(** * [re]: the one pattern the program uses                              *)
(* ===================================================================== *)

Module Re.

(** The longest run of [\s] at the head of [s], removed. *)
Fixpoint skip_spaces (s : string) : string :=
  match s with
  | String c s' => if Py.isspace c then skip_spaces s' else s
  | EmptyString => EmptyString
  end.

(** [re.compile(r'\s+').split(s, maxsplit=1)]: the text before the first run
    of whitespace and, when there is such a run, the text after it.  The
    result has one or two pieces. *)
Fixpoint split1 (s : string) : string * option string :=
  match s with
  | EmptyString => (EmptyString, None)
  | String c s' =>
      if Py.isspace c then (EmptyString, Some (skip_spaces s'))
      else let (before, after) := split1 s' in (String c before, after)
  end.

Definition pieces (r : string * option string) : list string :=
  match r with
  | (a, None) => [a]
  | (a, Some b) => [a; b]
  end.

End Re.

(* ===================================================================== *)
(** * [gzip]: the reader's header check                                   *)
(* ===================================================================== *)

Module Gzip.

(** [GzipFile.read()] on the whole stream, as far as the ten bytes of the
    fixed header decide it ([_read_gzip_header]):
    - no byte at all is the clean end of the stream: no data, no error;
    - two bytes other than 1f 8b (or a single byte) raise [BadGzipFile]
      ("Not a gzipped file");
    - a header cut short raises [EOFError];
    - a method other than 8 raises [BadGzipFile] ("Unknown compression
      method").
    What follows the fixed header (optional header fields selected by the
    flag byte, the DEFLATE data, the CRC and length trailer, further
    members) is left to [inflate], given the flag byte and the remaining
    bytes; it returns the text or the exception raised on the way. *)
Definition is_magic (b0 b1 : byte) : bool :=
  Byte.eqb b0 x1f && Byte.eqb b1 x8b.

Definition read (inflate : byte -> list byte -> result string)
    (bs : list byte) : result string :=
  match bs with
  | [] => Ok EmptyString
  | [_] => Raise BadGzipFile
  | b0 :: b1 :: rest =>
      if is_magic b0 b1 then
        match rest with
        | method :: flag :: _ :: _ :: _ :: _ :: _ :: _ :: body =>
            if Byte.eqb method x08 then inflate flag body
            else Raise BadGzipFile
        | _ => Raise EOFError
        end
      else Raise BadGzipFile
  end.

End Gzip.

(* ===================================================================== *)
(** * CSV: the reader's tokenizer and the writer's quoting                *)
(* ===================================================================== *)

Module Csv.

(** ** Reading: pandas' C tokenizer with [read_csv]'s default dialect

    Delimiter: the comma; quote character: the double quote, doubled
    inside quoted fields; no escape character, no comment character, initial spaces
    kept, blank lines skipped, lines ended by LF, CR LF or CR.  The states
    and their transitions are those of [tokenize_bytes].  A NUL is a
    character like any other here; it ends the value when the field is
    converted ([Pd.c_str]). *)

Definition DELIM : ascii := ","%char.

(** [IS_WHITESPACE]: a space or a tab. *)
Definition is_blank (c : ascii) : bool :=
  Ascii.eqb c " "%char || Ascii.eqb c Py.TAB.

Inductive tstate :=
| START_RECORD
| START_FIELD
| IN_FIELD
| IN_QUOTED_FIELD
| QUOTE_IN_QUOTED_FIELD
| EAT_CRNL
| EAT_CRNL_NOP
| WHITESPACE_LINE.

Record parser := {
  p_state : tstate;
  p_field : string;               (* the field being read *)
  p_line : list string;           (* the fields of the line being read *)
  p_rows : list (list string);    (* the lines read *)
  p_expected : option nat;        (* expected_fields, set by the first line *)
  p_since_lf : string             (* what was read since the last line feed *)
}.

Definition init : parser :=
  {| p_state := START_RECORD; p_field := EmptyString; p_line := [];
     p_rows := []; p_expected := None; p_since_lf := EmptyString |}.

Definition set_state (st : tstate) (p : parser) : parser :=
  {| p_state := st; p_field := p_field p; p_line := p_line p;
     p_rows := p_rows p; p_expected := p_expected p;
     p_since_lf := p_since_lf p |}.

Definition set_since (s : string) (p : parser) : parser :=
  {| p_state := p_state p; p_field := p_field p; p_line := p_line p;
     p_rows := p_rows p; p_expected := p_expected p; p_since_lf := s |}.

Definition push (c : ascii) (p : parser) : parser :=
  {| p_state := p_state p; p_field := p_field p +:+ Py.chr c;
     p_line := p_line p; p_rows := p_rows p; p_expected := p_expected p;
     p_since_lf := p_since_lf p |}.

Definition end_field (p : parser) : parser :=
  {| p_state := p_state p; p_field := EmptyString;
     p_line := p_line p ++ [p_field p]; p_rows := p_rows p;
     p_expected := p_expected p; p_since_lf := p_since_lf p |}.

(** [end_line]: the first line fixes the number of fields ([names] has one
    entry, so at least one); a later line with more fields is an error
    ("Expected n fields in line k, saw m"), one with fewer is completed
    with empty fields.  The next state is [START_RECORD]. *)
Definition end_line (p : parser) : result parser :=
  let n := length (p_line p) in
  let next ex row :=
    {| p_state := START_RECORD; p_field := EmptyString; p_line := [];
       p_rows := p_rows p ++ [row]; p_expected := Some ex;
       p_since_lf := p_since_lf p |} in
  match p_expected p with
  | None => Ok (next (Nat.max n 1) (p_line p))
  | Some ex =>
      if ex <? n then Raise ParserError
      else Ok (next ex (p_line p ++ repeat EmptyString (ex - n)))
  end.

Definition start_field (p : parser) (c : ascii) : result parser :=
  if Ascii.eqb c Py.LF then end_line (end_field p)
  else if Ascii.eqb c Py.CR then Ok (set_state EAT_CRNL (end_field p))
  else if Ascii.eqb c Py.DQUOTE then Ok (set_state IN_QUOTED_FIELD p)
  else if Ascii.eqb c DELIM then Ok (set_state START_FIELD (end_field p))
  else Ok (set_state IN_FIELD (push c p)).

Definition start_record (p : parser) (c : ascii) : result parser :=
  if Ascii.eqb c Py.LF then Ok (set_state START_RECORD p)
  else if Ascii.eqb c Py.CR then Ok (set_state EAT_CRNL_NOP p)
  else if is_blank c then Ok (set_state WHITESPACE_LINE p)
  else start_field (set_state START_FIELD p) c.

Definition in_field (p : parser) (c : ascii) : result parser :=
  if Ascii.eqb c Py.LF then end_line (end_field p)
  else if Ascii.eqb c Py.CR then Ok (set_state EAT_CRNL (end_field p))
  else if Ascii.eqb c DELIM then Ok (set_state START_FIELD (end_field p))
  else Ok (push c p).

Definition in_quoted_field (p : parser) (c : ascii) : result parser :=
  if Ascii.eqb c Py.DQUOTE then Ok (set_state QUOTE_IN_QUOTED_FIELD p)
  else Ok (push c p).

Definition quote_in_quoted_field (p : parser) (c : ascii) : result parser :=
  if Ascii.eqb c Py.DQUOTE then Ok (set_state IN_QUOTED_FIELD (push c p))
  else if Ascii.eqb c DELIM then Ok (set_state START_FIELD (end_field p))
  else if Ascii.eqb c Py.LF then end_line (end_field p)
  else if Ascii.eqb c Py.CR then Ok (set_state EAT_CRNL (end_field p))
  else Ok (set_state IN_FIELD (push c p)).

(** After a CR that ended a field: LF completes CR LF; a delimiter ends the
    line and opens the next one with an empty field; any other character
    is read again as the first of the next line. *)
Definition eat_crnl (p : parser) (c : ascii) : result parser :=
  if Ascii.eqb c Py.LF then end_line p
  else if Ascii.eqb c DELIM then
    let* p' := end_line p in Ok (set_state START_FIELD (end_field p'))
  else
    let* p' := end_line p in start_record p' c.

(** After a CR on a skipped line. *)
Definition eat_crnl_nop (p : parser) (c : ascii) : result parser :=
  if Ascii.eqb c Py.LF || Ascii.eqb c DELIM then Ok (set_state START_RECORD p)
  else start_record (set_state START_RECORD p) c.

(** A line that has held only blanks so far is dropped when it ends; at its
    first other character the tokenizer steps back ([back]). *)
Definition whitespace_line (back : parser -> ascii -> result parser)
    (p : parser) (c : ascii) : result parser :=
  if Ascii.eqb c Py.LF then Ok (set_state START_RECORD p)
  else if Ascii.eqb c Py.CR then Ok (set_state EAT_CRNL_NOP p)
  else if is_blank c then Ok p
  else back p c.

Definition next_since (s : string) (c : ascii) : string :=
  if Ascii.eqb c Py.LF then EmptyString else s +:+ Py.chr c.

Definition step_with (back : parser -> ascii -> result parser)
    (p : parser) (c : ascii) : result parser :=
  let* p' :=
    match p_state p with
    | START_RECORD => start_record p c
    | START_FIELD => start_field p c
    | IN_FIELD => in_field p c
    | IN_QUOTED_FIELD => in_quoted_field p c
    | QUOTE_IN_QUOTED_FIELD => quote_in_quoted_field p c
    | EAT_CRNL => eat_crnl p c
    | EAT_CRNL_NOP => eat_crnl_nop p c
    | WHITESPACE_LINE => whitespace_line back p c
    end in
  Ok (set_since (next_since (p_since_lf p) c) p').

(** The step back: the tokenizer returns to the character after the last
    line feed (to the start of the text when there is none) and reads from
    there again, up to the character it was at, as fields.  After a line
    feed that is the start of the line: its blanks become the start of its
    first field.  After a line that a lone carriage return ended, lines are
    read a second time; when this second reading comes to the step back
    again, it would repeat for ever: the tokenizer fills its buffer and
    gives up ("Buffer overflow caught"). *)
Definition step_again : parser -> ascii -> result parser :=
  step_with (fun _ _ => Raise ParserError).

Fixpoint feed_again (p : parser) (text : string) : result parser :=
  match text with
  | EmptyString => Ok p
  | String c text' => let* p' := step_again p c in feed_again p' text'
  end.

Definition go_back (p : parser) (c : ascii) : result parser :=
  feed_again (set_since EmptyString (set_state START_FIELD p))
             (p_since_lf p +:+ Py.chr c).

Definition step : parser -> ascii -> result parser := step_with go_back.

Fixpoint feed (p : parser) (text : string) : result parser :=
  match text with
  | EmptyString => Ok p
  | String c text' => let* p' := step p c in feed p' text'
  end.

(** [parser_handle_eof]: the end of the text ends an open line; inside a
    quoted field it is an error ("EOF inside string"). *)
Definition handle_eof (p : parser) : result (list (list string)) :=
  match p_state p with
  | START_RECORD | WHITESPACE_LINE | EAT_CRNL_NOP => Ok (p_rows p)
  | IN_QUOTED_FIELD => Raise ParserError
  | IN_FIELD | START_FIELD | QUOTE_IN_QUOTED_FIELD =>
      let* p' := end_line (end_field p) in Ok (p_rows p')
  | EAT_CRNL =>
      let* p' := end_line p in Ok (p_rows p')
  end.

(** The lines of [text], each a list of fields, all of the first line's
    length. *)
Definition tokenize (text : string) : result (list (list string)) :=
  let* p := feed init text in handle_eof p.

(** ** Writing: [csv.writer] with [QUOTE_MINIMAL] and line terminator LF

    A field is quoted when it holds the delimiter, the quote character or a
    character of the line terminator; a quote inside it is doubled. *)

Fixpoint existsb_string (f : ascii -> bool) (s : string) : bool :=
  match s with
  | EmptyString => false
  | String c s' => f c || existsb_string f s'
  end.

Definition needs_quotes (s : string) : bool :=
  existsb_string
    (fun c => Ascii.eqb c DELIM || Ascii.eqb c Py.DQUOTE || Ascii.eqb c Py.LF)
    s.

Fixpoint double_quotes (s : string) : string :=
  match s with
  | EmptyString => EmptyString
  | String c s' =>
      if Ascii.eqb c Py.DQUOTE then String c (String c (double_quotes s'))
      else String c (double_quotes s')
  end.

Definition write_field (s : string) : string :=
  if needs_quotes s
  then Py.chr Py.DQUOTE +:+ double_quotes s +:+ Py.chr Py.DQUOTE
  else s.

(** [writer.writerow(fields)] for a row of two or more fields. *)
Definition write_row (fields : list string) : string :=
  Py.join (Py.chr DELIM) (map write_field fields) +:+ Py.chr Py.LF.

End Csv.


(* ===================================================================== *)
(** * pandas: the operations the program calls                            *)
(* ===================================================================== *)

Module Pd.

(** ** [read_csv(data, compression='gzip', names=['column'])] *)

(** The strings [read_csv] reads as missing values ([STR_NA_VALUES]). *)
Definition na_values : list string :=
  [ ""; "#N/A"; "#N/A N/A"; "#NA"; "-1.#IND"; "-1.#QNAN"; "-NaN"; "-nan";
    "1.#IND"; "1.#QNAN"; "<NA>"; "N/A"; "NA"; "NULL"; "NaN"; "n/a"; "nan";
    "null" ].

Definition is_na (s : string) : bool := existsb (String.eqb s) na_values.

Definition na_filter (s : string) : option string :=
  if is_na s then None else Some s.

(** A field is read as a C string: it ends at its first NUL. *)
Fixpoint c_str (s : string) : string :=
  match s with
  | EmptyString => EmptyString
  | String c s' =>
      if Ascii.eqb c Py.NUL then EmptyString else String c (c_str s')
  end.

(** *** Literals *)

Definition isspace_ascii (c : ascii) : bool :=
  Ascii.eqb c " "%char
  || let n := nat_of_ascii c in (9 <=? n) && (n <=? 13).

Definition is_digit (c : ascii) : bool :=
  let n := nat_of_ascii c in (48 <=? n) && (n <=? 57).

Definition is_sign (c : ascii) : bool :=
  Ascii.eqb c "+"%char || Ascii.eqb c "-"%char.

Fixpoint skip (f : ascii -> bool) (s : string) : string :=
  match s with
  | String c s' => if f c then skip f s' else s
  | EmptyString => EmptyString
  end.

Fixpoint count_while (f : ascii -> bool) (s : string) : nat :=
  match s with
  | String c s' => if f c then S (count_while f s') else 0
  | EmptyString => 0
  end.

Definition skip_sign (s : string) : string :=
  match s with
  | String c s' => if is_sign c then s' else s
  | EmptyString => EmptyString
  end.

Definition starts_with (c : ascii) (s : string) : bool :=
  match s with
  | String x _ => Ascii.eqb x c
  | EmptyString => false
  end.

(** The number that the digits at the head of [s] write, after [acc]. *)
Fixpoint digits_value (acc : Z) (s : string) : Z :=
  match s with
  | String c s' =>
      if is_digit c
      then digits_value (10 * acc + Z.of_nat (nat_of_ascii c - 48)) s'
      else acc
  | EmptyString => acc
  end.

Definition int64_max : Z := (2 ^ 63 - 1)%Z.
Definition uint64_max : Z := (2 ^ 64 - 1)%Z.

(** What converting a field, or a column, to a type comes to. *)
Inductive conversion :=
| Converted
| Overflow          (* [ERROR_OVERFLOW] *)
| Invalid.          (* [ERROR_NO_DIGITS], [ERROR_INVALID_CHARS] *)

(** [str_to_int64]: blanks, an optional sign, digits, blanks.  The digits
    are checked against the range as they are read, before what follows
    them is looked at. *)
Definition str_to_int64 (s : string) : conversion :=
  let s1 := skip isspace_ascii s in
  let s2 := skip_sign s1 in
  let bound :=
    if starts_with "-"%char s1 then (int64_max + 1)%Z else int64_max in
  if 0 <? count_while is_digit s2 then
    if (bound <? digits_value 0 s2)%Z then Overflow
    else match skip isspace_ascii (skip is_digit s2) with
         | EmptyString => Converted
         | _ => Invalid
         end
  else Invalid.

(** [str_to_uint64]: a field that starts with a minus sign is noted and
    not read any further; a number above [int64_max] is noted too. *)
Inductive uint_field :=
| Negative
| Unsigned (above_int64 : bool)
| Unread (why : conversion).

Definition str_to_uint64 (s : string) : uint_field :=
  let s1 := skip isspace_ascii s in
  if starts_with "-"%char s1 then Negative
  else
    let s2 := if starts_with "+"%char s1 then skip_sign s1 else s1 in
    if 0 <? count_while is_digit s2 then
      if (uint64_max <? digits_value 0 s2)%Z then Unread Overflow
      else match skip isspace_ascii (skip is_digit s2) with
           | EmptyString => Unsigned (int64_max <? digits_value 0 s2)%Z
           | _ => Unread Invalid
           end
    else Unread Invalid.

(** [precise_xstrtod], the default converter to [float64]: blanks, an
    optional sign, digits with an optional fraction (at least one digit in
    all), an optional exponent with at least one digit, blanks. *)

(** The mantissa: [Some rest] when at least one digit was read. *)
Definition scan_mantissa (s : string) : option string :=
  let n1 := count_while is_digit s in
  match skip is_digit s with
  | String c s2 =>
      if Ascii.eqb c "."%char then
        if 0 <? n1 + count_while is_digit s2
        then Some (skip is_digit s2) else None
      else if 0 <? n1 then Some (String c s2) else None
  | EmptyString => if 0 <? n1 then Some EmptyString else None
  end.

Definition is_exponent_mark (c : ascii) : bool :=
  Ascii.eqb c "e"%char || Ascii.eqb c "E"%char.

(** The exponent: read only when digits follow. *)
Definition scan_exponent (s : string) : string :=
  match s with
  | String c s' =>
      if is_exponent_mark c then
        let s2 := skip_sign s' in
        if 0 <? count_while is_digit s2 then skip is_digit s2 else s
      else s
  | EmptyString => EmptyString
  end.

(** The converter keeps the first 17 digits of the mantissa and counts the
    integer digits it drops; its exponent is a C [int], which wraps
    around. *)
Definition max_digits : nat := 17.

Definition wrap_int (n : Z) : Z := ((n + 2 ^ 31) mod 2 ^ 32 - 2 ^ 31)%Z.

Fixpoint exponent_value (acc : Z) (s : string) : Z :=
  match s with
  | String c s' =>
      if is_digit c
      then exponent_value
             (wrap_int (10 * acc + Z.of_nat (nat_of_ascii c - 48))) s'
      else acc
  | EmptyString => acc
  end.

(** The digits kept of a mantissa [s], as a number, and the power of ten
    they are to be scaled by when no exponent is written. *)
Definition mantissa_parts (s : string) : Z * Z :=
  let n1 := count_while is_digit s in
  let k1 := Nat.min n1 max_digits in
  let fraction :=
    match skip is_digit s with
    | String c s2 => if Ascii.eqb c "."%char then s2 else EmptyString
    | EmptyString => EmptyString
    end in
  let k2 := Nat.min (count_while is_digit fraction) (max_digits - k1) in
  (digits_value (digits_value 0 (substring 0 k1 s)) (substring 0 k2 fraction),
   (Z.of_nat (n1 - k1) - Z.of_nat k2)%Z).

(** The exponent written after the mantissa, [0] when there is none. *)
Definition written_exponent (rest : string) : Z :=
  match rest with
  | String c s' =>
      if is_exponent_mark c && (0 <? count_while is_digit (skip_sign s')) then
        let n := exponent_value 0 (skip_sign s') in
        if starts_with "-"%char s' then (- n)%Z else n
      else 0%Z
  | EmptyString => 0%Z
  end.

(** The largest double is [2^1024 - 2^971]; a value from half a step above
    it on is rounded to infinity. *)
Definition double_overflow : Z := (2 ^ 1024 - 2 ^ 970)%Z.

(** [ERANGE]: an exponent above 308, or an infinite result. *)
Definition out_of_range (mantissa rest : string) : bool :=
  let (m, e0) := mantissa_parts mantissa in
  let e := wrap_int (e0 + written_exponent rest) in
  ((308 <? e) || ((0 <? e) && (double_overflow <=? m * 10 ^ e)))%Z.

Definition lower (c : ascii) : ascii :=
  let n := nat_of_ascii c in
  if (65 <=? n) && (n <=? 90) then ascii_of_nat (n + 32) else c.

(** [strcasecmp(s, t) == 0]. *)
Fixpoint eqb_nocase (s t : string) : bool :=
  match s, t with
  | EmptyString, EmptyString => true
  | String a s', String b t' => Ascii.eqb (lower a) (lower b) && eqb_nocase s' t'
  | _, _ => false
  end.

Definition is_inf (s : string) : bool :=
  existsb (eqb_nocase s)
    ["inf"; "+inf"; "-inf"; "infinity"; "+infinity"; "-infinity"].

(** A field that the converter reads in full and within range, or one of
    the spellings of infinity. *)
Definition is_float (s : string) : bool :=
  let mantissa := skip_sign (skip isspace_ascii s) in
  match scan_mantissa mantissa with
  | Some rest =>
      match skip isspace_ascii (scan_exponent rest) with
      | EmptyString => negb (out_of_range mantissa rest) || is_inf s
      | _ => is_inf s
      end
  | None => is_inf s
  end.

(** [to_boolean]: [true] or [false] in any case. *)
Definition is_boolean (s : string) : bool :=
  eqb_nocase s "true" || eqb_nocase s "false".

(** *** The type of a column *)

(** A column as [read_csv] returns it. *)
Inductive column :=
| Strings (values : list (option string))  (* dtype object: str and NaN *)
| NotStrings (rows : nat).                 (* numbers or booleans *)

(** [_try_int64]: the first field that is not read decides; missing values
    are passed over. *)
Fixpoint try_int64 (ws : list string) : conversion :=
  match ws with
  | [] => Converted
  | w :: ws' =>
      if is_na w then try_int64 ws'
      else match str_to_int64 w with
           | Converted => try_int64 ws'
           | failure => failure
           end
  end.

(** [_try_uint64], tried when [_try_int64] has met an overflow.  It notes
    whether it has seen a missing value, a minus sign, a number above
    [int64_max]; a column that mixes such a number with one of the former
    is refused with [ValueError], one with a minus sign alone with
    [OverflowError]. *)
Inductive uint_column :=
| UintColumn
| UintNone            (* a field is no number: the next type is tried *)
| UintOverflowError
| UintValueError.

Fixpoint try_uint64 (seen_sint seen_uint seen_null : bool) (ws : list string)
    : uint_column :=
  match ws with
  | [] =>
      if seen_uint && (seen_null || seen_sint) then UintValueError
      else if seen_sint then UintOverflowError
      else UintColumn
  | w :: ws' =>
      if is_na w then try_uint64 seen_sint seen_uint true ws'
      else match str_to_uint64 w with
           | Negative => try_uint64 true seen_uint seen_null ws'
           | Unsigned above => try_uint64 seen_sint (seen_uint || above)
                                 seen_null ws'
           | Unread Overflow => UintOverflowError
           | Unread _ => UintNone
           end
  end.

Definition missing_or (f : string -> bool) (ws : list string) : bool :=
  forallb (fun w => is_na w || f w) ws.

(** [_convert_tokens] with no dtype given: the types are tried in the order
    [int64], [float64], [bool], and the column stays text when none fits.
    After an [OverflowError] the column is text at once; after the
    [ValueError] of [_try_uint64] it is text in which the strings for
    missing values are kept as they are.  A frame without rows has text
    columns. *)
Definition infer (ws : list string) : column :=
  let text := Strings (map na_filter ws) in
  let float_or_bool :=
    if missing_or is_float ws || missing_or is_boolean ws
    then NotStrings (length ws) else text in
  match ws with
  | [] => Strings []
  | _ =>
      match try_int64 ws with
      | Converted => NotStrings (length ws)
      | Invalid => float_or_bool
      | Overflow =>
          match try_uint64 false false false ws with
          | UintColumn => NotStrings (length ws)
          | UintNone => float_or_bool
          | UintOverflowError => text
          | UintValueError => Strings (map Some ws)
          end
      end
  end.

(** The column named [column] of the frame read from [text].  With one name
    for lines of [w] fields, the first [w - 1] fields of each line become
    the index and the last one is the column. *)
Definition read_csv (text : string) : result column :=
  let* rows := Csv.tokenize text in
  let width := match rows with [] => 1 | r :: _ => Nat.max (length r) 1 end in
  Ok (infer (map (fun r => c_str (nth (width - 1) r EmptyString)) rows)).

(** ** [.str.split(r'\s+', 1, expand=True)] *)

(** The [.str] accessor is there for strings only. *)
Definition str (c : column) : result (list (option string)) :=
  match c with
  | Strings vs => Ok vs
  | NotStrings _ => Raise AttributeError
  end.

(** A frame: its column labels (positions when not named) and its rows. *)
Record frame := {
  columns : list string;
  rows : list (list (option string))
}.

Definition split_value (v : option string) : list (option string) :=
  match v with
  | None => [None]
  | Some s => map Some (Re.pieces (Re.split1 s))
  end.

Definition pad_row (width : nat) (r : list (option string))
    : list (option string) :=
  r ++ repeat None (width - length r).

(** The pieces of each value, one per column: as many columns as the
    longest list of pieces (none for an empty column); a missing value is
    missing in every column, and shorter rows are completed with missing
    values. *)
Definition str_split_expand (vs : list (option string)) : frame :=
  let parts := map split_value vs in
  let width := foldr Nat.max 0 (map (@length _) parts) in
  {| columns := map Py.str_nat (seq 0 width);
     rows := map (pad_row width) parts |}.

(** [df.columns = names]: the lengths must agree. *)
Definition set_columns (names : list string) (df : frame) : result frame :=
  if length names =? length (columns df)
  then Ok {| columns := names; rows := rows df |}
  else Raise ValueError.

(** ** [df.pivot_table(index=[key], aggfunc='size')] *)

(** A series of sizes: labels in order, each with its count. *)
Abbreviation sizes := (list (string * nat)).

(** One more row for [k], in a table kept sorted by label. *)
Fixpoint bump (k : string) (t : sizes) : sizes :=
  match t with
  | [] => [(k, 1)]
  | (k', n) :: t' =>
      match String.compare k k' with
      | Eq => (k', S n) :: t'
      | Lt => (k, 1) :: t
      | Gt => (k', n) :: bump k t'
      end
  end.

(** [groupby(key).size()]: rows whose key is missing are left out; the
    groups come sorted by key. *)
Definition group_sizes (keys : list (option string)) : sizes :=
  fold_left (fun t k => match k with Some k => bump k t | None => t end)
            keys [].

Fixpoint index_of (name : string) (names : list string) : option nat :=
  match names with
  | [] => None
  | n :: rest =>
      if String.eqb n name then Some 0 else option_map S (index_of name rest)
  end.

Definition column_values (i : nat) (df : frame) : list (option string) :=
  map (fun r => nth i r None) (rows df).

Definition pivot_table_size (key : string) (df : frame) : result sizes :=
  match index_of key (columns df) with
  | Some i => Ok (group_sizes (column_values i df))
  | None => Raise KeyError
  end.

(** ** [s.sort_values(ascending=False)], [.index], [s.reindex(labels)] *)

Fixpoint insert_desc (x : string * nat) (l : sizes) : sizes :=
  match l with
  | [] => [x]
  | y :: l' => if snd x <? snd y then y :: insert_desc x l' else x :: l
  end.

(** Descending by count.  Entries with equal counts keep their order here;
    the library's default sort does not promise any order among them. *)
Definition sort_values_desc (s : sizes) : sizes := foldr insert_desc [] s.

Definition index {V} (s : list (string * V)) : list string := map fst s.

Fixpoint lookup (k : string) (s : sizes) : option nat :=
  match s with
  | [] => None
  | (k', n) :: s' => if String.eqb k' k then Some n else lookup k s'
  end.

(** A series after [reindex]: a label absent from the original has no
    value (NaN). *)
Abbreviation series := (list (string * option nat)).

Definition reindex (s : sizes) (labels : list string) : series :=
  map (fun k => (k, lookup k s)) labels.

(** ** [s.head(n)] *)

(** The first [n] rows; for a negative [n], all rows but the last [-n]. *)
Definition head {A} (n : Z) (s : list A) : list A :=
  if (0 <=? n)%Z then take (Z.to_nat n) s
  else take (length s - Z.to_nat (- n)) s.

(** ** [s.to_csv(path, index=True, header=False)] *)

(** The archive formats that [to_csv] writes, and the endings of a path
    that select them ([compression='infer'], the default): the first ending
    of the table that the path has, in lower case, decides. *)
Inductive compression := Tar | Gzip | Bz2 | Zip | Xz | Zstd.

Definition extension_to_compression : list (string * compression) :=
  [ (".tar", Tar); (".tar.gz", Tar); (".tar.bz2", Tar); (".tar.xz", Tar);
    (".gz", Gzip); (".bz2", Bz2); (".zip", Zip); (".xz", Xz); (".zst", Zstd) ].

Definition infer_compression (path : string) : option compression :=
  option_map snd
    (List.find (fun ext => Py.endswith (Py.lower path) (fst ext))
               extension_to_compression).

(** What [to_csv] gets when it opens its path ([get_handle]): a file of
    that name, created or emptied; for a URL that answers, a buffer in
    memory, which is dropped after the writing; or an exception (a
    directory that does not exist, a name that cannot be used, a URL that
    does not answer). *)
Inductive handle :=
| File
| Memory
| NoHandle (e : exn).

(** The text that is written. *)

Definition has_nan (s : series) : bool :=
  existsb (fun e => match snd e with None => true | Some _ => false end) s.

(** A value as text: an integer; in a series with missing values, a float
    or nothing. *)
Definition csv_value (float : bool) (v : option nat) : string :=
  match v with
  | Some n => if float then Py.str_nat n +:+ ".0" else Py.str_nat n
  | None => EmptyString
  end.

Definition to_csv (index_label : string) (with_index with_header : bool)
    (s : series) : string :=
  let row (e : string * option nat) :=
    (if with_index then [fst e] else []) ++ [csv_value (has_nan s) (snd e)] in
  let header :=
    if with_header
    then [(if with_index then [index_label] else []) ++ ["0"]] else [] in
  String.concat EmptyString (map Csv.write_row (header ++ map row s)).

(** ** [s.to_string(header=False)] *)

Fixpoint spaces (n : nat) : string :=
  match n with
  | 0 => EmptyString
  | S n' => String " "%char (spaces n')
  end.

Definition ljust (w : nat) (s : string) : string :=
  s +:+ spaces (w - String.length s).
Definition rjust (w : nat) (s : string) : string :=
  spaces (w - String.length s) +:+ s.

Definition max_length (l : list string) : nat :=
  foldr Nat.max 0 (map String.length l).

(** A label as printed: tab, CR and LF are written as escapes. *)
Fixpoint escape_label (s : string) : string :=
  match s with
  | EmptyString => EmptyString
  | String c s' =>
      (if Ascii.eqb c Py.TAB then "\t"
       else if Ascii.eqb c Py.CR then "\r"
       else if Ascii.eqb c Py.LF then "\n"
       else Py.chr c) +:+ escape_label s'
  end.

Definition string_value (float : bool) (v : option nat) : string :=
  match v with
  | Some n => " " +:+ Py.str_nat n +:+ (if float then ".0" else EmptyString)
  | None => " NaN"
  end.

(** One line per entry: the label, padded to the longest label, three
    spaces, and the value, right-aligned.  An empty series prints as
    [Series([], )]. *)
Definition to_string (s : series) : string :=
  match s with
  | [] => "Series([], )"
  | _ =>
      let labels := map escape_label (index s) in
      let values := map (fun e => string_value (has_nan s) (snd e)) s in
      let wl := max_length labels in
      let wv := max_length values in
      Py.join (Py.chr Py.LF)
        (map (fun e => ljust wl (escape_label (fst e)) +:+ "   "
                       +:+ rjust wv (string_value (has_nan s) (snd e))) s)
  end.

End Pd.

(* ===================================================================== *)
(** * debindex.py                                                         *)
(* ===================================================================== *)

Module Debindex.

(** ** The world the program runs in *)

Inductive level := INFO | WARNING | ERROR | CRITICAL.

Definition level_rank (l : level) : nat :=
  match l with INFO => 20 | WARNING => 30 | ERROR => 40 | CRITICAL => 50 end.

(** What the program does not compute itself. *)
Record env := {
  (** [requests.get(url).content]: the body of the response, whatever its
      status, or the exception raised by the request *)
  http_get : string -> result (list byte);
  (** the gzip reader past the fixed header, see [Gzip.read] *)
  inflate : byte -> list byte -> result string;
  (** [datetime.now()] *)
  now : Py.datetime;
  (** [open(name, 'wb')]: the exception it raises (a directory that does
      not exist or is protected, a name with a NUL, ...), or none when it
      creates or empties the file *)
  open_wb : string -> option exn;
  (** what [to_csv] gets when it opens a path, see [Pd.handle] *)
  get_handle : string -> Pd.handle;
  (** the archive that [to_csv] writes at a path with the ending of an
      archive format, given the text as bytes *)
  compress : string -> list byte -> list byte
}.

(** What the program changes.  Files are named contents.  [log] holds the
    records given to [_logger], [log_level] the threshold below which a
    record is not shown. *)
Record state := {
  files : gmap string (list byte);
  stdout : list string;
  log_level : level;
  log : list (level * string)
}.

(** A computation: it may read and change the state and may raise; the
    changes made before an exception stay. *)
Definition M (A : Type) : Type := state -> result A * state.

Definition ret {A} (a : A) : M A := fun st => (Ok a, st).
Definition lift {A} (r : result A) : M A := fun st => (r, st).

Definition bindM {A B} (m : M A) (k : A -> M B) : M B :=
  fun st =>
    match m st with
    | (Ok a, st') => k a st'
    | (Raise e, st') => (Raise e, st')
    end.

Declare Scope prog_scope.
Delimit Scope prog_scope with prog.
Notation "x <- m ;; k" := (bindM m (fun x => k))
  (at level 100, m at next level, right associativity) : prog_scope.
Notation "m ;; k" := (bindM m (fun _ => k))
  (at level 100, k at level 200, right associativity) : prog_scope.
Open Scope prog_scope.

(** [try: body except <handled>: handler]. *)
Definition try_except {A} (body : M A) (handler : exn -> option (M A)) : M A :=
  fun st =>
    match body st with
    | (Ok a, st') => (Ok a, st')
    | (Raise e, st') =>
        match handler e with
        | Some h => h st'
        | None => (Raise e, st')
        end
    end.

(** The state after a line is printed, a record is logged, the threshold is
    set, a file is written. *)
Definition printed (st : state) (s : string) : state :=
  {| files := files st; stdout := stdout st ++ [s];
     log_level := log_level st; log := log st |}.

Definition logged (st : state) (l : level) (msg : string) : state :=
  {| files := files st; stdout := stdout st;
     log_level := log_level st; log := log st ++ [(l, msg)] |}.

Definition with_level (st : state) (l : level) : state :=
  {| files := files st; stdout := stdout st; log_level := l; log := log st |}.

Definition saved (st : state) (name : string) (content : list byte) : state :=
  {| files := <[name := content]> (files st); stdout := stdout st;
     log_level := log_level st; log := log st |}.

Definition print (s : string) : M unit := fun st => (Ok tt, printed st s).

Definition logger_log (l : level) (msg : string) : M unit :=
  fun st => (Ok tt, logged st l msg).

Definition logger_info : string -> M unit := logger_log INFO.
Definition logger_error : string -> M unit := logger_log ERROR.

Definition logger_setLevel (l : level) : M unit :=
  fun st => (Ok tt, with_level st l).

(** The records of the log that are shown. *)
Definition shown (st : state) : list (level * string) :=
  List.filter (fun r => level_rank (log_level st) <=? level_rank (fst r))
              (log st).

(** [open(name, 'wb').write(content)]. *)
Definition write_file (E : env) (name : string) (content : list byte)
    : M unit :=
  fun st =>
    match open_wb E name with
    | None => (Ok tt, saved st name content)
    | Some e => (Raise e, st)
    end.

(** [df.to_csv(path, ...)] for the text [text] of the frame: the text is
    encoded as UTF-8 and written to the handle, through the encoder of the
    archive format when the path has the ending of one. *)
Definition to_csv_path (E : env) (path : string) (text : string) : M unit :=
  fun st =>
    match get_handle E path with
    | Pd.File =>
        let data := Py.encode_utf8 text in
        (Ok tt,
         saved st path
           match Pd.infer_compression path with
           | Some _ => compress E path data
           | None => data
           end)
    | Pd.Memory => (Ok tt, st)
    | Pd.NoHandle e => (Raise e, st)
    end.

Definition read_file (name : string) : M (list byte) :=
  fun st =>
    match files st !! name with
    | Some content => (Ok content, st)
    | None => (Raise FileNotFoundError, st)
    end.

Definition quoted (s : string) : string :=
  Py.chr Py.DQUOTE +:+ s +:+ Py.chr Py.DQUOTE.

(** ** The functions of the program *)

(** What [_read_csv] is given: a path or an in-memory stream. *)
Inductive source :=
| Path (file_path : string)
| BytesIO (content : list byte).

Definition source_bytes (data : source) : M (list byte) :=
  match data with
  | Path p => read_file p
  | BytesIO bs => ret bs
  end.

(** [_read_csv(data, column_names)], with [sep] at its default [\s+]. *)
Definition _read_csv (E : env) (data : source) (column_names : list string)
    : M Pd.frame :=
  bs <- source_bytes data ;;
  lift (let* text := Gzip.read (inflate E) bs in
        let* df := Pd.read_csv text in
        let* values := Pd.str df in
        Pd.set_columns column_names (Pd.str_split_expand values)).

Definition download_index (E : env) (url output_file_name : string) : M unit :=
  logger_info ("Downloading index file from " +:+ quoted url +:+ " ...") ;;
  content <- lift (http_get E url) ;;
  write_file E output_file_name content ;;
  logger_info "Downloading finished.".

Definition read_index_remote (E : env) (url : string)
    (column_names : list string) : M Pd.frame :=
  logger_info ("Reading index file from " +:+ quoted url +:+ " ...") ;;
  s <- lift (http_get E url) ;;
  df <- _read_csv E (BytesIO s) column_names ;;
  logger_info "Reading finished." ;;
  ret df.

Definition read_index_local (E : env) (file_path : string)
    (column_names : list string) : M Pd.frame :=
  logger_info ("Reading index file from local file "
               +:+ quoted file_path +:+ " ...") ;;
  df <- _read_csv E (Path file_path) column_names ;;
  logger_info "Reading finished." ;;
  ret df.

(** [count_occurrences(df, index)] for an index of one column, as [main]
    calls it. *)
Definition count_occurrences (df : Pd.frame) (index : string) : M Pd.series :=
  logger_info "Counting index entries occurrences ..." ;;
  df_pivoted <- lift (Pd.pivot_table_size index df) ;;
  let df_pivoted :=
    Pd.reindex df_pivoted (Pd.index (Pd.sort_values_desc df_pivoted)) in
  logger_info "Counting finished." ;;
  ret df_pivoted.

Definition rule : string :=
  "------------------------------------------------------------------------------".

(** [output_result(df, file_path, number_of_elements)]; the series carries
    the index name [index_name] its pivot table gave it. *)
Definition output_result (E : env) (index_name : string)
    (df : option Pd.series) (file_path : option string)
    (number_of_elements : Z) : M unit :=
  match df with
  | None => ret tt
  | Some df =>
      match file_path with
      | Some file_path =>
          logger_info ("Saving result to " +:+ quoted file_path +:+ " ...") ;;
          to_csv_path E file_path (Pd.to_csv index_name true false df) ;;
          logger_info "Saving finished."
      | None =>
          print rule ;;
          print ("  Top " +:+ Py.str_Z number_of_elements
                 +:+ " packages with more files associated:") ;;
          print rule ;;
          print (Pd.to_string (Pd.head number_of_elements df)) ;;
          print rule
      end
  end.

(** The command line, as [click] hands it to [main]. *)
Record args := {
  baseurl : string;
  architecture : string;
  download : bool;
  log_level_arg : level;          (* one of info, warning, error, critical *)
  output : option string;
  number_of_elements : Z
}.

Definition index_file_name (a : args) : string :=
  "Contents-" +:+ architecture a +:+ ".gz".

Definition index_file_url (a : args) : string :=
  Py.rstrip_char "/"%char (Py.strip (baseurl a)) +:+ "/" +:+ index_file_name a.

(** The name of the downloaded file: the time stamp is inserted before the
    last of the pieces the index file name has between full stops. *)
Definition download_file_name (a : args) (timestamp : string) : string :=
  Py.join "." (Py.list_insert (-1) timestamp
                 (Py.split "."%char (index_file_name a))).

(** The body of [main]'s [try]. *)
Definition main_try (E : env) (a : args) : M unit :=
  df <- (if download a then
           let timestamp := Py.strftime (now E) in
           let name := download_file_name a timestamp in
           download_index E (index_file_url a) name ;;
           read_index_local E name ["filename"; "package"]
         else
           read_index_remote E (index_file_url a) ["filename"; "package"]) ;;
  df_result <- count_occurrences df "package" ;;
  output_result E "package" (Some df_result) (output a)
    (number_of_elements a).

Definition main_except (a : args) (e : exn) : option (M unit) :=
  match e with
  | InvalidURL =>
      Some (logger_error ("Invalid URL " +:+ quoted (Py.strip (baseurl a))))
  | BadGzipFile => Some (logger_error "Could not read index file")
  | KeyboardInterrupt => Some (logger_info "Canceled by user.")
  | _ => None
  end.

Definition title : string :=
  "Debian Index Statistics Tool " +:+ quoted "debindex.py".

Definition main (E : env) (a : args) : M unit :=
  logger_setLevel (log_level_arg a) ;;
  print title ;;
  try_except (main_try E a) (main_except a) ;;
  print "Finished.".

(** The command line when only the architecture is given: the defaults of
    the options that [click] declares for [main]. *)
Definition default_args (architecture : string) : args :=
  {| baseurl := "http://ftp.uk.debian.org/debian/dists/stable/main";
     architecture := architecture;
     download := false;
     log_level_arg := INFO;
     output := None;
     number_of_elements := 10 |}.

End Debindex.

(* ===================================================================== *)
(** * Sample worlds                                                       *)
(* ===================================================================== *)

Module Sample.
Import Debindex.

(** A decoder for members made of one stored DEFLATE block and no optional
    header field (what [gzip.compress(data, compresslevel=0)] writes); the
    CRC is not checked. *)
Definition inflate_stored (flag : byte) (body : list byte) : result string :=
  match flag, body with
  | x00, x01 :: l0 :: l1 :: _ :: _ :: rest =>
      let len := Byte.to_nat l0 + 256 * Byte.to_nat l1 in
      if length rest =? len + 8
      then Ok (string_of_list_byte (take len rest))
      else Raise EOFError
  | _, _ => Raise ZlibError
  end.

Definition gz_header : list byte :=
  [x1f; x8b; x08; x00; x00; x00; x00; x00; x04; x03].

(** An encoder for such members (data of less than 65536 bytes): the
    header, the stored block, the CRC-32 of the data and their length. *)
Definition crc_shift (crc : N) : N :=
  if N.odd crc then N.lxor (N.shiftr crc 1) 3988292384 else N.shiftr crc 1.

Definition crc_byte (crc : N) (b : byte) : N :=
  Nat.iter 8 crc_shift (N.lxor crc (Byte.to_N b)).

Definition crc32 (data : list byte) : N :=
  N.lxor (fold_left crc_byte data 4294967295%N) 4294967295.

Definition low_byte (n : N) : byte :=
  match Byte.of_N (n mod 256) with Some b => b | None => x00 end.

Definition little_endian (width : nat) (n : N) : list byte :=
  map (fun i => low_byte (n / 256 ^ N.of_nat i)) (seq 0 width).

Definition gzip_stored (data : list byte) : list byte :=
  let len := N.of_nat (length data) in
  gz_header ++ [x01] ++ little_endian 2 len ++ little_endian 2 (65535 - len)
  ++ data ++ little_endian 4 (crc32 data) ++ little_endian 4 len.

(** gzip of the three lines
    [usr/bin/foo   util-pkg], [usr/bin/bar   util-pkg],
    [usr/lib/baz   lib-pkg]. *)
Definition example_gz : list byte :=
  gz_header ++
  [x01; x44; x00; xbb; xff; x75; x73; x72; x2f; x62; x69; x6e; x2f; x66;
   x6f; x6f; x20; x20; x20; x75; x74; x69; x6c; x2d; x70; x6b; x67; x0a;
   x75; x73; x72; x2f; x62; x69; x6e; x2f; x62; x61; x72; x20; x20; x20;
   x75; x74; x69; x6c; x2d; x70; x6b; x67; x0a; x75; x73; x72; x2f; x6c;
   x69; x62; x2f; x62; x61; x7a; x20; x20; x20; x6c; x69; x62; x2d; x70;
   x6b; x67; x0a; xc1; xc8; x03; xc8; x44; x00; x00; x00].

(** gzip of no data at all. *)
Definition empty_gz : list byte :=
  gz_header ++
  [x01; x00; x00; xff; xff; x00; x00; x00; x00; x00; x00; x00; x00].

(** gzip of the line [bin/sh   shells/dash, shells/bash]. *)
Definition comma_gz : list byte :=
  gz_header ++
  [x01; x22; x00; xdd; xff; x62; x69; x6e; x2f; x73; x68; x20; x20; x20;
   x73; x68; x65; x6c; x6c; x73; x2f; x64; x61; x73; x68; x2c; x20; x73;
   x68; x65; x6c; x6c; x73; x2f; x62; x61; x73; x68; x0a; xad; x18; x2e;
   x9f; x22; x00; x00; x00].

(** gzip of the line [bin/sh   shells/dash,shells/bash]. *)
Definition comma_nospace_gz : list byte :=
  gz_header ++
  [x01; x21; x00; xde; xff; x62; x69; x6e; x2f; x73; x68; x20; x20; x20;
   x73; x68; x65; x6c; x6c; x73; x2f; x64; x61; x73; x68; x2c; x73; x68;
   x65; x6c; x6c; x73; x2f; x62; x61; x73; x68; x0a; xbf; x25; xdd; x4c;
   x21; x00; x00; x00].

(** gzip of the line [usr/bin/foo ], which ends in a space. *)
Definition trailing_gz : list byte :=
  gz_header ++
  [x01; x0d; x00; xf2; xff; x75; x73; x72; x2f; x62; x69; x6e; x2f; x66;
   x6f; x6f; x20; x0a; x8e; xdf; xcc; x30; x0d; x00; x00; x00].

(** A page of text, as a server answers for a file it does not have. *)
Definition not_found_page : list byte :=
  list_byte_of_string "<html><body>404 Not Found</body></html>".

(** A gzip file cut after its first two bytes. *)
Definition truncated_gz : list byte := [x1f; x8b].

Definition mirror : string :=
  "http://ftp.uk.debian.org/debian/dists/stable/main".

Definition responses : list (string * result (list byte)) :=
  [ (mirror +:+ "/Contents-amd64.gz", Ok example_gz);
    (mirror +:+ "/Contents-empty.gz", Ok empty_gz);
    (mirror +:+ "/Contents-comma.gz", Ok comma_gz);
    (mirror +:+ "/Contents-nospace.gz", Ok comma_nospace_gz);
    (mirror +:+ "/Contents-trailing.gz", Ok trailing_gz);
    (mirror +:+ "/Contents-i386.gz", Ok not_found_page);
    (mirror +:+ "/Contents-short.gz", Ok truncated_gz);
    (mirror +:+ "/Contents-a/b.gz", Ok not_found_page);
    (mirror +:+ "/Contents-slow.gz", Raise KeyboardInterrupt);
    ("http:/Contents-amd64.gz", Raise InvalidURL) ].

Fixpoint assoc {V} (k : string) (l : list (string * V)) : option V :=
  match l with
  | [] => None
  | (k', v) :: l' => if String.eqb k' k then Some v else assoc k l'
  end.

(** The names of the files that can be written in the sample worlds: those
    made of letters, digits, full stops, hyphens and underscores, which
    name a file of the working directory. *)
Definition name_char (c : ascii) : bool :=
  let n := nat_of_ascii c in
  ((48 <=? n) && (n <=? 57)) || ((65 <=? n) && (n <=? 90))
  || ((97 <=? n) && (n <=? 122))
  || (n =? 45) || (n =? 46) || (n =? 95).

Fixpoint local_name (name : string) : bool :=
  match name with
  | EmptyString => false
  | String c EmptyString => name_char c
  | String c rest => name_char c && local_name rest
  end.

Definition world : env :=
  {| http_get := fun url =>
       match assoc url responses with
       | Some r => r
       | None => Raise ConnectionError
       end;
     inflate := inflate_stored;
     now := {| Py.year := 2024; Py.month := 1; Py.day := 2;
               Py.hour := 3; Py.minute := 4; Py.second := 5 |};
     open_wb := fun name =>
       if local_name name then None else Some FileNotFoundError;
     get_handle := fun path =>
       if local_name path then Pd.File else Pd.NoHandle OSError;
     compress := fun _ data => gzip_stored data |}.

Definition start : state :=
  {| files := ∅; stdout := []; log_level := INFO; log := [] |}.

Definition run (arch : string) (dl : bool) (out : option string) (n : Z)
    : args :=
  {| baseurl := mirror; architecture := arch; download := dl;
     log_level_arg := INFO; output := out; number_of_elements := n |}.

(** The three example lines, their table and their ranked result. *)
Definition example_text : string :=
  "usr/bin/foo   util-pkg" +:+ Py.chr Py.LF
  +:+ "usr/bin/bar   util-pkg" +:+ Py.chr Py.LF
  +:+ "usr/lib/baz   lib-pkg" +:+ Py.chr Py.LF.

Definition example_frame : Pd.frame :=
  {| Pd.columns := ["filename"; "package"];
     Pd.rows := [ [Some "usr/bin/foo"; Some "util-pkg"];
                  [Some "usr/bin/bar"; Some "util-pkg"];
                  [Some "usr/lib/baz"; Some "lib-pkg"] ] |}.

Definition example_ranked : Pd.sizes := [("util-pkg", 2); ("lib-pkg", 1)].

(** The line with a comma and the table the program makes of it. *)
Definition comma_line : string := "bin/sh   shells/dash, shells/bash".

Definition comma_frame : Pd.frame :=
  {| Pd.columns := ["filename"; "package"];
     Pd.rows := [ [Some ""; Some "shells/bash"] ] |}.

(** The table of the line [usr/bin/foo ]: its package is the empty
    string. *)
Definition trailing_frame : Pd.frame :=
  {| Pd.columns := ["filename"; "package"];
     Pd.rows := [ [Some "usr/bin/foo"; Some ""] ] |}.

(** A state in which the example file has been downloaded. *)
Definition downloaded : state :=
  saved start "Contents-amd64.20240102-030405.gz" example_gz.

(** ** Further sample data *)

(** A mirror that answers every request with [r]. *)
Definition serving (r : result (list byte)) : env :=
  {| http_get := fun _ => r;
     inflate := inflate_stored;
     now := now world;
     open_wb := open_wb world;
     get_handle := get_handle world;
     compress := compress world |}.

(** gzip of the two lines [usr/bin/foo], [usr/bin/bar]. *)
Definition paths_gz : list byte :=
  gz_header ++
  [x01; x18; x00; xe7; xff; x75; x73; x72; x2f; x62; x69; x6e; x2f; x66;
   x6f; x6f; x0a; x75; x73; x72; x2f; x62; x69; x6e; x2f; x62; x61; x72;
   x0a; x19; xd3; x96; xf4; x18; x00; x00; x00].

(** gzip of the two lines [2024], [17]. *)
Definition digits_gz : list byte :=
  gz_header ++
  [x01; x08; x00; xf7; xff; x32; x30; x32; x34; x0a; x31; x37; x0a; x32;
   xb0; x7c; x2d; x08; x00; x00; x00].

(** gzip of the two lines [bin/sh   shells/dash],
    [bin/ls   utils/a,utils/b]. *)
Definition late_comma_gz : list byte :=
  gz_header ++
  [x01; x2e; x00; xd1; xff; x62; x69; x6e; x2f; x73; x68; x20; x20; x20;
   x73; x68; x65; x6c; x6c; x73; x2f; x64; x61; x73; x68; x0a; x62; x69;
   x6e; x2f; x6c; x73; x20; x20; x20; x75; x74; x69; x6c; x73; x2f; x61;
   x2c; x75; x74; x69; x6c; x73; x2f; x62; x0a; xc6; x3c; xbe; x78; x2e;
   x00; x00; x00].

(** gzip of the three example lines with an empty line and a line of a
    space and a tab after the first one, and no line feed at the end. *)
Definition blank_lines_gz : list byte :=
  gz_header ++
  [x01; x47; x00; xb8; xff; x75; x73; x72; x2f; x62; x69; x6e; x2f; x66;
   x6f; x6f; x20; x20; x20; x75; x74; x69; x6c; x2d; x70; x6b; x67; x0a;
   x0a; x20; x09; x0a; x75; x73; x72; x2f; x62; x69; x6e; x2f; x62; x61;
   x72; x20; x20; x20; x75; x74; x69; x6c; x2d; x70; x6b; x67; x0a; x75;
   x73; x72; x2f; x6c; x69; x62; x2f; x62; x61; x7a; x20; x20; x20; x6c;
   x69; x62; x2d; x70; x6b; x67; x48; x29; x6b; xcc; x47; x00; x00; x00].

End Sample.

(* ===================================================================== *)
(** * The vocabulary of the properties                                    *)
(* ===================================================================== *)

Module Props.

(** A ranked result as the program holds it: a series without missing
    values. *)
Definition ranked (l : Pd.sizes) : Pd.series :=
  map (fun e => (fst e, Some (snd e))) l.

(** Every entry counts at least as much as the next one. *)
Definition descending (l : Pd.sizes) : Prop :=
  forall i a b, l !! i = Some a -> l !! S i = Some b -> snd b <= snd a.

(** The sum of the counts. *)
Definition total (l : Pd.sizes) : nat := list_sum (map snd l).

(** How many of the keys are present (not missing), are the non-empty
    string, are a given string. *)
Definition present (keys : list (option string)) : nat :=
  length (List.filter (fun k => match k with Some _ => true | None => false end)
                      keys).

Definition nonempty (keys : list (option string)) : nat :=
  length (List.filter
            (fun k => match k with Some (String _ _) => true | _ => false end)
            keys).

Definition occurrences (k : string) (keys : list (option string)) : nat :=
  length (List.filter
            (fun k' => match k' with Some s => String.eqb s k | None => false end)
            keys).

(** The lines of the saved file: per entry its key, a comma and its count. *)
Definition csv_lines (l : Pd.sizes) : list string :=
  map (fun e => Csv.write_field (fst e) +:+ "," +:+ Py.str_nat (snd e)) l.

Definition csv_text (l : Pd.sizes) : string :=
  String.concat EmptyString (map (fun line => line +:+ Py.chr Py.LF) (csv_lines l)).

(** How often a character occurs in a text. *)
Fixpoint count_char (c : ascii) (s : string) : nat :=
  match s with
  | EmptyString => 0
  | String x s' => (if Ascii.eqb x c then 1 else 0) + count_char c s'
  end.

(** The state in which [main] enters its [try]. *)
Definition entered (a : Debindex.args) (st : Debindex.state) : Debindex.state :=
  Debindex.printed (Debindex.with_level st (Debindex.log_level_arg a))
                   Debindex.title.

(** The three errors [main] handles, with the record each one is logged
    as. *)
Definition handled (a : Debindex.args) (e : exn)
    : option (Debindex.level * string) :=
  match e with
  | InvalidURL =>
      Some (Debindex.ERROR,
            "Invalid URL " +:+ Debindex.quoted (Py.strip (Debindex.baseurl a)))
  | BadGzipFile => Some (Debindex.ERROR, "Could not read index file")
  | KeyboardInterrupt => Some (Debindex.INFO, "Canceled by user.")
  | _ => None
  end.

(** The column [package] of a frame read by [_read_csv]. *)
Definition packages (df : Pd.frame) : list (option string) :=
  Pd.column_values 1 df.

(** A text the tokenizer reads line by line, one field per line: no comma,
    no double quote, no carriage return. *)
Definition plain_char (c : ascii) : bool :=
  negb (Ascii.eqb c Csv.DELIM || Ascii.eqb c Py.DQUOTE || Ascii.eqb c Py.CR).

Fixpoint forallb_string (f : ascii -> bool) (s : string) : bool :=
  match s with
  | EmptyString => true
  | String c s' => f c && forallb_string f s'
  end.

Definition plain (text : string) : bool := forallb_string plain_char text.

(** A text without NUL; a text of ASCII characters. *)
Definition no_nul (text : string) : bool :=
  forallb_string (fun c => negb (Ascii.eqb c Py.NUL)) text.

Definition ascii_only (text : string) : bool :=
  forallb_string (fun c => nat_of_ascii c <? 128) text.

(** A line of spaces and tabs only. *)
Definition blank (line : string) : bool := forallb_string Csv.is_blank line.

(** The lines of a text that the reader keeps. *)
Definition kept_lines (text : string) : list string :=
  List.filter (fun l => negb (blank l)) (Py.split Py.LF text).

(** Texts without whitespace, made of whitespace, starting with it. *)
Definition no_space (s : string) : bool :=
  forallb_string (fun c => negb (Py.isspace c)) s.

Definition all_space (s : string) : bool := forallb_string Py.isspace s.

Definition starts_with_space (s : string) : bool :=
  match s with
  | String c _ => Py.isspace c
  | EmptyString => false
  end.

(** [line] is [path], a run of whitespace and [rest], the run being the
    first of the line and complete. *)
Definition split_at_first_run (line path rest : string) : Prop :=
  exists run,
    line = path +:+ run +:+ rest
    /\ run <> EmptyString /\ all_space run = true
    /\ no_space path = true /\ starts_with_space rest = false.

(** A line with a path, whitespace and a package string, the path not
    starting with a minus sign. *)
Definition has_both (line : string) : bool :=
  negb (Pd.is_na line) && negb (Pd.starts_with "-"%char line) &&
  match Re.split1 line with
  | (String _ _, Some (String _ _)) => true
  | _ => false
  end.

(** The record of a line: missing values for a line that reads as a missing
    value; else the text before the first run of whitespace and, when the
    line has whitespace, the text after that run. *)
Definition record_of (line : string) : list (option string) :=
  if Pd.is_na line then [None; None]
  else match Re.split1 line with
       | (path, rest) => [Some path; rest]
       end.

(** A stream the gzip reader refuses at its header as no gzip file: one
    byte only, or two first bytes other than 1f 8b, or (with a complete
    fixed header) a compression method other than 8. *)
Definition refused_header (bs : list byte) : bool :=
  match bs with
  | [] => false
  | [_] => true
  | b0 :: b1 :: rest =>
      if Gzip.is_magic b0 b1 then
        match rest with
        | method :: _ :: _ :: _ :: _ :: _ :: _ :: _ :: _ =>
            negb (Byte.eqb method x08)
        | _ => false
        end
      else true
  end.

(** The table [_read_csv] makes of the bytes it is given. *)
Definition table_of (E : Debindex.env) (bs : list byte)
    (column_names : list string) : result Pd.frame :=
  let* text := Gzip.read (Debindex.inflate E) bs in
  let* df := Pd.read_csv text in
  let* values := Pd.str df in
  Pd.set_columns column_names (Pd.str_split_expand values).

(** A time stamp of the form YYYYMMDD-HHMMSS. *)
Definition timestamp_shape (ts : string) : bool :=
  (String.length ts =? 15)
  && forallb_string Pd.is_digit (substring 0 8 ts)
  && String.eqb (substring 8 1 ts) "-"
  && forallb_string Pd.is_digit (substring 9 6 ts).

(** What [main] does with the table once it is read. *)
Definition after_reading (E : Debindex.env) (a : Debindex.args)
    (df : Pd.frame) : Debindex.M unit :=
  Debindex.bindM (Debindex.count_occurrences df "package")
    (fun df_result =>
       Debindex.output_result E "package" (Some df_result)
         (Debindex.output a) (Debindex.number_of_elements a)).

(** A table with the two columns of the program and no row. *)
Definition empty_table : Pd.frame :=
  {| Pd.columns := ["filename"; "package"]; Pd.rows := [] |}.

(** ** Auxiliary notions of the proofs *)

(** Two entries in descending order of count, in ascending order of key. *)
Definition desc_rel (a b : string * nat) : Prop := snd b <= snd a.

Definition key_lt (a b : string * nat) : Prop :=
  String.compare (fst a) (fst b) = Lt.

(** One step of [Pd.group_sizes]. *)
Definition step_key (t : Pd.sizes) (k : option string) : Pd.sizes :=
  match k with Some k => Pd.bump k t | None => t end.

(** The count a ranked result gives to a key: none when it lacks the key. *)
Definition count_of (k : string) (t : Pd.sizes) : nat :=
  match Pd.lookup k t with Some n => n | None => 0 end.

Definition no_lf (s : string) : bool :=
  forallb_string (fun c => negb (Ascii.eqb c Py.LF)) s.

(** The tokenizer inside a line of a plain text, of which it has read
    [cur]: at its start, after blanks only, or inside the one field of the
    line. *)
Definition at_line (st : Csv.tstate) (fld cur : string) : Prop :=
  (st = Csv.START_RECORD /\ cur = EmptyString /\ fld = EmptyString)
  \/ (st = Csv.WHITESPACE_LINE /\ blank cur = true /\ cur <> EmptyString
      /\ fld = EmptyString)
  \/ (st = Csv.IN_FIELD /\ blank cur = false /\ fld = cur).

Definition lines_of (l : list string) : list (list string) :=
  map (fun line => [line]) l.

Definition keep (l : list string) : list string :=
  List.filter (fun line => negb (blank line)) l.

(** [t] is what is left of [s] after a beginning without whitespace. *)
Definition tail_of (s t : string) : Prop :=
  exists pre, s = pre +:+ t /\ no_space pre = true.

End Props.

(* ===================================================================== *)
(** * The vocabulary of the further properties                            *)
(* ===================================================================== *)

Module Further.
Import Debindex Props.

(** ** The command line with one option changed *)

Definition with_download (a : args) (d : bool) : args :=
  {| baseurl := baseurl a; architecture := architecture a; download := d;
     log_level_arg := log_level_arg a; output := output a;
     number_of_elements := number_of_elements a |}.

Definition with_log_level (a : args) (l : level) : args :=
  {| baseurl := baseurl a; architecture := architecture a;
     download := download a; log_level_arg := l; output := output a;
     number_of_elements := number_of_elements a |}.

Definition with_baseurl (a : args) (b : string) : args :=
  {| baseurl := b; architecture := architecture a; download := download a;
     log_level_arg := log_level_arg a; output := output a;
     number_of_elements := number_of_elements a |}.

(** ** Runs of [main] *)

(** The state in which the body of [main] sends its request, and the state
    in which it starts to parse the bytes [bs] it has got (and saved, with
    the download option). *)
Definition requested (a : args) (st : state) : state :=
  logged st INFO
    ((if download a then "Downloading index file from "
      else "Reading index file from ")
     +:+ quoted (index_file_url a) +:+ " ...").

Definition fetched (E : env) (a : args) (st : state) (bs : list byte) : state :=
  if download a then
    let name := download_file_name a (Py.strftime (now E)) in
    logged (logged (saved (requested a st) name bs) INFO "Downloading finished.")
           INFO ("Reading index file from local file " +:+ quoted name +:+ " ...")
  else requested a st.

(** The exception that keeps the download from being saved, and the one
    that keeps the result from being written, if any. *)
Definition download_error (E : env) (a : args) : option exn :=
  if download a then open_wb E (download_file_name a (Py.strftime (now E)))
  else None.

Definition output_error (E : env) (a : args) : option exn :=
  match output a with
  | Some path =>
      match get_handle E path with
      | Pd.NoHandle e => Some e
      | _ => None
      end
  | None => None
  end.

(** How [main] ends when its body has raised [e] in the state [st]. *)
Definition finish (a : args) (e : exn) (st : state) : result unit * state :=
  match handled a e with
  | Some r => (Ok tt, printed (logged st (fst r) (snd r)) "Finished.")
  | None => (Raise e, st)
  end.

(** How [main] ends when its body has ended as [r]. *)
Definition ending (a : args) (r : result unit * state) : result unit * state :=
  match r with
  | (Ok _, st) => (Ok tt, printed st "Finished.")
  | (Raise e, st) => finish a e st
  end.

(** The ranked result of a table. *)
Definition ranking (df : Pd.frame) : Pd.sizes :=
  Pd.sort_values_desc (Pd.group_sizes (packages df)).

(** The lines of the preview and the content of the result file: the text
    of the result and, at a path with the ending of an archive format,
    the archive of that text. *)
Definition preview (l : Pd.sizes) (n : Z) : list string :=
  [ rule;
    "  Top " +:+ Py.str_Z n +:+ " packages with more files associated:";
    rule; Pd.to_string (Pd.head n (ranked l)); rule ].

Definition result_file (l : Pd.sizes) : list byte :=
  Py.encode_utf8 (Pd.to_csv "package" true false (ranked l)).

Definition result_at (E : env) (path : string) (l : Pd.sizes) : list byte :=
  match Pd.infer_compression path with
  | Some _ => compress E path (result_file l)
  | None => result_file l
  end.

(** The state after the two records of the counting, and what the emission
    of the ranked result [l] comes to. *)
Definition counted (st : state) : state :=
  logged (logged st INFO "Counting index entries occurrences ...")
         INFO "Counting finished.".

Definition emission (E : env) (a : args) (l : Pd.sizes) (st : state)
    : result unit * state :=
  match output a with
  | Some path =>
      let st1 := logged st INFO ("Saving result to " +:+ quoted path +:+ " ...") in
      match get_handle E path with
      | Pd.File =>
          (Ok tt, logged (saved st1 path (result_at E path l))
                         INFO "Saving finished.")
      | Pd.Memory => (Ok tt, logged st1 INFO "Saving finished.")
      | Pd.NoHandle e => (Raise e, st1)
      end
  | None => (Ok tt, fold_left printed (preview l (number_of_elements a)) st)
  end.

(** The files after a run that has read the index [bs] and emitted the
    ranked result [l]. *)
Definition files_after (E : env) (a : args) (bs : list byte) (l : Pd.sizes)
    (fs : gmap string (list byte)) : gmap string (list byte) :=
  let kept :=
    if download a
    then <[download_file_name a (Py.strftime (now E)) := bs]> fs else fs in
  match output a with
  | Some path =>
      match get_handle E path with
      | Pd.File => <[path := result_at E path l]> kept
      | _ => kept
      end
  | None => kept
  end.

(** A gzip stream cut inside its fixed header of ten bytes. *)
Definition short_header (bs : list byte) : bool :=
  match bs with
  | b0 :: b1 :: rest => Gzip.is_magic b0 b1 && (length rest <? 8)
  | _ => false
  end.

(** [st'] has the log of [st] and then records of level info only. *)
Definition progress (st st' : state) : Prop :=
  exists infos,
    log st' = log st ++ infos /\ Forall (fun r => fst r = INFO) infos.

(** ** Tables *)

(** A value that holds whitespace: the values [str.split] cuts in two. *)
Definition has_space (v : option string) : bool :=
  match v with
  | Some s => negb (no_space s)
  | None => false
  end.

(** The row of a value in a table of two columns. *)
Definition row_of (v : option string) : list (option string) :=
  match v with
  | None => [None; None]
  | Some s => let (path, rest) := Re.split1 s in [Some path; rest]
  end.

(** The rows a table of two columns can hold: no field; a path without
    whitespace alone; a path without whitespace and a package string that
    does not start with whitespace. *)
Definition record_shape (r : list (option string)) : Prop :=
  r = [None; None]
  \/ (exists path, r = [Some path; None] /\ no_space path = true)
  \/ (exists path rest,
        r = [Some path; Some rest]
        /\ no_space path = true /\ starts_with_space rest = false).

Definition has_package (r : list (option string)) : Prop :=
  exists path rest, r = [Some path; Some rest].

(** The bytes [_read_csv] reads from its source. *)
Definition content (st : state) (data : source) : option (list byte) :=
  match data with
  | Path p => files st !! p
  | BytesIO bs => Some bs
  end.

(** A line of decimal digits, at least one and at most 18: a number that
    [int64] holds. *)
Definition digits (line : string) : bool :=
  forallb_string Pd.is_digit line && negb (String.eqb line EmptyString)
  && (String.length line <=? 18).

(** ** Texts with commas *)

(** A text without double quote and carriage return: the tokenizer reads
    it line by line and cuts every line at its commas. *)
Definition simple_char (c : ascii) : bool :=
  negb (Ascii.eqb c Py.DQUOTE || Ascii.eqb c Py.CR).

Definition simple (text : string) : bool := forallb_string simple_char text.

Definition fields (line : string) : list string := Py.split Csv.DELIM line.

Definition commas (line : string) : nat := count_char Csv.DELIM line.

(** The rows of the lines of a simple text, given the number of fields
    expected so far (none before the first row). *)
Fixpoint rows_of (ex : option nat) (lines : list string)
    : result (list (list string)) :=
  match lines with
  | [] => Ok []
  | line :: rest =>
      if blank line then rows_of ex rest
      else
        match ex with
        | None =>
            let* r := rows_of (Some (Nat.max (length (fields line)) 1)) rest in
            Ok (fields line :: r)
        | Some n =>
            if n <? length (fields line) then Raise ParserError
            else
              let* r := rows_of ex rest in
              Ok ((fields line
                   ++ repeat EmptyString (n - length (fields line))) :: r)
        end
  end.

(** The tokenizer inside a line of a simple text, of which it has read
    [cur]. *)
Definition at_fields (st : Csv.tstate) (fld : string)
    (line : list string) (cur : string) : Prop :=
  (st = Csv.START_RECORD /\ cur = EmptyString /\ fld = EmptyString
   /\ line = [])
  \/ (st = Csv.WHITESPACE_LINE /\ blank cur = true /\ cur <> EmptyString
      /\ fld = EmptyString /\ line = [])
  \/ ((st = Csv.IN_FIELD \/ st = Csv.START_FIELD) /\ blank cur = false
      /\ line ++ [fld] = fields cur).

(** The row of an entry in the result file. *)
Definition csv_row (e : string * nat) : list string :=
  [fst e; Py.str_nat (snd e)].

(** What a line gives to the column when the first line has commas: the
    text after its last comma when it has as many commas as the first
    line, and nothing otherwise. *)
Definition column_text (first line : string) : string :=
  if commas line =? commas first
  then List.last (fields line) EmptyString
  else EmptyString.

(** ** The base URL *)

(** The last character of [s] satisfies [f] (no text without characters
    does). *)
Fixpoint ends_with (f : ascii -> bool) (s : string) : bool :=
  match s with
  | EmptyString => false
  | String c EmptyString => f c
  | String _ s' => ends_with f s'
  end.

(** A text made of slashes. *)
Definition slashes (s : string) : bool :=
  forallb_string (Ascii.eqb "/"%char) s.

(** ** Lines and their package strings *)

(** The package string of a line: the second field of its record. *)
Definition package_of (line : string) : option string :=
  nth 1 (record_of line) None.

End Further.

(** Steps of the tokenizer, unfolded on a known state. *)
Ltac tok :=
  cbn [Csv.feed Csv.feed_again];
  unfold Csv.step, Csv.step_again, Csv.step_with;
  cbn [Csv.p_state Csv.p_field Csv.p_line Csv.p_rows Csv.p_expected
       Csv.p_since_lf Csv.set_state Csv.set_since Csv.push Csv.end_field
       Py.bind length Nat.ltb Nat.leb Nat.max Nat.sub repeat app].

(** Steps of the tokenizer, with the records they build written out. *)
Ltac tok_records :=
  tok; unfold Csv.set_state, Csv.set_since, Csv.push, Csv.end_field;
  cbn [Csv.p_state Csv.p_field Csv.p_line Csv.p_rows Csv.p_expected
       Csv.p_since_lf app].

(* ===================================================================== *)
(** * Lemmas on the library operations                                    *)
(* ===================================================================== *)

Section StringLemmas.
Lemma append_cons c (a b : string) : String c a +:+ b = String c (a +:+ b).
Proof. reflexivity. Qed.

Lemma append_nil_l (b : string) : EmptyString +:+ b = b.
Proof. reflexivity. Qed.

Lemma append_nil_r (a : string) : a +:+ EmptyString = a.
Proof.
  induction a as [|x a IH]; [reflexivity|]. now rewrite append_cons, IH.
Qed.

Lemma append_assoc (a b c : string) : (a +:+ b) +:+ c = a +:+ b +:+ c.
Proof.
  induction a as [|x a IH]; [reflexivity|]. now rewrite !append_cons, IH.
Qed.

Lemma length_append (a b : string) :
  String.length (a +:+ b) = String.length a + String.length b.
Proof.
  induction a as [|x a IH]; [reflexivity|].
  rewrite append_cons. simpl. now rewrite IH.
Qed.

End StringLemmas.

Section SortLemmas.
Import Pd Props.

Lemma insert_desc_perm x l : Permutation (insert_desc x l) (x :: l).
Proof.
  induction l as [|y l IH]; simpl; [reflexivity|].
  destruct (snd x <? snd y); [|reflexivity].
  rewrite IH. apply perm_swap.
Qed.

Lemma sort_values_desc_perm l : Permutation (sort_values_desc l) l.
Proof.
  induction l as [|x l IH]; simpl; [reflexivity|].
  unfold sort_values_desc in *. simpl.
  rewrite insert_desc_perm. now constructor.
Qed.

Lemma insert_desc_hdrel y x l :
  snd x <= snd y -> HdRel desc_rel y l -> HdRel desc_rel y (insert_desc x l).
Proof.
  intros Hxy Hl. destruct l as [|z l]; simpl.
  - constructor. exact Hxy.
  - destruct (snd x <? snd z); constructor.
    + inversion Hl; assumption.
    + exact Hxy.
Qed.

Lemma insert_desc_sorted x l :
  Sorted desc_rel l -> Sorted desc_rel (insert_desc x l).
Proof.
  induction 1 as [|y l Hs IH Hhd]; simpl.
  - repeat constructor.
  - destruct (Nat.ltb_spec (snd x) (snd y)) as [Hlt|Hge].
    + constructor; [exact IH|]. apply insert_desc_hdrel; [lia|exact Hhd].
    + constructor; [constructor; assumption|]. constructor. exact Hge.
Qed.

Lemma sort_values_desc_sorted l : Sorted desc_rel (sort_values_desc l).
Proof.
  induction l as [|x l IH]; [constructor|].
  unfold sort_values_desc in *. simpl. now apply insert_desc_sorted.
Qed.

Lemma sorted_descending l : Sorted desc_rel l -> descending l.
Proof.
  induction 1 as [|x l Hs IH Hhd]; intros i a b Ha Hb.
  - destruct i; discriminate.
  - destruct i as [|i]; simpl in *.
    + injection Ha as <-. destruct l as [|y l]; [discriminate|].
      simpl in Hb. injection Hb as <-. inversion Hhd; assumption.
    + eapply IH; eassumption.
Qed.

(** In a descending list an earlier entry counts at least as much as a
    later one. *)
Lemma sorted_desc_le l i j a b :
  Sorted desc_rel l -> i <= j ->
  l !! i = Some a -> l !! j = Some b -> snd b <= snd a.
Proof.
  intros Hs. apply Sorted_StronglySorted in Hs.
  2:{ intros x y z Hxy Hyz. unfold desc_rel in *. lia. }
  revert i j. induction Hs as [|x l Hs IH Hall]; intros i j Hij Ha Hb.
  - destruct i; discriminate.
  - destruct i as [|i], j as [|j]; simpl in *; try lia.
    + injection Ha as <-. injection Hb as <-. lia.
    + injection Ha as <-. rewrite Forall_forall in Hall.
      apply Hall. eapply list_elem_of_lookup_2. exact Hb.
    + eapply IH; [|eassumption..]. lia.
Qed.

Lemma total_perm l l' : Permutation l l' -> total l = total l'.
Proof.
  unfold total. induction 1; simpl; try lia.
Qed.

End SortLemmas.

Section GroupLemmas.
Import Pd Props.

Lemma compare_lt_le a b : String.compare a b = Lt -> String.le a b.
Proof.
  unfold String.le, String.leb. intros ->. exact I.
Qed.

Lemma compare_refl a : String.compare a a = Eq.
Proof.
  induction a as [|c a IH]; simpl; [reflexivity|].
  unfold Ascii.compare. rewrite N.compare_refl. exact IH.
Qed.

Lemma compare_lt_neq a b : String.compare a b = Lt -> a <> b.
Proof.
  intros H ->. rewrite compare_refl in H. discriminate.
Qed.

Lemma compare_lt_trans a b c :
  String.compare a b = Lt -> String.compare b c = Lt ->
  String.compare a c = Lt.
Proof.
  intros Hab Hbc.
  assert (String.le a c) as Hac.
  { etransitivity; apply compare_lt_le; eassumption. }
  destruct (String.compare a c) eqn:E.
  - apply String.compare_eq_iff in E. subst c.
    exfalso. apply (compare_lt_neq _ _ Hab).
    apply (anti_symm String.le); apply compare_lt_le; assumption.
  - reflexivity.
  - unfold String.le, String.leb in Hac. rewrite E in Hac. destruct Hac.
Qed.

Lemma compare_gt_lt a b : String.compare a b = Gt -> String.compare b a = Lt.
Proof.
  intros H. rewrite String.compare_antisym, H. reflexivity.
Qed.

Lemma key_lt_trans : Transitive key_lt.
Proof. intros a b c. unfold key_lt. apply compare_lt_trans. Qed.

Lemma bump_hdrel y k t :
  String.compare (fst y) k = Lt -> HdRel key_lt y t -> HdRel key_lt y (bump k t).
Proof.
  intros Hyk Hhd. destruct t as [|[k' n] t]; simpl.
  - constructor. exact Hyk.
  - inversion Hhd as [|? ? Hy]; subst. unfold key_lt in Hy. simpl in Hy.
    destruct (String.compare k k'); constructor; unfold key_lt; simpl;
      assumption.
Qed.

Lemma bump_sorted k t : Sorted key_lt t -> Sorted key_lt (bump k t).
Proof.
  induction 1 as [|[k' n] t Hs IH Hhd]; simpl.
  - repeat constructor.
  - destruct (String.compare k k') eqn:E.
    + apply String.compare_eq_iff in E. subst k'.
      constructor; [exact Hs|].
      destruct Hhd; constructor. assumption.
    + constructor; [constructor; assumption|]. constructor. exact E.
    + constructor; [exact IH|].
      apply bump_hdrel; [|exact Hhd]. simpl. apply compare_gt_lt. exact E.
Qed.

Lemma total_bump k t : total (bump k t) = S (total t).
Proof.
  unfold total. induction t as [|[k' n] t IH]; simpl; [reflexivity|].
  destruct (String.compare k k'); simpl; lia.
Qed.

Lemma group_sizes_fold keys : group_sizes keys = fold_left step_key keys [].
Proof. reflexivity. Qed.

Lemma fold_step_sorted keys t :
  Sorted key_lt t -> Sorted key_lt (fold_left step_key keys t).
Proof.
  revert t. induction keys as [|[k|] keys IH]; intros t Ht; simpl.
  - exact Ht.
  - apply IH. apply bump_sorted. exact Ht.
  - apply IH. exact Ht.
Qed.

Lemma fold_step_total keys t :
  total (fold_left step_key keys t) = present keys + total t.
Proof.
  revert t. unfold present.
  induction keys as [|[k|] keys IH]; intros t; simpl.
  - reflexivity.
  - rewrite IH, total_bump. lia.
  - apply IH.
Qed.

Lemma group_sizes_sorted keys : Sorted key_lt (group_sizes keys).
Proof. rewrite group_sizes_fold. apply fold_step_sorted. constructor. Qed.

Lemma group_sizes_total keys : total (group_sizes keys) = present keys.
Proof.
  rewrite group_sizes_fold, fold_step_total. unfold total. simpl. lia.
Qed.

(** Labels sorted strictly are all different. *)
Lemma key_sorted_NoDup t : Sorted key_lt t -> NoDup (index t).
Proof.
  intros Hs. apply Sorted_StronglySorted in Hs; [|apply key_lt_trans].
  induction Hs as [|x t Hs IH Hall]; simpl; constructor; [|exact IH].
  intros Hin. unfold index in Hin. apply list_elem_of_fmap in Hin.
  destruct Hin as [y [Hy Hin]].
  rewrite Forall_forall in Hall. specialize (Hall y Hin).
  unfold key_lt in Hall. apply compare_lt_neq in Hall. congruence.
Qed.

Lemma lookup_NoDup s k n :
  NoDup (index s) -> (k, n) ∈ s -> lookup k s = Some n.
Proof.
  induction s as [|[k' n'] s IH]; intros Hnd Hin.
  - inversion Hin.
  - simpl in *. apply NoDup_cons in Hnd as [Hk' Hnd].
    apply elem_of_cons in Hin as [Heq|Hin].
    + injection Heq as <- <-. rewrite String.eqb_refl. reflexivity.
    + destruct (String.eqb_spec k' k) as [->|Hne].
      * exfalso. apply Hk'. unfold index. apply list_elem_of_fmap.
        exists (k, n). split; [reflexivity|exact Hin].
      * apply IH; assumption.
Qed.

(** Reindexing a series by its own labels, in any order, keeps every
    value. *)
Lemma reindex_own_labels s s' :
  NoDup (index s) -> Permutation s' s ->
  reindex s (index s') = ranked s'.
Proof.
  intros Hnd Hp. unfold reindex, ranked, index. rewrite map_map.
  apply map_ext_in. intros [k n] Hin. simpl. f_equal.
  apply lookup_NoDup; [exact Hnd|].
  apply list_elem_of_In. eapply Permutation_in; eassumption.
Qed.

(** What [count_occurrences] computes from the key column. *)
Lemma rank_group_sizes keys :
  let l := sort_values_desc (group_sizes keys) in
  reindex (group_sizes keys) (index l) = ranked l.
Proof.
  intros l. apply reindex_own_labels.
  - apply key_sorted_NoDup, group_sizes_sorted.
  - apply sort_values_desc_perm.
Qed.

Lemma lookup_bump_eq k t :
  Sorted key_lt t -> lookup k (bump k t) = Some (S (count_of k t)).
Proof.
  unfold count_of.
  induction 1 as [|[k' n] t Hs IH Hhd]; simpl.
  - rewrite String.eqb_refl. reflexivity.
  - destruct (String.compare k k') eqn:E; simpl.
    + apply String.compare_eq_iff in E. subst k'.
      rewrite String.eqb_refl. reflexivity.
    + rewrite String.eqb_refl.
      destruct (String.eqb_spec k' k) as [->|Hne].
      { apply compare_lt_neq in E. congruence. }
      assert (lookup k t = None) as ->; [|reflexivity].
      apply Sorted_StronglySorted in Hs; [|apply key_lt_trans].
      clear IH. revert Hhd. induction Hs as [|[k2 n2] t Hs IH Hall];
        intros Hhd; [reflexivity|].
      simpl. inversion Hhd as [|? ? H2]; subst. unfold key_lt in H2.
      simpl in H2.
      assert (String.compare k k2 = Lt) as Hk2
        by (eapply compare_lt_trans; eassumption).
      destruct (String.eqb_spec k2 k) as [->|_].
      { apply compare_lt_neq in Hk2. congruence. }
      apply IH. destruct t as [|[k3 n3] t]; constructor.
      rewrite Forall_forall in Hall. unfold key_lt. simpl.
      eapply compare_lt_trans; [exact H2|].
      apply (Hall (k3, n3)). apply elem_of_cons. left. reflexivity.
    + destruct (String.eqb_spec k' k) as [->|Hne].
      { rewrite compare_refl in E. discriminate. }
      exact IH.
Qed.

Lemma lookup_bump_ne k k' t : k <> k' -> lookup k' (bump k t) = lookup k' t.
Proof.
  intros Hne. induction t as [|[k2 n] t IH]; simpl.
  - destruct (String.eqb_spec k k'); congruence.
  - destruct (String.compare k k2) eqn:E; simpl.
    + apply String.compare_eq_iff in E. subst k2.
      destruct (String.eqb_spec k k'); congruence.
    + destruct (String.eqb_spec k k'); congruence.
    + rewrite IH. reflexivity.
Qed.

Lemma count_of_bump_eq k t :
  Sorted key_lt t -> count_of k (bump k t) = S (count_of k t).
Proof.
  intros Ht. unfold count_of at 1. rewrite lookup_bump_eq by exact Ht.
  reflexivity.
Qed.

Lemma count_of_bump_ne k k' t : k <> k' -> count_of k' (bump k t) = count_of k' t.
Proof.
  intros Hne. unfold count_of. rewrite lookup_bump_ne by exact Hne.
  reflexivity.
Qed.

Lemma fold_step_count k keys t :
  Sorted key_lt t ->
  count_of k (fold_left step_key keys t) = occurrences k keys + count_of k t.
Proof.
  revert t. unfold occurrences.
  induction keys as [|[k'|] keys IH]; intros t Ht; simpl.
  - reflexivity.
  - rewrite IH by (apply bump_sorted; exact Ht).
    destruct (String.eqb_spec k' k) as [->|Hne]; simpl.
    + rewrite count_of_bump_eq by exact Ht. lia.
    + rewrite count_of_bump_ne by exact Hne. reflexivity.
  - apply IH. exact Ht.
Qed.

Lemma group_sizes_count k keys :
  count_of k (group_sizes keys) = occurrences k keys.
Proof.
  rewrite group_sizes_fold, fold_step_count by constructor.
  unfold count_of. simpl. lia.
Qed.

Lemma lookup_elem k n t : lookup k t = Some n -> (k, n) ∈ t.
Proof.
  induction t as [|[k' n'] t IH]; [discriminate|]. simpl.
  destruct (String.eqb_spec k' k) as [->|_]; intros E.
  - injection E as ->. apply elem_of_cons. left. reflexivity.
  - apply elem_of_cons. right. apply IH, E.
Qed.

Lemma index_perm (t t' : sizes) :
  Permutation t' t -> Permutation (index t') (index t).
Proof. intros Hp. unfold index. apply Permutation_map. exact Hp. Qed.

(** The count of a key does not depend on the order of the entries. *)
Lemma count_of_perm k t t' :
  NoDup (index t) -> Permutation t' t -> count_of k t' = count_of k t.
Proof.
  intros Hnd Hp.
  assert (NoDup (index t')) as Hnd'.
  { rewrite (index_perm _ _ Hp). exact Hnd. }
  unfold count_of.
  destruct (lookup k t') as [n|] eqn:E'.
  - apply lookup_elem in E'.
    rewrite (lookup_NoDup t k n Hnd); [reflexivity|].
    apply list_elem_of_In. eapply Permutation_in; [exact Hp|].
    apply list_elem_of_In. exact E'.
  - destruct (lookup k t) as [n|] eqn:E; [|reflexivity].
    apply lookup_elem in E.
    rewrite (lookup_NoDup t' k n Hnd') in E'; [discriminate|].
    apply list_elem_of_In. eapply Permutation_in; [symmetry; exact Hp|].
    apply list_elem_of_In. exact E.
Qed.

(** Every group has at least one row. *)
Lemma bump_positive k t :
  Forall (fun e => 0 < snd e) t -> Forall (fun e => 0 < snd e) (bump k t).
Proof.
  induction 1 as [|[k' n] t Hn Ht IH]; simpl.
  - repeat constructor.
  - destruct (String.compare k k'); repeat constructor; simpl in *;
      try assumption; lia.
Qed.

Lemma fold_step_positive keys t :
  Forall (fun e => 0 < snd e) t ->
  Forall (fun e => 0 < snd e) (fold_left step_key keys t).
Proof.
  revert t. induction keys as [|[k|] keys IH]; intros t Ht; simpl.
  - exact Ht.
  - apply IH, bump_positive, Ht.
  - apply IH, Ht.
Qed.

Lemma group_sizes_positive keys : Forall (fun e => 0 < snd e) (group_sizes keys).
Proof.
  rewrite group_sizes_fold. apply fold_step_positive. constructor.
Qed.

End GroupLemmas.

Section DecimalLemmas.
Import Pd Props.

(** Decimal numerals are made of digits. *)
Lemma pretty_N_char_digit x : is_digit (pretty_N_char x) = true.
Proof. unfold pretty_N_char. repeat case_match; reflexivity. Qed.

Lemma pretty_N_go_digits x s :
  forallb_string is_digit s = true ->
  forallb_string is_digit (pretty_N_go x s) = true.
Proof.
  revert s. induction (N.lt_wf_0 x) as [x _ IH]. intros s Hs.
  destruct (decide (0 < x)%N) as [Hx|Hx].
  - rewrite pretty_N_go_step by exact Hx. apply IH.
    + apply N.div_lt; [exact Hx|reflexivity].
    + simpl. rewrite pretty_N_char_digit. exact Hs.
  - assert (x = 0%N) as -> by lia. exact Hs.
Qed.

Lemma str_nat_digits n : forallb_string is_digit (Py.str_nat n) = true.
Proof.
  unfold Py.str_nat, pretty, pretty_nat, pretty, pretty_N.
  destruct (decide (N.of_nat n = 0%N)); [reflexivity|].
  apply pretty_N_go_digits. reflexivity.
Qed.

Lemma digit_not_special c :
  is_digit c = true ->
  (Ascii.eqb c Csv.DELIM || Ascii.eqb c Py.DQUOTE || Ascii.eqb c Py.LF) = false.
Proof.
  intros Hd.
  destruct (Ascii.eqb_spec c Csv.DELIM) as [->|_]; [discriminate|].
  destruct (Ascii.eqb_spec c Py.DQUOTE) as [->|_]; [discriminate|].
  destruct (Ascii.eqb_spec c Py.LF) as [->|_]; [discriminate|].
  reflexivity.
Qed.

Lemma digits_need_no_quotes s :
  forallb_string is_digit s = true -> Csv.needs_quotes s = false.
Proof.
  unfold Csv.needs_quotes. induction s as [|c s IH]; simpl; [reflexivity|].
  intros [Hc Hs]%andb_prop. rewrite (digit_not_special c Hc). simpl.
  apply IH, Hs.
Qed.

Lemma write_field_str_nat n : Csv.write_field (Py.str_nat n) = Py.str_nat n.
Proof.
  unfold Csv.write_field.
  rewrite (digits_need_no_quotes _ (str_nat_digits n)). reflexivity.
Qed.

End DecimalLemmas.

Section DownloadName.
Import Pd Props Debindex.

Lemma split_nonempty c s : Py.split c s <> [].
Proof.
  destruct s as [|x s]; simpl; [discriminate|].
  destruct (Ascii.eqb x c); [discriminate|].
  destruct (Py.split c s); discriminate.
Qed.

(** The pieces of a text around one of its separators: those before it,
    then those after it. *)
Lemma split_app c s t :
  Py.split c (s +:+ String c t) = Py.split c s ++ Py.split c t.
Proof.
  induction s as [|x s IH].
  - rewrite append_nil_l. simpl. rewrite Ascii.eqb_refl. reflexivity.
  - rewrite append_cons. simpl. rewrite IH.
    destruct (Ascii.eqb x c); [reflexivity|].
    pose proof (split_nonempty c s) as Hne.
    destruct (Py.split c s) as [|p ps]; [contradiction|]. reflexivity.
Qed.

Lemma join_split c s : Py.join (Py.chr c) (Py.split c s) = s.
Proof.
  induction s as [|x s IH]; [reflexivity|]. simpl.
  destruct (Ascii.eqb_spec x c) as [->|Hne].
  - pose proof (split_nonempty c s) as Hs.
    destruct (Py.split c s) as [|p ps] eqn:E; [contradiction|].
    change (Py.join (Py.chr c) (EmptyString :: p :: ps))
      with (EmptyString +:+ Py.chr c +:+ Py.join (Py.chr c) (p :: ps)).
    rewrite IH. reflexivity.
  - pose proof (split_nonempty c s) as Hs.
    destruct (Py.split c s) as [|p ps] eqn:E; [contradiction|].
    destruct ps as [|q ps].
    + simpl in *. now rewrite IH.
    + change (Py.join (Py.chr c) (String x p :: q :: ps))
        with (String x p +:+ Py.chr c +:+ Py.join (Py.chr c) (q :: ps)).
      change (Py.join (Py.chr c) (p :: q :: ps))
        with (p +:+ Py.chr c +:+ Py.join (Py.chr c) (q :: ps)) in IH.
      rewrite append_cons, IH. reflexivity.
Qed.

Lemma join_app sep l1 l2 :
  l1 <> [] -> l2 <> [] ->
  Py.join sep (l1 ++ l2) = Py.join sep l1 +:+ sep +:+ Py.join sep l2.
Proof.
  intros H1 H2. induction l1 as [|p l1 IH]; [contradiction|].
  destruct l1 as [|q l1].
  - destruct l2 as [|r l2]; [contradiction|]. reflexivity.
  - change (Py.join sep ((p :: q :: l1) ++ l2))
      with (p +:+ sep +:+ Py.join sep ((q :: l1) ++ l2)).
    rewrite IH by discriminate.
    change (Py.join sep (p :: q :: l1))
      with (p +:+ sep +:+ Py.join sep (q :: l1)).
    rewrite !append_assoc. reflexivity.
Qed.

(** [l.insert(-1, x)] puts [x] before the last element. *)
Lemma list_insert_before_last {A} (x y : A) l :
  Py.list_insert (-1) x (l ++ [y]) = l ++ [x; y].
Proof.
  unfold Py.list_insert. simpl.
  rewrite length_app. simpl.
  replace (Z.to_nat (Z.max 0 (-1 + Z.of_nat (length l + 1)))) with (length l)
    by lia.
  rewrite take_app_length, drop_app_length. reflexivity.
Qed.

(** The name of the downloaded file, for every architecture and time
    stamp. *)
Lemma download_file_name_eq a ts :
  download_file_name a ts
  = "Contents-" +:+ architecture a +:+ "." +:+ ts +:+ ".gz".
Proof.
  unfold download_file_name, index_file_name.
  replace ("Contents-" +:+ architecture a +:+ ".gz")
    with (("Contents-" +:+ architecture a) +:+ String "."%char "gz")
    by (rewrite append_assoc; reflexivity).
  rewrite split_app.
  change (Py.split "." "gz") with ["gz"].
  rewrite list_insert_before_last.
  rewrite join_app by (try apply split_nonempty; discriminate).
  change "."%string with (Py.chr "."%char) at 1. rewrite join_split.
  rewrite !append_assoc. reflexivity.
Qed.

Lemma is_digit_digit n : is_digit (Py.digit n) = true.
Proof.
  unfold is_digit, Py.digit.
  rewrite nat_ascii_embedding.
  - pose proof (Nat.mod_upper_bound n 10). 
    apply andb_true_intro. split; apply Nat.leb_le; lia.
  - pose proof (Nat.mod_upper_bound n 10). lia.
Qed.

(** A year of four digits is written with four digits. *)
Lemma str_nat_year y :
  (1000 <= Z.of_nat y <= 9999)%Z ->
  exists a b c d,
    Py.str_nat y = String a (String b (String c (String d EmptyString)))
    /\ is_digit a = true /\ is_digit b = true
    /\ is_digit c = true /\ is_digit d = true.
Proof.
  intros Hy. unfold Py.str_nat, pretty, pretty_nat, pretty, pretty_N.
  destruct (decide (N.of_nat y = 0%N)) as [H0|_]; [lia|].
  assert (1000 <= N.of_nat y <= 9999)%N as Hx by lia.
  clear Hy. revert Hx. generalize (N.of_nat y). intros x Hx.
  rewrite pretty_N_go_step by lia.
  rewrite pretty_N_go_step by (apply N.div_str_pos; lia).
  rewrite pretty_N_go_step
    by (apply N.div_str_pos; split; [lia|];
        apply N.div_le_lower_bound; lia).
  rewrite pretty_N_go_step
    by (apply N.div_str_pos; split; [lia|];
        apply N.div_le_lower_bound; [lia|];
        apply N.div_le_lower_bound; lia).
  replace (N.div (N.div (N.div (N.div x 10) 10) 10) 10) with 0%N.
  2:{ symmetry. rewrite !N.Div0.div_div. apply N.div_small. lia. }
  rewrite pretty_N_go_0.
  do 4 eexists. split; [reflexivity|].
  repeat split; apply pretty_N_char_digit.
Qed.

Lemma strftime_shape dt :
  (1000 <= Z.of_nat (Py.year dt) <= 9999)%Z ->
  timestamp_shape (Py.strftime dt) = true.
Proof.
  intros Hy. destruct (str_nat_year _ Hy) as (a & b & c & d & Hs & Ha & Hb & Hc & Hd).
  unfold Py.strftime. rewrite Hs. unfold Py.pad2, Py.chr.
  rewrite !append_cons, !append_nil_l.
  unfold timestamp_shape. cbn -[is_digit Py.digit Nat.div].
  rewrite Ha, Hb, Hc, Hd, !is_digit_digit. reflexivity.
Qed.

End DownloadName.

Section TokenizerLemmas.
Import Csv Props.

Lemma forallb_string_app f a b :
  forallb_string f (a +:+ b) = forallb_string f a && forallb_string f b.
Proof.
  induction a as [|x a IH]; [reflexivity|].
  rewrite append_cons. simpl. rewrite IH. apply andb_assoc.
Qed.

Lemma blank_snoc cur c : blank (cur +:+ Py.chr c) = blank cur && is_blank c.
Proof.
  unfold blank. rewrite forallb_string_app. simpl.
  now rewrite andb_true_r.
Qed.

Lemma no_lf_snoc cur c :
  no_lf (cur +:+ Py.chr c) = no_lf cur && negb (Ascii.eqb c Py.LF).
Proof.
  unfold no_lf. rewrite forallb_string_app. simpl.
  now rewrite andb_true_r.
Qed.

Lemma split_no_lf cur : no_lf cur = true -> Py.split Py.LF cur = [cur].
Proof.
  induction cur as [|x cur IH]; [reflexivity|]. simpl.
  intros [Hx Hc]%andb_prop. apply negb_true_iff in Hx. rewrite Hx.
  rewrite (IH Hc). reflexivity.
Qed.

Lemma split_line cur text :
  no_lf cur = true ->
  Py.split Py.LF (cur +:+ String Py.LF text) = cur :: Py.split Py.LF text.
Proof.
  intros H. rewrite split_app, (split_no_lf _ H). reflexivity.
Qed.

Lemma snoc_append cur c text :
  (cur +:+ Py.chr c) +:+ text = cur +:+ String c text.
Proof. rewrite append_assoc. reflexivity. Qed.

Lemma plain_char_cases c :
  plain_char c = true ->
  Ascii.eqb c Py.CR = false /\ Ascii.eqb c Py.DQUOTE = false
  /\ Ascii.eqb c DELIM = false.
Proof.
  unfold plain_char. intros H. apply negb_true_iff in H.
  apply orb_false_elim in H as [H Hcr]. apply orb_false_elim in H as [Hd Hq].
  auto.
Qed.

Lemma is_blank_not_lf c : is_blank c = true -> Ascii.eqb c Py.LF = false.
Proof.
  unfold is_blank. intros [H|H]%orb_prop; apply Ascii.eqb_eq in H; subst;
    reflexivity.
Qed.

Lemma is_blank_cases c :
  is_blank c = true ->
  Ascii.eqb c Py.LF = false /\ Ascii.eqb c Py.CR = false
  /\ Ascii.eqb c Py.DQUOTE = false /\ Ascii.eqb c DELIM = false.
Proof.
  unfold is_blank. intros [H|H]%orb_prop; apply Ascii.eqb_eq in H; subst;
    repeat split; reflexivity.
Qed.

Lemma plain_cons c text : plain (String c text) = plain_char c && plain text.
Proof. reflexivity. Qed.

Lemma next_since_lf s : next_since s Py.LF = EmptyString.
Proof. reflexivity. Qed.

Lemma next_since_other s c :
  Ascii.eqb c Py.LF = false -> next_since s c = s +:+ Py.chr c.
Proof. unfold next_since. intros ->. reflexivity. Qed.

(** ** The step back on a line that starts with blanks *)

(** Blanks read inside a field are added to it. *)
Lemma feed_again_blanks b :
  forall fld line rows ex since,
    blank b = true ->
    feed_again {| p_state := IN_FIELD; p_field := fld; p_line := line;
                  p_rows := rows; p_expected := ex; p_since_lf := since |} b
    = Ok {| p_state := IN_FIELD; p_field := fld +:+ b; p_line := line;
            p_rows := rows; p_expected := ex; p_since_lf := since +:+ b |}.
Proof.
  induction b as [|c b IH]; intros fld line rows ex since Hb.
  - rewrite !append_nil_r. reflexivity.
  - unfold blank in Hb. simpl in Hb. apply andb_prop in Hb as [Hc Hb].
    destruct (is_blank_cases c Hc) as (Hlf & Hcr & Hq & Hd).
    tok. unfold in_field. rewrite Hlf, Hcr, Hd. tok_records.
    rewrite (next_since_other _ _ Hlf), (IH _ _ _ _ _ Hb).
    rewrite !snoc_append. reflexivity.
Qed.

Lemma feed_again_app a :
  forall p b,
    feed_again p (a +:+ b)
    = let* p' := feed_again p a in feed_again p' b.
Proof.
  induction a as [|c a IH]; intros p b; [reflexivity|].
  rewrite append_cons. cbn [feed_again].
  destruct (step_again p c) as [p'|e]; [apply IH|reflexivity].
Qed.

(** After a line feed the step back reads the blanks of the line as the
    start of its first field. *)
Lemma go_back_blanks cur c line rows ex fld st :
  blank cur = true -> cur <> EmptyString ->
  go_back {| p_state := st; p_field := fld; p_line := line;
             p_rows := rows; p_expected := ex; p_since_lf := cur |} c
  = let* q := in_field {| p_state := IN_FIELD; p_field := fld +:+ cur;
                          p_line := line; p_rows := rows; p_expected := ex;
                          p_since_lf := cur |} c in
    Ok (set_since (next_since cur c) q).
Proof.
  intros Hb Hne. destruct cur as [|b cur]; [contradiction|].
  unfold blank in Hb. simpl in Hb. apply andb_prop in Hb as [Hb0 Hb].
  destruct (is_blank_cases b Hb0) as (Hlf & Hcr & Hq & Hd).
  unfold go_back. tok_records. rewrite append_cons. cbn [feed_again].
  tok. unfold start_field. rewrite Hlf, Hcr, Hq, Hd. tok_records.
  rewrite (next_since_other _ _ Hlf), append_nil_l.
  rewrite feed_again_app, (feed_again_blanks cur _ _ _ _ _ Hb).
  cbn [Py.bind]. change (Py.chr c) with (String c EmptyString).
  tok. rewrite !snoc_append. change (Py.chr b +:+ cur) with (String b cur).
  destruct (in_field _ c) as [q|e]; reflexivity.
Qed.


(** A step of the tokenizer inside a line of blanks, at a character that is
    no blank and ends no line. *)
Lemma step_after_blanks cur c line rows ex :
  blank cur = true -> cur <> EmptyString ->
  Ascii.eqb c Py.LF = false -> Ascii.eqb c Py.CR = false ->
  is_blank c = false ->
  step {| p_state := WHITESPACE_LINE; p_field := EmptyString; p_line := line;
          p_rows := rows; p_expected := ex; p_since_lf := cur |} c
  = let* q := in_field {| p_state := IN_FIELD; p_field := cur;
                          p_line := line; p_rows := rows; p_expected := ex;
                          p_since_lf := cur |} c in
    Ok (set_since (cur +:+ Py.chr c) q).
Proof.
  intros Hb Hne Hlf Hcr Hbl. tok. unfold whitespace_line.
  rewrite Hlf, Hcr, Hbl, (go_back_blanks cur c _ _ _ _ _ Hb Hne).
  rewrite append_nil_l, (next_since_other _ _ Hlf).
  destruct (in_field _ c) as [q|e]; reflexivity.
Qed.

(** Reading a plain text from inside a line of it, of which [cur] is read,
    yields the rows read so far and then the kept lines of what is left,
    [cur] included. *)
Lemma feed_plain text :
  forall st fld rows ex cur,
    plain text = true -> no_lf cur = true ->
    at_line st fld cur -> ex = None \/ ex = Some 1 ->
    Py.bind (feed {| p_state := st; p_field := fld; p_line := [];
                     p_rows := rows; p_expected := ex; p_since_lf := cur |}
                  text) handle_eof
    = Ok (rows ++ lines_of (keep (Py.split Py.LF (cur +:+ text)))).
Proof.
  induction text as [|c text IH]; intros st fld rows ex cur Hp Hcur Hat Hex.
  - rewrite append_nil_r, (split_no_lf _ Hcur).
    unfold keep, lines_of, List.filter, handle_eof. tok.
    destruct Hat as [(-> & -> & ->)|[(-> & Hb & _ & ->)|(-> & Hb & ->)]].
    + rewrite app_nil_r. reflexivity.
    + rewrite Hb. cbn [negb map]. rewrite app_nil_r. reflexivity.
    + rewrite Hb. cbn [negb map]. unfold end_line. tok_records.
      destruct Hex as [->| ->]; reflexivity.
  - rewrite plain_cons in Hp. apply andb_prop in Hp as [Hc Hp].
    destruct (plain_char_cases c Hc) as (Hcr & Hq & Hd).
    destruct (Ascii.eqb_spec c Py.LF) as [->|Hlf].
    + (* the line ends *)
      rewrite (split_line _ _ Hcur).
      unfold keep. cbn [List.filter]. fold (keep (Py.split Py.LF text)).
      destruct Hat as [(-> & -> & ->)|[(-> & Hb & _ & ->)|(-> & Hb & ->)]].
      * tok. unfold start_record. rewrite Ascii.eqb_refl. tok_records.
        apply (IH START_RECORD _ _ _ EmptyString Hp eq_refl);
          [|exact Hex]. left. auto.
      * rewrite Hb. tok. unfold whitespace_line. rewrite Ascii.eqb_refl.
        tok_records.
        apply (IH START_RECORD _ _ _ EmptyString Hp eq_refl);
          [|exact Hex]. left. auto.
      * rewrite Hb. tok. unfold in_field. rewrite Ascii.eqb_refl.
        unfold end_line. tok_records.
        destruct Hex as [->| ->]; tok_records;
          (rewrite (IH START_RECORD _ _ _ EmptyString Hp eq_refl);
           [unfold lines_of; cbn [negb map]; rewrite <- app_assoc; reflexivity
           |left; auto|right; reflexivity]).
    + (* the line goes on *)
      apply Ascii.eqb_neq in Hlf.
      rewrite <- snoc_append.
      assert (no_lf (cur +:+ Py.chr c) = true) as Hcur'.
      { rewrite no_lf_snoc, Hcur, Hlf. reflexivity. }
      destruct Hat as [(-> & -> & ->)|[(-> & Hb & Hne & ->)|(-> & Hb & ->)]].
      * tok. unfold start_record. rewrite Hlf, Hcr.
        destruct (is_blank c) eqn:Hbl.
        -- tok_records. rewrite (next_since_other _ _ Hlf).
           apply (IH WHITESPACE_LINE); try assumption.
           right. left. rewrite append_nil_l. unfold blank. simpl.
           rewrite Hbl. repeat split; auto; discriminate.
        -- unfold start_field. tok. rewrite Hlf, Hcr, Hq, Hd. tok_records.
           rewrite (next_since_other _ _ Hlf).
           apply (IH IN_FIELD); try assumption.
           right. right. rewrite append_nil_l. unfold blank. simpl.
           rewrite Hbl. auto.
      * destruct (is_blank c) eqn:Hbl.
        -- tok. unfold whitespace_line. rewrite Hlf, Hcr, Hbl. tok_records.
           rewrite (next_since_other _ _ Hlf).
           apply (IH WHITESPACE_LINE); try assumption.
           right. left. rewrite blank_snoc, Hb, Hbl. repeat split; auto.
           destruct cur; discriminate.
        -- cbn [feed].
           rewrite (step_after_blanks cur c _ _ _ Hb Hne Hlf Hcr Hbl).
           unfold in_field. rewrite Hlf, Hcr, Hd. tok_records.
           apply (IH IN_FIELD); try assumption.
           right. right. rewrite blank_snoc, Hb, Hbl. auto.
      * tok. unfold in_field. rewrite Hlf, Hcr, Hd. tok_records.
        rewrite (next_since_other _ _ Hlf).
        apply (IH IN_FIELD); try assumption.
        right. right. rewrite blank_snoc, Hb. auto.
Qed.

(** A plain text is read line by line: one row of one field for each line
    that is not blank. *)
Lemma tokenize_plain text :
  plain text = true -> tokenize text = Ok (lines_of (kept_lines text)).
Proof.
  intros Hp. unfold tokenize, init.
  rewrite (feed_plain text START_RECORD _ _ _ EmptyString Hp eq_refl);
    [reflexivity| |left; reflexivity].
  left. auto.
Qed.

End TokenizerLemmas.

Section SplitLemmas.
Import Props.

Lemma skip_spaces_shape q :
  exists run,
    q = run +:+ Re.skip_spaces q /\ all_space run = true
    /\ starts_with_space (Re.skip_spaces q) = false.
Proof.
  induction q as [|c q (run & Hq & Hrun & Hst)].
  - exists EmptyString. auto.
  - simpl. destruct (Py.isspace c) eqn:Hc.
    + exists (String c run). rewrite append_cons, <- Hq.
      unfold all_space in *. simpl. rewrite Hc, Hrun. auto.
    + exists EmptyString. simpl. rewrite Hc. auto.
Qed.

(** Without whitespace a line is one piece. *)
Lemma split1_one_piece s a :
  Re.split1 s = (a, None) -> a = s /\ no_space s = true.
Proof.
  revert a. induction s as [|c s IH]; intros a; simpl.
  - intros [= <-]. auto.
  - destruct (Py.isspace c) eqn:Hc; [discriminate|].
    destruct (Re.split1 s) as [b r]. intros [= <- ->].
    destruct (IH b eq_refl) as [-> Hs].
    unfold no_space in *. simpl. rewrite Hc, Hs. auto.
Qed.

(** With whitespace a line is split at its first run of whitespace. *)
Lemma split1_two_pieces s a b :
  Re.split1 s = (a, Some b) -> split_at_first_run s a b.
Proof.
  revert a. induction s as [|c s IH]; intros a; simpl; [discriminate|].
  destruct (Py.isspace c) eqn:Hc.
  - intros [= <- <-].
    destruct (skip_spaces_shape s) as (run & Hs & Hrun & Hst).
    exists (String c run). rewrite append_nil_l, append_cons, <- Hs.
    unfold all_space in *. simpl. rewrite Hc, Hrun.
    repeat split; auto; discriminate.
  - destruct (Re.split1 s) as [a' r]. intros [= <- ->].
    destruct (IH a' eq_refl) as (run & Hs & Hne & Hrun & Hp & Hst).
    exists run. rewrite append_cons, <- Hs.
    unfold no_space in *. simpl. rewrite Hc, Hp. repeat split; auto.
Qed.

End SplitLemmas.

Section InferenceLemmas.
Import Pd Props.

Lemma tail_refl s : tail_of s s.
Proof. exists EmptyString. auto. Qed.

Lemma tail_trans s t u : tail_of s t -> tail_of t u -> tail_of s u.
Proof.
  intros (p & -> & Hp) (q & -> & Hq). exists (p +:+ q).
  rewrite append_assoc. split; [reflexivity|].
  unfold no_space in *. rewrite forallb_string_app, Hp, Hq. reflexivity.
Qed.

Lemma tail_cons c s : Py.isspace c = false -> tail_of (String c s) s.
Proof.
  intros Hc. exists (Py.chr c). split; [reflexivity|].
  unfold no_space. simpl. rewrite Hc. reflexivity.
Qed.

Lemma tail_skip f s :
  (forall c, f c = true -> Py.isspace c = false) -> tail_of s (skip f s).
Proof.
  intros Hf. induction s as [|c s IH]; simpl; [apply tail_refl|].
  destruct (f c) eqn:Hc; [|apply tail_refl].
  eapply tail_trans; [apply tail_cons, Hf, Hc|exact IH].
Qed.

Lemma digit_no_space c : is_digit c = true -> Py.isspace c = false.
Proof.
  destruct c as [[] [] [] [] [] [] [] []]; try reflexivity; discriminate.
Qed.

Lemma sign_no_space c : is_sign c = true -> Py.isspace c = false.
Proof.
  destruct c as [[] [] [] [] [] [] [] []]; try reflexivity; discriminate.
Qed.

Lemma tail_skip_sign s : tail_of s (skip_sign s).
Proof.
  destruct s as [|c s]; simpl; [apply tail_refl|].
  destruct (is_sign c) eqn:Hc; [|apply tail_refl].
  apply tail_cons, sign_no_space, Hc.
Qed.

Lemma tail_mantissa s r : scan_mantissa s = Some r -> tail_of s r.
Proof.
  unfold scan_mantissa.
  pose proof (tail_skip is_digit s digit_no_space) as H1.
  destruct (skip is_digit s) as [|c s1] eqn:E.
  - destruct (0 <? _); [|discriminate]. intros [= <-]. exact H1.
  - destruct (Ascii.eqb_spec c "."%char) as [->|Hne].
    + destruct (0 <? _); [|discriminate]. intros [= <-].
      eapply tail_trans; [exact H1|].
      eapply tail_trans; [apply tail_cons; reflexivity|].
      apply tail_skip, digit_no_space.
    + destruct (0 <? _); [|discriminate]. intros [= <-]. exact H1.
Qed.

Lemma tail_exponent s : tail_of s (scan_exponent s).
Proof.
  destruct s as [|c s]; simpl; [apply tail_refl|].
  destruct (is_exponent_mark c) eqn:Hc; [|apply tail_refl].
  destruct (0 <? _); [|apply tail_refl].
  eapply tail_trans.
  - apply tail_cons. apply orb_prop in Hc as [H|H]; apply Ascii.eqb_eq in H;
      subst; reflexivity.
  - eapply tail_trans; [apply tail_skip_sign|apply tail_skip, digit_no_space].
Qed.

(** A tail of a text taken before its first whitespace holds that
    whitespace and all that follows. *)
Lemma tail_before_space p c q r :
  no_space p = true -> Py.isspace c = true ->
  tail_of (p +:+ String c q) r -> exists p', r = p' +:+ String c q.
Proof.
  intros Hp Hc (pre & Heq & Hpre). revert pre Heq Hpre Hp.
  induction p as [|x p IH]; intros pre Heq Hpre Hp.
  - rewrite append_nil_l in Heq. destruct pre as [|y pre].
    + exists EmptyString. rewrite append_nil_l in Heq. auto.
    + rewrite append_cons in Heq. injection Heq as <- _.
      unfold no_space in Hpre. simpl in Hpre. rewrite Hc in Hpre.
      discriminate.
  - rewrite append_cons in Heq. destruct pre as [|y pre].
    + exists (String x p). rewrite append_nil_l in Heq. auto.
    + rewrite append_cons in Heq. injection Heq as <- Heq.
      unfold no_space in Hpre, Hp. simpl in Hpre, Hp.
      apply andb_prop in Hpre as [_ Hpre]. apply andb_prop in Hp as [_ Hp].
      exact (IH pre Heq Hpre Hp).
Qed.

Lemma ascii_space_is_space c : isspace_ascii c = true -> Py.isspace c = true.
Proof.
  destruct c as [[] [] [] [] [] [] [] []]; try reflexivity; discriminate.
Qed.

(** Skipping blanks cannot use up a text that holds something else. *)
Lemma skip_blanks_stops s :
  all_space s = false -> skip isspace_ascii s <> EmptyString.
Proof.
  induction s as [|c s IH]; simpl; [discriminate|].
  unfold all_space in *. simpl.
  destruct (isspace_ascii c) eqn:Ha; [|discriminate].
  rewrite (ascii_space_is_space c Ha). simpl. exact IH.
Qed.

Lemma all_space_app a b : all_space (a +:+ b) = all_space a && all_space b.
Proof. apply forallb_string_app. Qed.

Lemma lower_space c : Py.isspace c = true -> lower c = c.
Proof.
  destruct c as [[] [] [] [] [] [] [] []]; try reflexivity; discriminate.
Qed.

(** A text equal to a literal up to case has whitespace only where the
    literal has. *)
Lemma eqb_nocase_no_space s t :
  eqb_nocase s t = true ->
  forallb_string (fun c => negb (Py.isspace (lower c))) t = true ->
  no_space s = true.
Proof.
  revert t. induction s as [|a s IH]; intros [|b t]; simpl; try discriminate;
    [reflexivity|].
  intros [Hab Hst]%andb_prop [Hb Ht]%andb_prop.
  apply Ascii.eqb_eq in Hab. unfold no_space in *. simpl.
  rewrite (IH t Hst Ht), andb_true_r.
  destruct (Py.isspace a) eqn:Ha; [|reflexivity].
  rewrite <- Hab, (lower_space a Ha), Ha in Hb. discriminate.
Qed.

Lemma no_space_app a b : no_space (a +:+ b) = no_space a && no_space b.
Proof. apply forallb_string_app. Qed.

Lemma is_inf_no_space s : is_inf s = true -> no_space s = true.
Proof.
  unfold is_inf. simpl. rewrite !orb_false_r.
  intros H. repeat (apply orb_prop in H as [H|H]);
    (eapply eqb_nocase_no_space; [exact H|reflexivity]).
Qed.

Lemma is_boolean_no_space s : is_boolean s = true -> no_space s = true.
Proof.
  unfold is_boolean. intros [H|H]%orb_prop;
    (eapply eqb_nocase_no_space; [exact H|reflexivity]).
Qed.

(** A field that no type but text can hold: it is no missing value, no
    integer, no number without sign, no float and no boolean. *)
Definition textual (w : string) : Prop :=
  is_na w = false /\ str_to_int64 w <> Converted
  /\ (exists why, str_to_uint64 w = Unread why)
  /\ is_float w = false /\ is_boolean w = false.

(** What is left of a line with a path, whitespace and a package string
    after a beginning without whitespace is more than blanks. *)
Lemma tail_not_blank x p c run y r t :
  Py.isspace x = false -> no_space p = true -> Py.isspace c = true ->
  Py.isspace y = false ->
  tail_of (String x p +:+ String c run +:+ String y r) t ->
  skip isspace_ascii t <> EmptyString.
Proof.
  intros Hx Hp Hc Hy Ht.
  replace (String x p +:+ String c run +:+ String y r)
    with ((String x p) +:+ String c (run +:+ String y r)) in Ht
    by reflexivity.
  apply tail_before_space in Ht as [p' ->];
    [|unfold no_space; simpl; rewrite Hx; exact Hp|exact Hc].
  apply skip_blanks_stops.
  rewrite all_space_app; unfold all_space at 2; simpl;
    fold (all_space (run +:+ String y r));
    rewrite all_space_app; unfold all_space at 3; simpl;
    rewrite Hy; simpl; rewrite !andb_false_r; reflexivity.
Qed.

Lemma tail_skip_digits s : tail_of s (skip is_digit s).
Proof. apply tail_skip, digit_no_space. Qed.

(** A line with a path, whitespace and a package string is text. *)
Lemma has_both_is_text line : has_both line = true -> textual line.
Proof.
  unfold has_both. intros [[Hna Hminus]%andb_prop Hsp]%andb_prop.
  apply negb_true_iff in Hna, Hminus. split; [exact Hna|].
  destruct (Re.split1 line) as [[|x p] [[|y r]|]] eqn:E; try discriminate.
  clear Hsp. apply split1_two_pieces in E.
  destruct E as (run & Hline & Hne & Hrun & Hp & Hst).
  destruct run as [|c run]; [contradiction|].
  unfold all_space in Hrun. simpl in Hrun.
  apply andb_prop in Hrun as [Hc Hrun].
  unfold no_space in Hp. simpl in Hp. apply andb_prop in Hp as [Hx Hp].
  apply negb_true_iff in Hx. simpl in Hst.
  assert (no_space line = false) as Hnp.
  { rewrite Hline, append_cons. unfold no_space. simpl. rewrite Hx. simpl.
    fold (no_space (p +:+ String c run +:+ String y r)).
    rewrite no_space_app, append_cons. unfold no_space at 2. simpl.
    rewrite Hc. simpl. apply andb_false_r. }
  assert (is_inf line = false) as Hinf.
  { destruct (is_inf line) eqn:E; [|reflexivity].
    apply is_inf_no_space in E. congruence. }
  assert (skip isspace_ascii line = line) as Hskip.
  { rewrite Hline, append_cons. simpl.
    destruct (isspace_ascii x) eqn:Ha; [|reflexivity].
    apply ascii_space_is_space in Ha. congruence. }
  assert (forall t, tail_of line t -> skip isspace_ascii t <> EmptyString)
    as Htail.
  { intros t Ht. rewrite Hline in Ht.
    exact (tail_not_blank x p c run y r t Hx Hp Hc Hst Ht). }
  repeat split.
  - unfold str_to_int64. rewrite Hskip.
    destruct (0 <? _); [|discriminate].
    destruct (_ <? _)%Z; [discriminate|].
    destruct (skip isspace_ascii (skip is_digit (skip_sign line))) eqn:Es;
      [|discriminate].
    exfalso. revert Es. apply Htail.
    eapply tail_trans; [apply tail_skip_sign|apply tail_skip_digits].
  - unfold str_to_uint64. rewrite Hskip, Hminus.
    set (s2 := if starts_with "+"%char line then skip_sign line else line).
    assert (tail_of line s2) as Ht2.
    { subst s2. destruct (starts_with "+"%char line);
        [apply tail_skip_sign|apply tail_refl]. }
    destruct (0 <? _); [|eexists; reflexivity].
    destruct (_ <? _)%Z; [eexists; reflexivity|].
    destruct (skip isspace_ascii (skip is_digit s2)) eqn:Es;
      [|eexists; reflexivity].
    exfalso. revert Es. apply Htail.
    eapply tail_trans; [exact Ht2|apply tail_skip_digits].
  - unfold is_float. rewrite Hskip.
    destruct (scan_mantissa (skip_sign line)) as [rest|] eqn:Em; [|exact Hinf].
    destruct (skip isspace_ascii (scan_exponent rest)) eqn:Es; [|exact Hinf].
    exfalso. revert Es. apply Htail.
    eapply tail_trans; [apply tail_skip_sign|].
    eapply tail_trans; [apply tail_mantissa; exact Em|apply tail_exponent].
  - destruct (is_boolean line) eqn:E; [|reflexivity].
    apply is_boolean_no_space in E. congruence.
Qed.

(** A column with a field that is text is a column of text. *)
Lemma try_int64_text ws : Exists textual ws -> try_int64 ws <> Converted.
Proof.
  induction 1 as [w ws (Hna & Hi & _)|w ws _ IH]; cbn [try_int64].
  - rewrite Hna. destruct (str_to_int64 w); congruence.
  - destruct (is_na w); [exact IH|].
    destruct (str_to_int64 w); [exact IH|discriminate..].
Qed.

Lemma try_uint64_text ws :
  Exists textual ws ->
  forall s u n,
    try_uint64 s u n ws = UintNone \/ try_uint64 s u n ws = UintOverflowError.
Proof.
  induction 1 as [w ws (Hna & _ & [why Hu] & _)|w ws _ IH]; intros s u n;
    cbn [try_uint64].
  - rewrite Hna, Hu. destruct why; auto.
  - destruct (is_na w); [apply IH|].
    destruct (str_to_uint64 w) as [|above|[]]; auto.
Qed.

Lemma missing_or_text f ws :
  Exists (fun w => is_na w = false /\ f w = false) ws ->
  missing_or f ws = false.
Proof.
  unfold missing_or.
  induction 1 as [w ws [Hna Hf]|w ws _ IH]; cbn [forallb].
  - rewrite Hna, Hf. reflexivity.
  - rewrite IH. apply andb_false_r.
Qed.

Lemma infer_text ws :
  Exists textual ws -> infer ws = Strings (map na_filter ws).
Proof.
  intros H. unfold infer.
  rewrite (missing_or_text is_float), (missing_or_text is_boolean);
    [| eapply Exists_impl; [exact H|]; intros w (? & _ & _ & _ & ?); auto
     | eapply Exists_impl; [exact H|]; intros w (? & _ & _ & ? & _); auto ].
  cbn [orb].
  pose proof (try_int64_text ws H) as Hi.
  destruct (try_uint64_text ws H false false false) as [Hu|Hu].
  - destruct ws as [|w ws]; [inversion H|].
    rewrite Hu. destruct (try_int64 (w :: ws)); [contradiction|reflexivity..].
  - destruct ws as [|w ws]; [inversion H|].
    rewrite Hu. destruct (try_int64 (w :: ws)); [contradiction|reflexivity..].
Qed.

End InferenceLemmas.

Section ParseLemmas.
Import Pd Props Debindex.

Lemma pad_split_value line :
  pad_row 2 (split_value (na_filter line)) = record_of line.
Proof.
  unfold na_filter, record_of. destruct (is_na line); [reflexivity|].
  simpl. destruct (Re.split1 line) as [a [b|]]; reflexivity.
Qed.

Lemma split_value_length line : length (split_value (na_filter line)) <= 2.
Proof.
  unfold na_filter. destruct (is_na line); simpl; [lia|].
  destruct (Re.split1 line) as [a [b|]]; simpl; lia.
Qed.

Lemma has_both_two_pieces line :
  has_both line = true -> length (split_value (na_filter line)) = 2.
Proof.
  unfold has_both, na_filter. intros [[Hna _]%andb_prop Hsp]%andb_prop.
  apply negb_true_iff in Hna. rewrite Hna. simpl.
  destruct (Re.split1 line) as [a [b|]]; [reflexivity|].
  destruct a; discriminate.
Qed.

Lemma width_of_lines lines :
  existsb has_both lines = true ->
  foldr Nat.max 0
    (map (@length _) (map split_value (map na_filter lines))) = 2.
Proof.
  assert (forall ls,
            foldr Nat.max 0
              (map (@length _) (map split_value (map na_filter ls))) <= 2)
    as Hle.
  { induction ls as [|l ls IH]; simpl; [lia|].
    pose proof (split_value_length l). lia. }
  induction lines as [|l lines IH]; simpl; [discriminate|].
  destruct (has_both l) eqn:Hl; simpl.
  - intros _. rewrite (has_both_two_pieces l Hl).
    pose proof (Hle lines). lia.
  - intros H. rewrite (IH H). pose proof (split_value_length l). lia.
Qed.

Lemma str_split_expand_lines lines :
  existsb has_both lines = true ->
  str_split_expand (map na_filter lines)
  = {| columns := ["0"; "1"]; rows := map record_of lines |}.
Proof.
  intros H. unfold str_split_expand. rewrite (width_of_lines lines H).
  f_equal. rewrite !map_map. apply map_ext. intros l.
  apply pad_split_value.
Qed.

Lemma infer_lines lines :
  existsb has_both lines = true ->
  infer lines = Strings (map na_filter lines).
Proof.
  intros H. apply infer_text. apply Exists_exists.
  apply existsb_exists in H as (l & Hin & Hl).
  exists l. split; [apply list_elem_of_In, Hin|apply has_both_is_text, Hl].
Qed.

(** Without NUL a field is read in full. *)
Lemma c_str_no_nul s : no_nul s = true -> c_str s = s.
Proof.
  unfold no_nul. induction s as [|c s IH]; [reflexivity|]. simpl.
  intros [Hc Hs]%andb_prop. apply negb_true_iff in Hc.
  rewrite Hc, (IH Hs). reflexivity.
Qed.

Lemma no_nul_split c text :
  no_nul text = true -> Forall (fun l => no_nul l = true) (Py.split c text).
Proof.
  unfold no_nul. induction text as [|x text IH]; simpl.
  - intros _. repeat constructor.
  - intros [Hx Ht]%andb_prop. specialize (IH Ht).
    destruct (Ascii.eqb x c).
    + constructor; [reflexivity|exact IH].
    + destruct (Py.split c text) as [|piece rest].
      * repeat constructor. simpl. rewrite Hx. reflexivity.
      * inversion IH as [|? ? Hp Hr]; subst. constructor; [|exact Hr].
        simpl. rewrite Hx. exact Hp.
Qed.

Lemma c_str_kept_lines text :
  no_nul text = true -> map c_str (kept_lines text) = kept_lines text.
Proof.
  intros H. unfold kept_lines.
  pose proof (no_nul_split Py.LF text H) as Hall.
  induction (Py.split Py.LF text) as [|l ls IH]; [reflexivity|].
  inversion Hall as [|? ? Hl Hls]; subst. cbn [List.filter].
  destruct (negb (blank l)); [|exact (IH Hls)].
  cbn [map]. rewrite (c_str_no_nul l Hl), (IH Hls). reflexivity.
Qed.

(** The fields of a text that is read line by line. *)
Lemma read_csv_lines text :
  plain text = true ->
  read_csv text = Ok (infer (map c_str (kept_lines text))).
Proof.
  intros Hp. unfold read_csv. rewrite (tokenize_plain text Hp).
  cbn [Py.bind]. do 2 f_equal. unfold lines_of. rewrite map_map.
  destruct (kept_lines text) as [|l ls]; reflexivity.
Qed.

Lemma read_csv_plain text :
  plain text = true -> no_nul text = true ->
  existsb has_both (kept_lines text) = true ->
  read_csv text = Ok (Strings (map na_filter (kept_lines text))).
Proof.
  intros Hp Hn Hb.
  rewrite (read_csv_lines text Hp), (c_str_kept_lines text Hn).
  rewrite (infer_lines _ Hb). reflexivity.
Qed.

Lemma table_of_plain E bs text :
  Gzip.read (inflate E) bs = Ok text ->
  plain text = true -> no_nul text = true ->
  existsb has_both (kept_lines text) = true ->
  table_of E bs ["filename"; "package"]
  = Ok {| columns := ["filename"; "package"];
          rows := map record_of (kept_lines text) |}.
Proof.
  intros Hgz Hp Hn Hb. unfold table_of. rewrite Hgz. simpl.
  rewrite (read_csv_plain text Hp Hn Hb). simpl.
  rewrite (str_split_expand_lines _ Hb). reflexivity.
Qed.

End ParseLemmas.

(* ===================================================================== *)
(** * Lemmas on the program                                               *)
(* ===================================================================== *)

Section ProgramLemmas.
Import Pd Props Debindex.

Lemma descending_sorted l : descending l -> Sorted desc_rel l.
Proof.
  induction l as [|x l IH]; intros Hd; constructor.
  - apply IH. intros i a b Ha Hb. exact (Hd (S i) a b Ha Hb).
  - destruct l as [|y l]; constructor.
    exact (Hd 0 x y eq_refl eq_refl).
Qed.

(** The result and the log of [count_occurrences] on a frame that has the
    key column. *)
Lemma count_occurrences_run df key i st :
  index_of key (columns df) = Some i ->
  count_occurrences df key st
  = (Ok (ranked (sort_values_desc (group_sizes (column_values i df)))),
     logged (logged st INFO "Counting index entries occurrences ...")
            INFO "Counting finished.").
Proof.
  intros Hi. unfold count_occurrences, bindM, logger_info, logger_log, lift, ret.
  unfold pivot_table_size. rewrite Hi. rewrite rank_group_sizes. reflexivity.
Qed.

(** The count the ranked result gives to each key. *)
Lemma count_occurrences_per_key df key i st :
  index_of key (columns df) = Some i ->
  exists l,
    fst (count_occurrences df key st) = Ok (ranked l)
    /\ (forall k, count_of k l = occurrences k (column_values i df)).
Proof.
  intros Hi. eexists. rewrite (count_occurrences_run _ _ _ _ Hi). simpl.
  split; [reflexivity|].
  intros k. rewrite <- group_sizes_count.
  apply count_of_perm.
  - apply key_sorted_NoDup, group_sizes_sorted.
  - apply sort_values_desc_perm.
Qed.

(** Line feeds in the saved text: one after each entry, none inside an
    entry whose key has none. *)
Lemma count_char_app c a b :
  count_char c (a +:+ b) = count_char c a + count_char c b.
Proof.
  induction a as [|x a IH]; [reflexivity|].
  rewrite append_cons. simpl. rewrite IH. lia.
Qed.

Lemma count_lf_no_lf s : no_lf s = true -> count_char Py.LF s = 0.
Proof.
  unfold no_lf. induction s as [|x s IH]; [reflexivity|]. simpl.
  intros [Hx Hs]%andb_prop. apply negb_true_iff in Hx.
  rewrite Hx, (IH Hs). reflexivity.
Qed.

Lemma count_lf_double_quotes s :
  count_char Py.LF (Csv.double_quotes s) = count_char Py.LF s.
Proof.
  induction s as [|x s IH]; [reflexivity|]. simpl.
  destruct (Ascii.eqb_spec x Py.DQUOTE) as [->|_]; simpl; rewrite IH;
    reflexivity.
Qed.

Lemma count_lf_write_field s :
  count_char Py.LF (Csv.write_field s) = count_char Py.LF s.
Proof.
  unfold Csv.write_field. destruct (Csv.needs_quotes s); [|reflexivity].
  rewrite !count_char_app, count_lf_double_quotes. simpl. lia.
Qed.

Lemma digits_no_lf s : forallb_string is_digit s = true -> no_lf s = true.
Proof.
  unfold no_lf. induction s as [|x s IH]; [reflexivity|]. simpl.
  intros [Hx Hs]%andb_prop. rewrite (IH Hs), andb_true_r.
  destruct (Ascii.eqb_spec x Py.LF) as [->|_]; [discriminate|reflexivity].
Qed.

Lemma concat_cons x xs :
  String.concat EmptyString (x :: xs) = x +:+ String.concat EmptyString xs.
Proof.
  destruct xs as [|y xs]; [symmetry; apply append_nil_r|reflexivity].
Qed.

Lemma count_lf_csv_text l :
  forallb (fun e => no_lf (fst e)) l = true ->
  count_char Py.LF (csv_text l) = length l.
Proof.
  unfold csv_text, csv_lines.
  induction l as [|[k n] l IH]; [reflexivity|].
  cbn [forallb map fst snd length]. intros [Hk Hl]%andb_prop.
  rewrite concat_cons.
  rewrite !count_char_app, count_lf_write_field, (count_lf_no_lf k Hk).
  rewrite (count_lf_no_lf _ (digits_no_lf _ (str_nat_digits n))).
  rewrite (IH Hl). reflexivity.
Qed.

Lemma has_nan_ranked l : has_nan (ranked l) = false.
Proof. induction l as [|e l IH]; simpl; [reflexivity|exact IH]. Qed.

Lemma to_csv_ranked l : to_csv "package" true false (ranked l) = csv_text l.
Proof.
  unfold to_csv, csv_text, csv_lines. rewrite has_nan_ranked. simpl.
  f_equal. unfold ranked. rewrite !map_map. apply map_ext. intros [k n].
  unfold Csv.write_row. simpl. rewrite write_field_str_nat.
  rewrite !append_assoc. reflexivity.
Qed.

Lemma head_nonneg {A} (n : Z) (l : list A) :
  (0 <= n)%Z -> head n l = take (Z.to_nat n) l.
Proof.
  intros Hn. unfold head. destruct (Z.leb_spec 0 n); [reflexivity|lia].
Qed.

Lemma ranked_take n l : take n (ranked l) = ranked (take n l).
Proof. unfold ranked. symmetry. apply fmap_take. Qed.

Lemma read_csv_bytes E bs cols st :
  _read_csv E (BytesIO bs) cols st = (table_of E bs cols, st).
Proof. reflexivity. Qed.

Lemma read_csv_path E p bs cols st :
  files st !! p = Some bs ->
  _read_csv E (Path p) cols st = (table_of E bs cols, st).
Proof.
  intros H. unfold _read_csv, bindM, source_bytes, read_file. rewrite H.
  reflexivity.
Qed.

Lemma read_index_remote_run E url cols st bs :
  http_get E url = Ok bs ->
  read_index_remote E url cols st
  = let st1 := logged st INFO
                 ("Reading index file from " +:+ quoted url +:+ " ...") in
    match table_of E bs cols with
    | Ok df => (Ok df, logged st1 INFO "Reading finished.")
    | Raise e => (Raise e, st1)
    end.
Proof.
  intros H. unfold read_index_remote, bindM, logger_info, logger_log, lift, ret.
  rewrite H, read_csv_bytes. destruct (table_of E bs cols); reflexivity.
Qed.

Lemma read_index_local_run E path cols st bs :
  files st !! path = Some bs ->
  read_index_local E path cols st
  = let st1 := logged st INFO
                 ("Reading index file from local file "
                  +:+ quoted path +:+ " ...") in
    match table_of E bs cols with
    | Ok df => (Ok df, logged st1 INFO "Reading finished.")
    | Raise e => (Raise e, st1)
    end.
Proof.
  intros H. unfold read_index_local, bindM, logger_info, logger_log, ret.
  rewrite (read_csv_path E path bs) by exact H.
  destruct (table_of E bs cols); reflexivity.
Qed.

Lemma download_index_run E url name st bs :
  http_get E url = Ok bs ->
  download_index E url name st
  = let st1 := logged st INFO
                 ("Downloading index file from " +:+ quoted url +:+ " ...") in
    match open_wb E name with
    | None => (Ok tt, logged (saved st1 name bs) INFO "Downloading finished.")
    | Some e => (Raise e, st1)
    end.
Proof.
  intros H. unfold download_index, bindM, logger_info, logger_log, lift,
    write_file.
  rewrite H. destruct (open_wb E name); reflexivity.
Qed.

Lemma main_run E a st :
  main E a st
  = match try_except (main_try E a) (main_except a) (entered a st) with
    | (Ok _, st') => (Ok tt, printed st' "Finished.")
    | (Raise e, st') => (Raise e, st')
    end.
Proof.
  unfold main, bindM, logger_setLevel, print, entered.
  destruct (try_except _ _ _) as [[[]|e] st']; reflexivity.
Qed.

Lemma refused_header_BadGzipFile inflate bs :
  refused_header bs = true -> Gzip.read inflate bs = Raise BadGzipFile.
Proof.
  destruct bs as [|b0 [|b1 rest]]; simpl; [discriminate|reflexivity|].
  destruct (Gzip.is_magic b0 b1); [|reflexivity].
  destruct rest as [|m [|f [|t0 [|t1 [|t2 [|t3 [|xf [|os body]]]]]]]];
    try discriminate.
  destruct (Byte.eqb m x08); [discriminate|reflexivity].
Qed.

Lemma table_of_refused E bs cols :
  refused_header bs = true -> table_of E bs cols = Raise BadGzipFile.
Proof.
  intros H. unfold table_of. rewrite (refused_header_BadGzipFile _ _ H).
  reflexivity.
Qed.

Lemma table_of_empty E bs :
  Gzip.read (inflate E) bs = Ok EmptyString ->
  table_of E bs ["filename"; "package"] = Raise ValueError.
Proof. intros H. unfold table_of. rewrite H. reflexivity. Qed.

End ProgramLemmas.

Section RunLemmas.
Import Pd Props Debindex Further.

Lemma main_except_handled a e :
  main_except a e
  = option_map (fun r => logger_log (fst r) (snd r)) (handled a e).
Proof. destruct e; reflexivity. Qed.

Lemma table_of_columns E bs cols df :
  table_of E bs cols = Ok df -> columns df = cols.
Proof.
  unfold table_of, set_columns.
  destruct (Gzip.read _ _) as [text|e]; [|discriminate]. simpl.
  destruct (read_csv text) as [c|e]; [|discriminate]. simpl.
  destruct (str c) as [vs|e]; [|discriminate]. simpl.
  destruct (_ =? _); [|discriminate]. intros [= <-]. reflexivity.
Qed.

(** [output_result] on a ranked result. *)
Lemma output_result_run E a l st :
  output_result E "package" (Some (ranked l)) (output a)
    (number_of_elements a) st
  = emission E a l st.
Proof.
  unfold output_result, emission, result_at, result_file.
  destruct (output a) as [path|]; [|reflexivity].
  unfold bindM, logger_info, logger_log, to_csv_path.
  destruct (get_handle E path); reflexivity.
Qed.

(** What [main] does with a table of the two columns. *)
Lemma after_reading_run E a df st :
  columns df = ["filename"; "package"] ->
  after_reading E a df st = emission E a (ranking df) (counted st).
Proof.
  intros Hc. unfold after_reading. unfold bindM at 1.
  rewrite (count_occurrences_run df "package" 1 st) by (rewrite Hc; reflexivity).
  apply output_result_run.
Qed.

(** The body of [main], by the answer to its request, the opening of the
    download file and the outcome of the parse. *)
Lemma main_try_run E a st :
  main_try E a st
  = match http_get E (index_file_url a) with
    | Raise e => (Raise e, requested a st)
    | Ok bs =>
        match download_error E a with
        | Some e => (Raise e, requested a st)
        | None =>
            match table_of E bs ["filename"; "package"] with
            | Raise e => (Raise e, fetched E a st bs)
            | Ok df =>
                emission E a (ranking df)
                  (counted (logged (fetched E a st bs) INFO "Reading finished."))
            end
        end
    end.
Proof.
  unfold main_try, fetched, download_error. unfold requested.
  destruct (download a) eqn:Hd.
  - unfold bindM at 1 2.
    destruct (http_get E (index_file_url a)) as [bs|e] eqn:Hget.
    + rewrite (download_index_run _ _ _ _ _ Hget). cbv zeta.
      destruct (open_wb E _) as [e|]; [reflexivity|].
      erewrite read_index_local_run by apply lookup_insert_eq. cbv zeta.
      destruct (table_of E bs _) as [df|e] eqn:Ht; [|reflexivity].
      apply (after_reading_run E a df _ (table_of_columns _ _ _ _ Ht)).
    + unfold download_index, bindM, logger_info, logger_log, lift.
      rewrite Hget. reflexivity.
  - unfold bindM at 1.
    destruct (http_get E (index_file_url a)) as [bs|e] eqn:Hget.
    + rewrite (read_index_remote_run _ _ _ _ _ Hget). cbv zeta.
      destruct (table_of E bs _) as [df|e] eqn:Ht; [|reflexivity].
      apply (after_reading_run E a df _ (table_of_columns _ _ _ _ Ht)).
    + unfold read_index_remote, bindM, logger_info, logger_log, lift.
      rewrite Hget. reflexivity.
Qed.

(** [main], by the end of its body. *)
Lemma main_ending E a st :
  main E a st = ending a (main_try E a (entered a st)).
Proof.
  rewrite main_run. unfold try_except, ending, finish.
  destruct (main_try E a (entered a st)) as [[[]|e] st']; [reflexivity|].
  rewrite main_except_handled.
  destruct (handled a e) as [[lvl msg]|]; reflexivity.
Qed.

Lemma main_cases E a st :
  main E a st
  = match http_get E (index_file_url a) with
    | Raise e => finish a e (requested a (entered a st))
    | Ok bs =>
        match download_error E a with
        | Some e => finish a e (requested a (entered a st))
        | None =>
            match table_of E bs ["filename"; "package"] with
            | Raise e => finish a e (fetched E a (entered a st) bs)
            | Ok df =>
                ending a
                  (emission E a (ranking df)
                     (counted (logged (fetched E a (entered a st) bs)
                                      INFO "Reading finished.")))
            end
        end
    end.
Proof.
  rewrite main_ending, main_try_run.
  destruct (http_get E (index_file_url a)) as [bs|e]; [|reflexivity].
  destruct (download_error E a) as [e|]; [reflexivity|].
  destruct (table_of E bs _) as [df|e]; reflexivity.
Qed.

Lemma stdout_fetched E a st bs : stdout (fetched E a st bs) = stdout st.
Proof. unfold fetched. destruct (download a); reflexivity. Qed.

Lemma files_fetched E a st bs :
  files (fetched E a st bs)
  = if download a
    then <[download_file_name a (Py.strftime (now E)) := bs]> (files st)
    else files st.
Proof. unfold fetched. destruct (download a); reflexivity. Qed.

Lemma log_level_fetched E a st bs :
  log_level (fetched E a st bs) = log_level st.
Proof. unfold fetched. destruct (download a); reflexivity. Qed.

Lemma stdout_fold_printed lines st :
  stdout (fold_left printed lines st) = stdout st ++ lines.
Proof.
  revert st. induction lines as [|x lines IH]; intros st; simpl.
  - symmetry. apply app_nil_r.
  - rewrite IH. simpl. rewrite <- app_assoc. reflexivity.
Qed.

Lemma files_fold_printed lines st :
  files (fold_left printed lines st) = files st.
Proof.
  revert st. induction lines as [|x lines IH]; intros st; simpl;
    [reflexivity|]. rewrite IH. reflexivity.
Qed.

Lemma log_level_fold_printed lines st :
  log_level (fold_left printed lines st) = log_level st.
Proof.
  revert st. induction lines as [|x lines IH]; intros st; simpl;
    [reflexivity|]. rewrite IH. reflexivity.
Qed.

(** What the emission prints and writes. *)
Lemma stdout_emission E a l st :
  stdout (snd (emission E a l st))
  = stdout st ++ match output a with
                 | None => preview l (number_of_elements a)
                 | Some _ => []
                 end.
Proof.
  unfold emission. destruct (output a) as [path|].
  - rewrite app_nil_r. destruct (get_handle E path); reflexivity.
  - apply stdout_fold_printed.
Qed.

Lemma files_emission E a l st :
  files (snd (emission E a l st))
  = match output a with
    | Some path =>
        match get_handle E path with
        | File => <[path := result_at E path l]> (files st)
        | _ => files st
        end
    | None => files st
    end.
Proof.
  unfold emission. destruct (output a) as [path|].
  - destruct (get_handle E path); reflexivity.
  - apply files_fold_printed.
Qed.

Lemma log_level_emission E a l st :
  log_level (snd (emission E a l st)) = log_level st.
Proof.
  unfold emission. destruct (output a) as [path|].
  - destruct (get_handle E path); reflexivity.
  - apply log_level_fold_printed.
Qed.

(** The emission fails exactly when the output path cannot be opened. *)
Lemma fst_emission E a l st :
  fst (emission E a l st)
  = match output_error E a with
    | Some e => Raise e
    | None => Ok tt
    end.
Proof.
  unfold emission, output_error. destruct (output a) as [path|];
    [|reflexivity].
  destruct (get_handle E path); reflexivity.
Qed.

(** What [finish] and [ending] leave of the state. *)
Lemma stdout_finish a e st :
  stdout (snd (finish a e st))
  = stdout st ++ match handled a e with
                 | Some _ => ["Finished."]
                 | None => []
                 end.
Proof.
  unfold finish. destruct (handled a e); simpl; [reflexivity|].
  symmetry. apply app_nil_r.
Qed.

Lemma files_finish a e st : files (snd (finish a e st)) = files st.
Proof. unfold finish. destruct (handled a e); reflexivity. Qed.

Lemma log_level_finish a e st :
  log_level (snd (finish a e st)) = log_level st.
Proof. unfold finish. destruct (handled a e); reflexivity. Qed.

(** Runs that end with an exception. *)
Lemma finish_raises a e st e' st' :
  finish a e st = (Raise e', st') ->
  e' = e /\ st' = st /\ handled a e = None.
Proof.
  unfold finish. destruct (handled a e); [discriminate|].
  intros [= <- <-]. auto.
Qed.

Lemma ending_raises a r e st :
  ending a r = (Raise e, st) -> r = (Raise e, st) /\ handled a e = None.
Proof.
  destruct r as [[[]|e1] st1]; [discriminate|]. cbn [ending].
  intros (-> & -> & H)%finish_raises. auto.
Qed.

Lemma emission_raises E a l st e st' :
  emission E a l st = (Raise e, st') ->
  stdout st' = stdout st /\ files st' = files st
  /\ log_level st' = log_level st /\ output_error E a = Some e.
Proof.
  unfold emission, output_error. destruct (output a) as [path|];
    [|discriminate].
  destruct (get_handle E path); try discriminate.
  intros [= <- <-]. auto.
Qed.

Lemma fst_finish a e st :
  fst (finish a e st)
  = match handled a e with Some _ => Ok tt | None => Raise e end.
Proof. unfold finish. destruct (handled a e); reflexivity. Qed.

Lemma fst_ending a r :
  fst (ending a r)
  = match fst r with
    | Ok _ => Ok tt
    | Raise e => match handled a e with Some _ => Ok tt | None => Raise e end
    end.
Proof. destruct r as [[[]|e] st]; [reflexivity|apply fst_finish]. Qed.

Lemma stdout_ending a r :
  stdout (snd (ending a r))
  = stdout (snd r) ++ match fst (ending a r) with
                      | Ok _ => ["Finished."]
                      | Raise _ => []
                      end.
Proof.
  destruct r as [[[]|e] st]; [reflexivity|]. cbn [ending fst snd].
  rewrite stdout_finish, fst_finish. destruct (handled a e); reflexivity.
Qed.

Lemma files_ending a r : files (snd (ending a r)) = files (snd r).
Proof. destruct r as [[[]|e] st]; [reflexivity|apply files_finish]. Qed.

Lemma log_level_ending a r : log_level (snd (ending a r)) = log_level (snd r).
Proof. destruct r as [[[]|e] st]; [reflexivity|apply log_level_finish]. Qed.

End RunLemmas.

(* ===================================================================== *)
(** * The model on known inputs                                           *)
(* ===================================================================== *)

Section ModelTests.
Import Pd Props Debindex.

(** [re.compile(r'\s+').split(s, maxsplit=1)]. *)
Example split1_examples :
  map (fun s => Re.pieces (Re.split1 s))
      ["usr/bin/foo   util-pkg"; " a b"; "a "; "a"; ""; "a b c  d"; "  x"]
  = [ ["usr/bin/foo"; "util-pkg"]; [""; "a b"]; ["a"; ""]; ["a"]; [""];
      ["a"; "b c  d"]; [""; "x"] ].
Proof. reflexivity. Qed.

(** [GzipFile.read()] on streams decided by their header. *)
Example gzip_header_examples :
  map (Gzip.read Sample.inflate_stored)
      [ []; [x1f]; [x1f; x8b]; [x61; x62];
        [x1f; x8b; x07; x00; x00; x00; x00; x00; x00; x03];
        [x1f; x8b; x08; x00; x00; x00; x00; x00; x00] ]
  = [ Ok EmptyString; Raise BadGzipFile; Raise EOFError; Raise BadGzipFile;
      Raise BadGzipFile; Raise EOFError ].
Proof. reflexivity. Qed.

Example gzip_example : Gzip.read Sample.inflate_stored Sample.example_gz
                       = Ok Sample.example_text.
Proof. reflexivity. Qed.

(** The tokenizer: lines, blank lines, commas, a line with too many
    fields, a line with too few. *)
Example tokenize_lines :
  Csv.tokenize Sample.example_text
  = Ok [ ["usr/bin/foo   util-pkg"]; ["usr/bin/bar   util-pkg"];
         ["usr/lib/baz   lib-pkg"] ].
Proof. reflexivity. Qed.

Example tokenize_blank_lines :
  Csv.tokenize (Py.chr Py.LF +:+ "  " +:+ Py.chr Py.LF +:+ " a b"
                +:+ Py.chr Py.LF +:+ "c")
  = Ok [[" a b"]; ["c"]].
Proof. reflexivity. Qed.

Example tokenize_too_many_fields :
  Csv.tokenize ("a b" +:+ Py.chr Py.LF +:+ "c,d" +:+ Py.chr Py.LF)
  = Raise ParserError.
Proof. reflexivity. Qed.

Example tokenize_too_few_fields :
  Csv.tokenize ("a b,c d" +:+ Py.chr Py.LF +:+ "e f" +:+ Py.chr Py.LF)
  = Ok [["a b"; "c d"]; ["e f"; ""]].
Proof. reflexivity. Qed.

Example tokenize_quoted_field :
  Csv.tokenize (Py.chr Py.DQUOTE +:+ "a, b" +:+ Py.chr Py.DQUOTE
                +:+ Py.chr Py.LF)
  = Ok [["a, b"]].
Proof. reflexivity. Qed.

(** [csv.writer(f, lineterminator='\n').writerow([key, 3])]. *)
Example write_row_examples :
  map (fun k => Csv.write_row [k; "3"])
      ["a"; "a,b"; "a" +:+ Py.chr Py.DQUOTE +:+ "b"; ""; " a"; "a b"]
  = [ "a,3" +:+ Py.chr Py.LF;
      quoted "a,b" +:+ ",3" +:+ Py.chr Py.LF;
      quoted ("a" +:+ Py.chr Py.DQUOTE +:+ Py.chr Py.DQUOTE +:+ "b")
        +:+ ",3" +:+ Py.chr Py.LF;
      ",3" +:+ Py.chr Py.LF; " a,3" +:+ Py.chr Py.LF;
      "a b,3" +:+ Py.chr Py.LF ].
Proof. reflexivity. Qed.

(** Built-in string and list operations. *)
Example builtin_examples :
  Py.split "."%char "Contents-a.b.gz" = ["Contents-a"; "b"; "gz"]
  /\ Py.split "."%char "" = [""]
  /\ Py.list_insert (-1) "t" ["x"] = ["t"; "x"]
  /\ Py.list_insert (-1) "t" [] = ["t"]
  /\ Py.strip " a/ " = "a/"
  /\ Py.rstrip_char "/"%char "http://x//" = "http://x"
  /\ Py.strftime (now Sample.world) = "20240102-030405".
Proof. repeat split; reflexivity. Qed.

(** Numbers, booleans and missing values of [read_csv]. *)
Example literal_examples :
  map is_float ["1"; " 12 "; "-1.5"; "1e5"; "inf"; "abc"; "1 2"; "1e"; "";
                "1e308"; "1e309"; "1e400"; ".5"; "1."; "."]
  = [true; true; true; true; true; false; false; false; false;
     true; false; false; true; true; false]
  /\ map str_to_int64 ["12"; " -7 "; "9223372036854775807";
                       "9223372036854775808"; "-9223372036854775808";
                       "99999999999999999999x"; "1.5"; "+"; ""]
     = [Converted; Converted; Converted; Overflow; Converted; Overflow;
        Invalid; Invalid; Invalid]
  /\ map str_to_uint64 ["18446744073709551615"; "18446744073709551616";
                        "-x"; "7"; "x"]
     = [Unsigned true; Unread Overflow; Negative; Unsigned false;
        Unread Invalid]
  /\ map is_boolean ["True"; "false"; "yes"] = [true; true; false]
  /\ map is_na ["NA"; "#N/A N/A"; ""; "na"; "None"]
     = [true; true; true; false; false]
  /\ c_str ("a b" +:+ Py.chr Py.NUL +:+ "c") = "a b".
Proof. repeat split; vm_compute; reflexivity. Qed.

(** The type of a column: integers, an integer beyond [uint64], one
    beyond [int64] alone, with a missing value, with a float; a float
    beyond the range; text. *)
Example infer_examples :
  map infer
    [ ["1"; "NA"; "-2"]; ["99999999999999999999"]; ["9223372036854775808"];
      ["9223372036854775808"; "NA"]; ["9223372036854775808"; "1.5"];
      ["99999999999999999999"; "1.5"]; ["1.5"; "99999999999999999999"];
      ["1e400"]; ["true"; ""]; ["usr/bin/foo"; "NA"] ]
  = [ NotStrings 3; Strings [Some "99999999999999999999"]; NotStrings 1;
      Strings [Some "9223372036854775808"; Some "NA"]; NotStrings 2;
      Strings [Some "99999999999999999999"; Some "1.5"]; NotStrings 2;
      Strings [Some "1e400"]; NotStrings 2;
      Strings [Some "usr/bin/foo"; None] ].
Proof. vm_compute. reflexivity. Qed.

(** The step back of the tokenizer: after a line feed, and after a lone
    carriage return. *)
Example tokenize_step_back :
  Csv.tokenize ("a" +:+ Py.chr Py.LF +:+ " b") = Ok [["a"]; [" b"]]
  /\ Csv.tokenize ("a" +:+ Py.chr Py.CR +:+ Py.chr Py.LF +:+ " b")
     = Ok [["a"]; [" b"]]
  /\ Csv.tokenize ("a" +:+ Py.chr Py.CR +:+ "b") = Ok [["a"]; ["b"]]
  /\ Csv.tokenize ("a" +:+ Py.chr Py.CR +:+ " b") = Raise ParserError.
Proof. repeat split; reflexivity. Qed.

(** The archive format of a path, and the sample encoder. *)
Example infer_compression_examples :
  map infer_compression
      ["out.csv"; "out.csv.gz"; "OUT.GZ"; "out.tar.gz"; "out.zip"; "out.bz2";
       "out.xz"; "out.zst"; "gz"]
  = [None; Some Gzip; Some Gzip; Some Tar; Some Zip; Some Bz2; Some Xz;
     Some Zstd; None].
Proof. vm_compute. reflexivity. Qed.

Example gzip_stored_example :
  Sample.gzip_stored (list_byte_of_string Sample.example_text)
  = Sample.example_gz.
Proof. vm_compute. reflexivity. Qed.

(** The whole program on the three example lines. *)
Example main_example :
  main Sample.world (Sample.run "amd64" false None 10) Sample.start
  = (Ok tt,
     {| files := ∅;
        stdout := [ title; rule;
                    "  Top 10 packages with more files associated:"; rule;
                    "util-pkg    2" +:+ Py.chr Py.LF +:+ "lib-pkg     1";
                    rule; "Finished." ];
        log_level := INFO;
        log := [ (INFO, "Reading index file from "
                        +:+ quoted (Sample.mirror +:+ "/Contents-amd64.gz")
                        +:+ " ...");
                 (INFO, "Reading finished.");
                 (INFO, "Counting index entries occurrences ...");
                 (INFO, "Counting finished.") ] |}).
Proof. reflexivity. Qed.

Example main_example_saved :
  files (snd (main Sample.world (Sample.run "amd64" false (Some "out.csv") 10)
                Sample.start)) !! "out.csv"
  = Some (list_byte_of_string
            ("util-pkg,2" +:+ Py.chr Py.LF +:+ "lib-pkg,1" +:+ Py.chr Py.LF)).
Proof. reflexivity. Qed.

(** With the threshold [critical] the error of a refused stream is given
    to the logger but not shown. *)
Example critical_level_hides_the_error :
  let a := {| baseurl := Sample.mirror; architecture := "i386";
              download := false; log_level_arg := CRITICAL;
              output := None; number_of_elements := 10 |} in
  last (log (snd (main Sample.world a Sample.start)))
  = Some (ERROR, "Could not read index file")
  /\ shown (snd (main Sample.world a Sample.start)) = [].
Proof. split; reflexivity. Qed.

End ModelTests.

(* ===================================================================== *)
(** * The verified properties                                             *)
(* ===================================================================== *)

Section Parsing.
Import Pd Props Debindex Further.

(** The lines that are split as the comment on [_read_csv] says.  For a
    decompressed text without comma, double quote, carriage return and NUL
    in which some line has a path (not starting with a minus sign),
    whitespace and a package string: every line that is not blank yields
    one record; the record of a line (other than a missing-value string)
    has as path the text before the first run of whitespace of the line
    and as packages all the text after that run, as it is (no packages for
    a line without whitespace); and the aggregation counts, for each key,
    the records whose packages string is that very string. *)
Theorem plain_lines_split_at_first_whitespace (E : env) (bs : list byte)
    (text : string) (st : state) :
  Gzip.read (inflate E) bs = Ok text ->
  plain text = true -> no_nul text = true ->
  existsb has_both (kept_lines text) = true ->
  let df := {| columns := ["filename"; "package"];
               rows := map record_of (kept_lines text) |} in
  _read_csv E (BytesIO bs) ["filename"; "package"] st = (Ok df, st)
  /\ (forall line,
        is_na line = false ->
        match Re.split1 line with
        | (path, Some rest) =>
            record_of line = [Some path; Some rest]
            /\ split_at_first_run line path rest
        | (path, None) =>
            record_of line = [Some path; None]
            /\ path = line /\ no_space line = true
        end)
  /\ exists l,
       fst (count_occurrences df "package" st) = Ok (ranked l)
       /\ forall k, count_of k l = occurrences k (packages df).
Proof.
  intros Hgz Hp Hn Hb df. split; [|split].
  - rewrite read_csv_bytes, (table_of_plain E bs text Hgz Hp Hn Hb).
    reflexivity.
  - intros line Hna. unfold record_of. rewrite Hna.
    destruct (Re.split1 line) as [path [rest|]] eqn:Hs.
    + split; [reflexivity|apply split1_two_pieces; exact Hs].
    + split; [reflexivity|apply split1_one_piece; exact Hs].
  - exact (count_occurrences_per_key df "package" 1 st eq_refl).
Qed.

Example example_lines_split_at_first_whitespace :
  _read_csv Sample.world (BytesIO Sample.example_gz)
    ["filename"; "package"] Sample.start
  = (Ok Sample.example_frame, Sample.start).
Proof.
  exact (proj1 (plain_lines_split_at_first_whitespace Sample.world
                  Sample.example_gz Sample.example_text Sample.start
                  eq_refl eq_refl eq_refl eq_refl)).
Qed.

(** C1 does not hold of the program.  [_read_csv] means to split every
    line at its first run of whitespace (its comment: "Split dataframe in 2
    columns by first space"), but it reads the lines with [read_csv] and
    its default separator, the comma: the line
    [bin/sh   shells/dash, shells/bash] is cut at the comma first and only
    what follows the comma is split, so that the record has an empty path
    and the packages string [shells/bash], not the path [bin/sh] and the
    packages string [shells/dash, shells/bash], and the count goes to the
    key [shells/bash]; without the space after the comma no table is
    returned at all. *)
Theorem comma_splits_the_line_first :
  Gzip.read (inflate Sample.world) Sample.comma_gz
  = Ok (Sample.comma_line +:+ Py.chr Py.LF)
  /\ _read_csv Sample.world (BytesIO Sample.comma_gz)
       ["filename"; "package"] Sample.start
     = (Ok Sample.comma_frame, Sample.start)
  /\ Re.split1 Sample.comma_line
     = ("bin/sh", Some "shells/dash, shells/bash")
  /\ rows Sample.comma_frame <> [[Some "bin/sh"; Some "shells/dash, shells/bash"]]
  /\ fst (count_occurrences Sample.comma_frame "package" Sample.start)
     = Ok (ranked [("shells/bash", 1)])
  /\ fst (_read_csv Sample.world (BytesIO Sample.comma_nospace_gz)
            ["filename"; "package"] Sample.start)
     = Raise ValueError.
Proof.
  split; [reflexivity|]. split; [reflexivity|]. split; [reflexivity|].
  split; [discriminate|]. split; reflexivity.
Qed.

End Parsing.

Section Ranking.
Import Pd Props Debindex Further.

(** C2.  Sort correctness: on every table that has the key column,
    [count_occurrences] returns the sizes of the groups sorted by count in
    descending order: of two adjacent entries the first counts at least as
    much as the second. *)
Theorem ranked_result_is_descending (df : frame) (key : string) (i : nat)
    (st : state) :
  index_of key (columns df) = Some i ->
  let l := sort_values_desc (group_sizes (column_values i df)) in
  fst (count_occurrences df key st) = Ok (ranked l)
  /\ Permutation l (group_sizes (column_values i df))
  /\ descending l.
Proof.
  intros Hi l. rewrite (count_occurrences_run _ _ _ _ Hi). simpl.
  split; [reflexivity|]. split.
  - apply sort_values_desc_perm.
  - apply sorted_descending, sort_values_desc_sorted.
Qed.

Lemma ranked_result_is_descending_witness :
  index_of "package" (columns Sample.example_frame) = Some 1
  /\ fst (count_occurrences Sample.example_frame "package" Sample.start)
     = Ok (ranked (sort_values_desc
                     (group_sizes (column_values 1 Sample.example_frame))))
  /\ descending (sort_values_desc
                   (group_sizes (column_values 1 Sample.example_frame))).
Proof.
  split; [reflexivity|].
  pose proof (ranked_result_is_descending Sample.example_frame "package" 1
                Sample.start eq_refl) as H.
  split; [apply H|apply H].
Defined.

(** C3, as amended.  Count conservation: the counts of the ranked result
    add up to the number of records whose package field is present (not
    missing).  A record whose package field is the empty string is one of
    them, and every key is counted as often as it occurs. *)
Theorem counts_add_up_to_present_records (df : frame) (i : nat) (st : state) :
  index_of "package" (columns df) = Some i ->
  exists l,
    fst (count_occurrences df "package" st) = Ok (ranked l)
    /\ total l = present (column_values i df)
    /\ (forall k, count_of k l = occurrences k (column_values i df)).
Proof.
  intros Hi. exists (sort_values_desc (group_sizes (column_values i df))).
  rewrite (count_occurrences_run _ _ _ _ Hi). simpl.
  split; [reflexivity|]. split.
  - rewrite (total_perm _ _ (sort_values_desc_perm _)).
    apply group_sizes_total.
  - intros k. rewrite <- group_sizes_count.
    apply count_of_perm.
    + apply key_sorted_NoDup, group_sizes_sorted.
    + apply sort_values_desc_perm.
Qed.

Lemma counts_add_up_to_present_records_witness :
  index_of "package" (columns Sample.example_frame) = Some 1
  /\ exists l,
       fst (count_occurrences Sample.example_frame "package" Sample.start)
       = Ok (ranked l)
       /\ total l = present (column_values 1 Sample.example_frame)
       /\ (forall k, count_of k l
                     = occurrences k (column_values 1 Sample.example_frame)).
Proof.
  split; [reflexivity|].
  exact (counts_add_up_to_present_records Sample.example_frame 1
           Sample.start eq_refl).
Defined.

(** C3 as stated fails: the line [usr/bin/foo ] ends in a space, its record
    has the empty string as package, and the ranked result counts it: the
    counts add up to 1 while no record has a non-empty package. *)
Lemma empty_package_is_counted :
  fst (_read_csv Sample.world (BytesIO Sample.trailing_gz)
         ["filename"; "package"] Sample.start) = Ok Sample.trailing_frame
  /\ fst (count_occurrences Sample.trailing_frame "package" Sample.start)
     = Ok (ranked [("", 1)])
  /\ total [("", 1)] = 1
  /\ nonempty (packages Sample.trailing_frame) = 0.
Proof. repeat split; vm_compute; reflexivity. Qed.

End Ranking.

Section CorruptInput.
Import Pd Props Debindex Further.

(** X1.  The corrupt input that [main] does report.  A stream that the gzip
    reader refuses at its header (a single byte, two first bytes other than
    1f 8b, a compression method other than 8) makes Decode & Parse fail with
    [BadGzipFile] and return no table; when the download, if asked for, can
    be saved, [main] then logs the error and prints only its title and its
    closing line: no result is printed and no result file is written (with
    the download option, the downloaded file alone). *)
Theorem refused_stream_is_reported (E : env) (a : args) (st : state)
    (bs : list byte) :
  http_get E (index_file_url a) = Ok bs ->
  refused_header bs = true ->
  download_error E a = None ->
  (forall cols st', _read_csv E (BytesIO bs) cols st' = (Raise BadGzipFile, st'))
  /\ exists st1,
       main E a st = (Ok tt, st1)
       /\ stdout st1 = stdout st ++ [title; "Finished."]
       /\ last (log st1) = Some (ERROR, "Could not read index file")
       /\ files st1
          = if download a
            then <[download_file_name a (Py.strftime (now E)) := bs]> (files st)
            else files st.
Proof.
  intros Hget Href Hsave. split.
  - intros cols st'. rewrite read_csv_bytes, table_of_refused by exact Href.
    reflexivity.
  - rewrite main_cases, Hget, Hsave, table_of_refused by exact Href.
    unfold finish. cbn [handled fst snd].
    eexists. split; [reflexivity|].
    cbn [stdout log files printed logged].
    rewrite stdout_fetched, files_fetched. cbn [stdout entered printed].
    rewrite <- app_assoc. repeat split. apply last_snoc.
Qed.

Lemma refused_stream_is_reported_witness :
  http_get Sample.world (index_file_url (Sample.run "i386" true None 10))
  = Ok Sample.not_found_page
  /\ refused_header Sample.not_found_page = true
  /\ download_error Sample.world (Sample.run "i386" true None 10) = None
  /\ _read_csv Sample.world (BytesIO Sample.not_found_page)
       ["filename"; "package"] Sample.start
     = (Raise BadGzipFile, Sample.start)
  /\ exists st1,
       main Sample.world (Sample.run "i386" true None 10) Sample.start
       = (Ok tt, st1)
       /\ stdout st1 = [title; "Finished."]
       /\ files st1
          = {[ "Contents-i386.20240102-030405.gz" := Sample.not_found_page ]}.
Proof.
  split; [reflexivity|]. split; [reflexivity|]. split; [reflexivity|].
  destruct (refused_stream_is_reported Sample.world
              (Sample.run "i386" true None 10) Sample.start
              Sample.not_found_page eq_refl eq_refl eq_refl)
    as [Hread (st1 & Hmain & Hout & _ & Hfiles)].
  split; [apply Hread|].
  exists st1. split; [exact Hmain|]. split; [exact Hout|exact Hfiles].
Defined.

(** C4 does not hold of the program.  A gzip file cut after its first two
    bytes is no valid gzip stream, yet reading it raises [EOFError] and not
    [BadGzipFile]; [main], which means to report an invalid gzip file,
    handles [BadGzipFile] only: the run ends with [EOFError], with no error
    logged and without the closing line. *)
Theorem truncated_stream_raises_EOFError :
  Gzip.read (inflate Sample.world) Sample.truncated_gz = Raise EOFError
  /\ _read_csv Sample.world (BytesIO Sample.truncated_gz)
       ["filename"; "package"] Sample.start
     = (Raise EOFError, Sample.start)
  /\ main_except (Sample.run "short" false None 10) EOFError = None
  /\ main Sample.world (Sample.run "short" false None 10) Sample.start
     = (Raise EOFError,
        logged (entered (Sample.run "short" false None 10) Sample.start) INFO
          ("Reading index file from "
           +:+ quoted (Sample.mirror +:+ "/Contents-short.gz") +:+ " ..."))
  /\ stdout (snd (main Sample.world (Sample.run "short" false None 10)
                    Sample.start))
     = [title].
Proof. repeat split; reflexivity. Qed.

End CorruptInput.

Section EmptyInput.
Import Pd Props Debindex Further.

(** An empty decompressed stream does not reach the aggregation: splitting
    its (empty) column yields no column to name, so [_read_csv] raises
    [ValueError] and returns no table, and [main], with or without the
    download option (the download being saved), ends with that error. *)
Lemma empty_stream_is_not_parsed (E : env) (a : args) (st : state)
    (bs : list byte) :
  Gzip.read (inflate E) bs = Ok EmptyString ->
  http_get E (index_file_url a) = Ok bs ->
  download_error E a = None ->
  _read_csv E (BytesIO bs) ["filename"; "package"] st = (Raise ValueError, st)
  /\ main E a st = (Raise ValueError, fetched E a (entered a st) bs).
Proof.
  intros Hgz Hget Hsave. split.
  - rewrite read_csv_bytes, table_of_empty by exact Hgz. reflexivity.
  - rewrite main_cases, Hget, Hsave, table_of_empty by exact Hgz.
    reflexivity.
Qed.

(** C5 does not hold of the program.  On the gzip file of no data
    [_read_csv] raises [ValueError] (the split of the empty column yields
    no column to give the two names to) and no ranked result is made;
    [main] handles three other errors and not this one: with or without
    the download option, and with or without an output path, the run ends
    with [ValueError] after the title, with no preview, no result file and
    no closing line.  [output_result] has a case for a result that is
    missing ([if df is None: return]), which this run never reaches. *)
Theorem empty_index_raises_ValueError :
  Gzip.read (inflate Sample.world) Sample.empty_gz = Ok EmptyString
  /\ _read_csv Sample.world (BytesIO Sample.empty_gz) ["filename"; "package"]
       Sample.start
     = (Raise ValueError, Sample.start)
  /\ main_except (Sample.run "empty" false None 10) ValueError = None
  /\ fst (main Sample.world (Sample.run "empty" false None 10) Sample.start)
     = Raise ValueError
  /\ stdout (snd (main Sample.world (Sample.run "empty" false None 10)
                    Sample.start))
     = [title]
  /\ fst (main Sample.world (Sample.run "empty" true None 10) Sample.start)
     = Raise ValueError
  /\ stdout (snd (main Sample.world (Sample.run "empty" true None 10)
                    Sample.start))
     = [title]
  /\ fst (main Sample.world (Sample.run "empty" false (Some "out.csv") 10)
            Sample.start)
     = Raise ValueError
  /\ files (snd (main Sample.world
                   (Sample.run "empty" false (Some "out.csv") 10)
                   Sample.start)) !! "out.csv"
     = None
  /\ output_result Sample.world "package" None None 10 Sample.start
     = (Ok tt, Sample.start).
Proof. repeat split; reflexivity. Qed.

End EmptyInput.

Section Emission.
Import Pd Props Debindex Further.

(** C6, as amended.  Preview bound, for a limit [n] that is not negative:
    without a destination the program prints, between its three rules and
    its title line, the first [min n |R|] entries of the ranked result and
    nothing else; no entry left out counts more than an entry shown; and a
    limit beyond the size of the result shows all of it. *)
Theorem preview_shows_first_entries (E : env) (l : sizes) (n : Z)
    (st : state) :
  (0 <= n)%Z -> descending l ->
  let shown := take (Z.to_nat n) l in
  output_result E "package" (Some (ranked l)) None n st
  = (Ok tt,
     printed (printed (printed (printed (printed st rule)
       ("  Top " +:+ Py.str_Z n +:+ " packages with more files associated:"))
       rule) (to_string (ranked shown))) rule)
  /\ Z.of_nat (length shown) = Z.min n (Z.of_nat (length l))
  /\ (forall a b, a ∈ shown -> b ∈ drop (Z.to_nat n) l -> snd b <= snd a)
  /\ ((Z.of_nat (length l) <= n)%Z -> shown = l).
Proof.
  intros Hn Hd shown. repeat split.
  - unfold output_result, bindM, print. rewrite head_nonneg by exact Hn.
    rewrite ranked_take. reflexivity.
  - unfold shown. rewrite length_take. lia.
  - intros a b Ha Hb. apply elem_of_take in Ha as [i [Hi Hlt]].
    apply list_elem_of_lookup in Hb as [j Hj]. rewrite lookup_drop in Hj.
    apply (sorted_desc_le l i (Z.to_nat n + j) a b);
      [apply descending_sorted; exact Hd|lia|exact Hi|exact Hj].
  - intros Hlen. unfold shown. apply take_ge. lia.
Qed.

Lemma preview_shows_first_entries_witness :
  (0 <= 1)%Z /\ descending Sample.example_ranked
  /\ fst (output_result Sample.world "package"
            (Some (ranked Sample.example_ranked)) None 1 Sample.start) = Ok tt
  /\ stdout (snd (output_result Sample.world "package"
                    (Some (ranked Sample.example_ranked)) None 1 Sample.start))
     = [rule; "  Top 1 packages with more files associated:"; rule;
        "util-pkg    2"; rule].
Proof.
  assert (descending Sample.example_ranked) as Hd.
  { intros [|[|i]] a b Ha Hb; simpl in *; try discriminate.
    injection Ha as <-. injection Hb as <-. simpl. lia. }
  split; [lia|]. split; [exact Hd|].
  destruct (preview_shows_first_entries Sample.world Sample.example_ranked 1
              Sample.start ltac:(lia) Hd) as [H _].
  rewrite H. split; reflexivity.
Defined.

(** C6 as stated fails for a negative limit: with [-1] the preview shows
    all entries but the last one, here one entry of two, and not
    [min (-1) 2] of them. *)
Lemma negative_limit_drops_last_entries :
  head (-1) (ranked Sample.example_ranked) = ranked [("util-pkg", 2)]
  /\ stdout (snd (output_result Sample.world "package"
                    (Some (ranked Sample.example_ranked)) None (-1)
                    Sample.start))
     = [rule; "  Top -1 packages with more files associated:"; rule;
        "util-pkg    2"; rule]
  /\ Z.of_nat (length (head (-1) (ranked Sample.example_ranked)))
     <> Z.min (-1) (Z.of_nat (length (ranked Sample.example_ranked))).
Proof.
  split; [reflexivity|]. split; [reflexivity|]. simpl. lia.
Qed.

(** UTF-8 writes an ASCII character as the byte of its code. *)
Lemma encode_utf8_ascii s :
  ascii_only s = true -> Py.encode_utf8 s = list_byte_of_string s.
Proof.
  unfold ascii_only. induction s as [|c s IH]; [reflexivity|].
  cbn [forallb_string]. intros [Hc Hs]%andb_prop.
  cbn [Py.encode_utf8 list_byte_of_string]. unfold Py.encode_char.
  rewrite Hc, (IH Hs). reflexivity.
Qed.

(** C7, as amended.  With a destination path at which [to_csv] opens a
    file, the program writes there the whole ranked result, whatever the
    preview limit, and no other file: the text of the result encoded as
    UTF-8 (one byte per character for ASCII), and, at a path with the
    ending of an archive format, the archive of that text.  The text has
    one record per entry, in the order of the result (descending count),
    each record the key, a comma, the count and a line feed; the first
    record is the first entry (no header row); a key without comma, double
    quote or line feed is written as it is (another key is written between
    double quotes); and when no key holds a line feed every record is one
    line: the text has as many line feeds as the result has entries. *)
Theorem saved_file_holds_full_result (E : env) (l : sizes) (path : string)
    (n : Z) (st : state) :
  get_handle E path = File ->
  let run := output_result E "package" (Some (ranked l)) (Some path) n st in
  run = (Ok tt,
         logged (saved (logged st INFO
                          ("Saving result to " +:+ quoted path +:+ " ..."))
                       path (result_at E path l))
                INFO "Saving finished.")
  /\ files (snd run) !! path = Some (result_at E path l)
  /\ (forall p, p <> path -> files (snd run) !! p = files st !! p)
  /\ (infer_compression path = None ->
      result_at E path l = Py.encode_utf8 (csv_text l))
  /\ (forall m, infer_compression path = Some m ->
      result_at E path l = compress E path (Py.encode_utf8 (csv_text l)))
  /\ (ascii_only (csv_text l) = true ->
      Py.encode_utf8 (csv_text l) = list_byte_of_string (csv_text l))
  /\ csv_text l
     = String.concat EmptyString
         (map (fun e => Csv.write_field (fst e) +:+ "," +:+ Py.str_nat (snd e)
                        +:+ Py.chr Py.LF) l)
  /\ length (csv_lines l) = length l
  /\ (forall i e, l !! i = Some e ->
        csv_lines l !! i
        = Some (Csv.write_field (fst e) +:+ "," +:+ Py.str_nat (snd e)))
  /\ (forall k, Csv.needs_quotes k = false -> Csv.write_field k = k)
  /\ (forallb (fun e => no_lf (fst e)) l = true ->
      count_char Py.LF (csv_text l) = length l).
Proof.
  intros Hh run.
  assert (run = (Ok tt,
                 logged (saved (logged st INFO
                                  ("Saving result to " +:+ quoted path
                                   +:+ " ..."))
                               path (result_at E path l))
                        INFO "Saving finished.")) as Hrun.
  { unfold run, output_result, bindM, logger_info, logger_log, to_csv_path.
    rewrite Hh. reflexivity. }
  split; [exact Hrun|]. rewrite Hrun. cbn [snd files logged saved].
  split; [apply lookup_insert_eq|].
  split; [intros p Hp; apply lookup_insert_ne; congruence|].
  unfold result_at, result_file. rewrite to_csv_ranked.
  split; [intros ->; reflexivity|].
  split; [intros m ->; reflexivity|].
  split; [apply encode_utf8_ascii|].
  split; [|split; [|split; [|split]]].
  - unfold csv_text, csv_lines. rewrite map_map. f_equal. apply map_ext.
    intros e. rewrite !append_assoc. reflexivity.
  - unfold csv_lines. apply length_map.
  - intros i e He. unfold csv_lines. rewrite list_lookup_fmap, He. reflexivity.
  - intros k Hk. unfold Csv.write_field. rewrite Hk. reflexivity.
  - apply count_lf_csv_text.
Qed.

Lemma saved_file_holds_full_result_witness :
  get_handle Sample.world "out.csv" = File
  /\ fst (output_result Sample.world "package"
            (Some (ranked Sample.example_ranked)) (Some "out.csv") 1
            Sample.start) = Ok tt
  /\ files (snd (output_result Sample.world "package"
                   (Some (ranked Sample.example_ranked)) (Some "out.csv") 1
                   Sample.start)) !! "out.csv"
     = Some [x75; x74; x69; x6c; x2d; x70; x6b; x67; x2c; x32; x0a;
             x6c; x69; x62; x2d; x70; x6b; x67; x2c; x31; x0a]
  /\ count_char Py.LF (csv_text Sample.example_ranked) = 2.
Proof.
  split; [reflexivity|].
  destruct (saved_file_holds_full_result Sample.world Sample.example_ranked
              "out.csv" 1 Sample.start eq_refl)
    as (Hrun & Hfile & _ & Hplain & _ & Hascii & _ & _ & _ & _ & Hlines).
  split; [rewrite Hrun; reflexivity|].
  split; [|exact (Hlines eq_refl)].
  rewrite Hfile, (Hplain eq_refl), (Hascii eq_refl). reflexivity.
Defined.

(** C7 as stated fails in two ways.  At the path [out.csv.gz] the file is
    not the text of the result: [to_csv] takes the ending of the path for
    the wish to compress and writes a gzip archive.  And an entry whose key
    holds a line feed is not written on one line: the key [a], line feed,
    [b] with the count 1 is written between double quotes on two lines. *)
Lemma archive_path_and_line_feed_break_the_lines :
  infer_compression "out.csv.gz" = Some Gzip
  /\ files (snd (output_result Sample.world "package"
                   (Some (ranked Sample.example_ranked)) (Some "out.csv.gz")
                   10 Sample.start)) !! "out.csv.gz"
     = Some (Sample.gzip_stored
               (Py.encode_utf8 (csv_text Sample.example_ranked)))
  /\ Sample.gzip_stored (Py.encode_utf8 (csv_text Sample.example_ranked))
     <> Py.encode_utf8 (csv_text Sample.example_ranked)
  /\ to_csv "package" true false
       (ranked [("a" +:+ Py.chr Py.LF +:+ "b", 1)])
     = quoted ("a" +:+ Py.chr Py.LF +:+ "b") +:+ ",1" +:+ Py.chr Py.LF
  /\ count_char Py.LF
       (to_csv "package" true false
          (ranked [("a" +:+ Py.chr Py.LF +:+ "b", 1)]))
     = 2.
Proof.
  split; [reflexivity|]. split; [reflexivity|].
  split; [intros H; apply (f_equal (@length byte)) in H; vm_compute in H;
          discriminate|].
  split; reflexivity.
Qed.

End Emission.

Section Download.
Import Pd Props Debindex Further.

(** C8, as amended.  With the download option, for every architecture, the
    file of the download is [Contents-<architecture>.<timestamp>.gz] (time
    stamp YYYYMMDD-HHMMSS, for a year of four digits).  When that file can
    be opened for writing, the fetched bytes are written to it as they are,
    no other file is touched, and what is parsed afterwards is the content
    of that file; when it cannot, [download_index] raises the error of
    [open], nothing is written and nothing is parsed. *)
Theorem download_is_saved_then_read (E : env) (a : args) (st : state)
    (bs : list byte) :
  download a = true ->
  http_get E (index_file_url a) = Ok bs ->
  (1000 <= Z.of_nat (Py.year (now E)) <= 9999)%Z ->
  let ts := Py.strftime (now E) in
  let name := "Contents-" +:+ architecture a +:+ "." +:+ ts +:+ ".gz" in
  download_file_name a ts = name
  /\ timestamp_shape ts = true
  /\ (open_wb E name = None ->
      exists st1,
        download_index E (index_file_url a) name st = (Ok tt, st1)
        /\ files st1 !! name = Some bs
        /\ (forall p, p <> name -> files st1 !! p = files st !! p)
        /\ main_try E a st
           = bindM (read_index_local E name ["filename"; "package"])
                   (after_reading E a) st1
        /\ fst (read_index_local E name ["filename"; "package"] st1)
           = table_of E bs ["filename"; "package"])
  /\ (forall e,
        open_wb E name = Some e ->
        download_index E (index_file_url a) name st
        = (Raise e, requested a st)
        /\ main_try E a st = (Raise e, requested a st)).
Proof.
  intros Hd Hget Hy ts name.
  assert (download_file_name a ts = name) as Hname
    by apply download_file_name_eq.
  split; [exact Hname|]. split; [apply strftime_shape; exact Hy|].
  split.
  - intros Hopen. eexists.
    split; [rewrite (download_index_run _ _ _ _ _ Hget), Hopen; reflexivity|].
    cbn [files logged saved].
    split; [apply lookup_insert_eq|].
    split; [intros p Hp; apply lookup_insert_ne; congruence|]. split.
    + unfold main_try. rewrite Hd. fold ts. rewrite Hname.
      unfold bindM at 1 2. rewrite (download_index_run _ _ _ _ _ Hget), Hopen.
      cbv zeta. unfold after_reading, bindM.
      destruct (read_index_local E name _ _) as [[df|e] st2]; reflexivity.
    + erewrite read_index_local_run by apply lookup_insert_eq. simpl.
      destruct (table_of E bs _); reflexivity.
  - intros e Hopen. unfold requested. rewrite Hd.
    split; [rewrite (download_index_run _ _ _ _ _ Hget), Hopen; reflexivity|].
    unfold main_try. rewrite Hd. fold ts. rewrite Hname.
    unfold bindM at 1 2. rewrite (download_index_run _ _ _ _ _ Hget), Hopen.
    reflexivity.
Qed.

Lemma download_is_saved_then_read_witness :
  download (Sample.run "amd64" true None 10) = true
  /\ http_get Sample.world (index_file_url (Sample.run "amd64" true None 10))
     = Ok Sample.example_gz
  /\ (1000 <= Z.of_nat (Py.year (now Sample.world)) <= 9999)%Z
  /\ download_file_name (Sample.run "amd64" true None 10)
       (Py.strftime (now Sample.world))
     = "Contents-amd64.20240102-030405.gz"
  /\ timestamp_shape (Py.strftime (now Sample.world)) = true
  /\ exists st1,
       download_index Sample.world
         (index_file_url (Sample.run "amd64" true None 10))
         "Contents-amd64.20240102-030405.gz" Sample.start
       = (Ok tt, st1)
       /\ files st1 !! "Contents-amd64.20240102-030405.gz"
          = Some Sample.example_gz
       /\ fst (read_index_local Sample.world
                 "Contents-amd64.20240102-030405.gz" ["filename"; "package"]
                 st1)
          = Ok Sample.example_frame.
Proof.
  split; [reflexivity|]. split; [reflexivity|].
  assert (1000 <= Z.of_nat (Py.year (now Sample.world)) <= 9999)%Z as Hy
    by (simpl; lia).
  split; [exact Hy|].
  destruct (download_is_saved_then_read Sample.world
              (Sample.run "amd64" true None 10) Sample.start Sample.example_gz
              eq_refl eq_refl Hy) as (Hname & Hshape & Hsaved & _).
  split; [exact Hname|]. split; [exact Hshape|].
  destruct (Hsaved eq_refl) as (st1 & Hrun & Hfile & _ & _ & Hread).
  exists st1. split; [exact Hrun|]. split; [exact Hfile|].
  etransitivity; [exact Hread|reflexivity].
Defined.

(** C8 as stated fails: for the architecture amd64 the file written is
    [Contents-amd64.20240102-030405.gz]; there is no file
    [Contents-20240102-030405-amd64.gz].  And not every architecture has
    its bytes written: for [a/b], in a working directory without a
    directory [Contents-a], [open] raises [FileNotFoundError], with which
    the run ends, and no file is written. *)
Lemma timestamp_follows_architecture :
  download_file_name (Sample.run "amd64" true None 10)
    (Py.strftime (now Sample.world))
  = "Contents-amd64.20240102-030405.gz"
  /\ files (snd (main Sample.world (Sample.run "amd64" true None 10)
                   Sample.start))
     !! "Contents-amd64.20240102-030405.gz" = Some Sample.example_gz
  /\ files (snd (main Sample.world (Sample.run "amd64" true None 10)
                   Sample.start))
     !! "Contents-20240102-030405-amd64.gz" = None
  /\ download_file_name (Sample.run "a/b" true None 10)
       (Py.strftime (now Sample.world))
     = "Contents-a/b.20240102-030405.gz"
  /\ http_get Sample.world (index_file_url (Sample.run "a/b" true None 10))
     = Ok Sample.not_found_page
  /\ fst (main Sample.world (Sample.run "a/b" true None 10) Sample.start)
     = Raise FileNotFoundError
  /\ files (snd (main Sample.world (Sample.run "a/b" true None 10)
                   Sample.start))
     = ∅.
Proof. repeat split; vm_compute; reflexivity. Qed.

End Download.

Section ErrorHandling.
Import Pd Props Debindex Further.

(** C9.  When the body of [main] raises one of the three errors [main]
    names (an invalid URL, a bad gzip file, an interrupt), [main] logs the
    record of that error, prints its closing line and returns: nothing is
    raised to the caller. *)
Theorem recognized_errors_are_handled (E : env) (a : args) (st st1 : state)
    (e : exn) :
  main_try E a (entered a st) = (Raise e, st1) ->
  e = InvalidURL \/ e = BadGzipFile \/ e = KeyboardInterrupt ->
  exists r,
    handled a e = Some r
    /\ main E a st = (Ok tt, printed (logged st1 (fst r) (snd r)) "Finished.")
    /\ last (stdout (snd (main E a st))) = Some "Finished."
    /\ last (log (snd (main E a st))) = Some r.
Proof.
  intros Hraise He.
  assert (exists r, handled a e = Some r
                    /\ main_except a e = Some (logger_log (fst r) (snd r)))
    as [r [Hr Hex]].
  { destruct He as [->|[->| ->]]; eexists; split; reflexivity. }
  exists r. split; [exact Hr|]. destruct r as [lvl msg].
  assert (main E a st
          = (Ok tt, printed (logged st1 (fst (lvl, msg)) (snd (lvl, msg)))
                            "Finished."))
    as Hmain.
  { rewrite main_run. unfold try_except. rewrite Hraise, Hex. reflexivity. }
  rewrite Hmain. simpl. split; [reflexivity|].
  split; apply last_snoc.
Qed.

Lemma recognized_errors_are_handled_witness :
  main_try Sample.world (Sample.run "i386" false None 10)
    (entered (Sample.run "i386" false None 10) Sample.start)
  = (Raise BadGzipFile,
     logged (entered (Sample.run "i386" false None 10) Sample.start) INFO
       ("Reading index file from "
        +:+ quoted (Sample.mirror +:+ "/Contents-i386.gz") +:+ " ..."))
  /\ (BadGzipFile = InvalidURL \/ BadGzipFile = BadGzipFile
      \/ BadGzipFile = KeyboardInterrupt)
  /\ fst (main Sample.world (Sample.run "i386" false None 10) Sample.start)
     = Ok tt
  /\ last (stdout (snd (main Sample.world (Sample.run "i386" false None 10)
                          Sample.start))) = Some "Finished.".
Proof.
  assert (main_try Sample.world (Sample.run "i386" false None 10)
            (entered (Sample.run "i386" false None 10) Sample.start)
          = (Raise BadGzipFile,
             logged (entered (Sample.run "i386" false None 10) Sample.start)
               INFO
               ("Reading index file from "
                +:+ quoted (Sample.mirror +:+ "/Contents-i386.gz") +:+ " ...")))
    as H by reflexivity.
  split; [exact H|]. split; [right; left; reflexivity|].
  destruct (recognized_errors_are_handled Sample.world _ Sample.start _ _ H
              (or_intror (or_introl eq_refl))) as [r [_ [Hm [Hl _]]]].
  split; [rewrite Hm; reflexivity|exact Hl].
Defined.

End ErrorHandling.

Section RemoteAndLocal.
Import Pd Props Debindex Further.

(** C10.  The remote reader, on the body of the response, and the local
    reader, on a file that holds the same bytes, return the same: the same
    table, or the same error. *)
Theorem remote_and_local_tables_agree (E : env) (url path : string)
    (cols : list string) (st st' : state) (bs : list byte) :
  http_get E url = Ok bs ->
  files st' !! path = Some bs ->
  fst (read_index_remote E url cols st) = table_of E bs cols
  /\ fst (read_index_local E path cols st') = table_of E bs cols
  /\ fst (read_index_remote E url cols st)
     = fst (read_index_local E path cols st').
Proof.
  intros Hget Hfile.
  rewrite (read_index_remote_run _ _ _ _ _ Hget).
  rewrite (read_index_local_run _ _ _ _ _ Hfile). simpl.
  destruct (table_of E bs cols); repeat split; reflexivity.
Qed.

Lemma remote_and_local_tables_agree_witness :
  http_get Sample.world (Sample.mirror +:+ "/Contents-amd64.gz")
  = Ok Sample.example_gz
  /\ files Sample.downloaded !! "Contents-amd64.20240102-030405.gz"
     = Some Sample.example_gz
  /\ fst (read_index_remote Sample.world
            (Sample.mirror +:+ "/Contents-amd64.gz")
            ["filename"; "package"] Sample.start)
     = fst (read_index_local Sample.world "Contents-amd64.20240102-030405.gz"
              ["filename"; "package"] Sample.downloaded).
Proof.
  split; [reflexivity|]. split; [reflexivity|].
  apply (remote_and_local_tables_agree Sample.world _ _ _ _ _
           Sample.example_gz); reflexivity.
Defined.

End RemoteAndLocal.

(* ===================================================================== *)
(** * Further properties of the program                                  *)
(* ===================================================================== *)

Section Failures.
Import Pd Props Debindex Further.

Lemma short_header_EOFError inflate bs :
  short_header bs = true -> Gzip.read inflate bs = Raise EOFError.
Proof.
  destruct bs as [|b0 [|b1 rest]]; simpl; try discriminate.
  intros [Hm Hl]%andb_prop. rewrite Hm. apply Nat.ltb_lt in Hl.
  destruct rest as [|m [|f [|t0 [|t1 [|t2 [|t3 [|xf [|os body]]]]]]]];
    try reflexivity.
  simpl in Hl. lia.
Qed.

(** X2.  [main] raises an error exactly when its body has raised it and it
    is none of the three errors [main] names (an invalid URL, a bad gzip
    file, an interrupt); the state is then the one the body left: no record
    is logged for the error and the closing line is not printed. *)
Theorem main_raises_unhandled_errors (E : env) (a : args) (st st1 : state)
    (e : exn) :
  main E a st = (Raise e, st1)
  <-> main_try E a (entered a st) = (Raise e, st1)
      /\ e <> InvalidURL /\ e <> BadGzipFile /\ e <> KeyboardInterrupt.
Proof.
  rewrite main_run. unfold try_except.
  destruct (main_try E a (entered a st)) as [[[]|e'] st'].
  - split; [discriminate|]. intros [H _]. discriminate.
  - rewrite main_except_handled.
    destruct e'; simpl;
      (split;
       [ try discriminate; intros [= <- <-]; repeat split; discriminate
       | intros [[= <- <-] (H1 & H2 & H3)]; try reflexivity;
         contradiction ]).
Qed.

(** X3.  A run of [main] that ends with an exception has handled no error,
    has printed its title and nothing else, and has written no result file:
    the files are those of the start, with the downloaded file when the
    download option is set, the request was answered and the file could be
    opened for writing. *)
Theorem failed_run_has_no_output (E : env) (a : args) (st st1 : state)
    (e : exn) :
  main E a st = (Raise e, st1) ->
  handled a e = None
  /\ stdout st1 = stdout st ++ [title]
  /\ files st1
     = match http_get E (index_file_url a), download_error E a with
       | Ok bs, None =>
           if download a
           then <[download_file_name a (Py.strftime (now E)) := bs]> (files st)
           else files st
       | _, _ => files st
       end.
Proof.
  rewrite main_cases.
  destruct (http_get E (index_file_url a)) as [bs|e1].
  - destruct (download_error E a) as [e1|].
    + intros (-> & -> & Hh)%finish_raises. auto.
    + destruct (table_of E bs _) as [df|e1].
      * intros [Hem Hh]%ending_raises.
        apply emission_raises in Hem as (Hout & Hfiles & _ & _).
        split; [exact Hh|]. rewrite Hout, Hfiles.
        cbn [stdout files counted logged].
        rewrite stdout_fetched, files_fetched. split; reflexivity.
      * intros (-> & -> & Hh)%finish_raises. split; [exact Hh|].
        rewrite stdout_fetched, files_fetched. split; reflexivity.
  - intros (-> & -> & Hh)%finish_raises. auto.
Qed.

Lemma failed_run_has_no_output_witness :
  (exists st1,
     main Sample.world (Sample.run "short" true None 10) Sample.start
     = (Raise EOFError, st1)
     /\ stdout st1 = [title]
     /\ files st1
        = {[ "Contents-short.20240102-030405.gz" := Sample.truncated_gz ]})
  /\ (exists st1,
        main Sample.world (Sample.run "a/b" true None 10) Sample.start
        = (Raise FileNotFoundError, st1)
        /\ stdout st1 = [title]
        /\ files st1 = ∅).
Proof.
  split; (eexists; split; [reflexivity|]).
  - destruct (failed_run_has_no_output Sample.world
                (Sample.run "short" true None 10) Sample.start _ EOFError
                eq_refl) as (_ & Hout & Hfiles).
    split; [exact Hout|exact Hfiles].
  - destruct (failed_run_has_no_output Sample.world
                (Sample.run "a/b" true None 10) Sample.start _
                FileNotFoundError eq_refl) as (_ & Hout & Hfiles).
    split; [exact Hout|exact Hfiles].
Defined.

(** X4.  When the request for the index fails, with or without the download
    option, [main] ends as it does for that error in the state of the
    request: no file is written, and only the title is printed, followed by
    the closing line when the error is one that [main] handles. *)
Theorem failed_request_writes_no_file (E : env) (a : args) (st : state)
    (e : exn) :
  http_get E (index_file_url a) = Raise e ->
  main E a st = finish a e (requested a (entered a st))
  /\ files (snd (main E a st)) = files st
  /\ stdout (snd (main E a st))
     = stdout st ++ title :: match handled a e with
                             | Some _ => ["Finished."]
                             | None => []
                             end.
Proof.
  intros Hget. rewrite main_cases, Hget. split; [reflexivity|].
  unfold finish. destruct (handled a e) as [r|]; simpl.
  - rewrite <- app_assoc. split; reflexivity.
  - split; reflexivity.
Qed.

Lemma failed_request_writes_no_file_witness :
  http_get Sample.world (index_file_url (Sample.run "slow" true None 10))
  = Raise KeyboardInterrupt
  /\ fst (main Sample.world (Sample.run "slow" true None 10) Sample.start)
     = Ok tt
  /\ files (snd (main Sample.world (Sample.run "slow" true None 10)
                   Sample.start)) = ∅
  /\ stdout (snd (main Sample.world (Sample.run "slow" true None 10)
                    Sample.start)) = [title; "Finished."].
Proof.
  split; [reflexivity|].
  destruct (failed_request_writes_no_file Sample.world
              (Sample.run "slow" true None 10) Sample.start KeyboardInterrupt
              eq_refl) as (Hm & Hf & Ho).
  split; [rewrite Hm; reflexivity|]. split; [exact Hf|exact Ho].
Defined.

(** X5.  A stream that starts with the gzip magic number 1f 8b and ends
    before the tenth byte of the fixed header makes [_read_csv] raise
    [EOFError]; [main] does not handle it: when the download, if asked for,
    can be saved, the run ends with [EOFError] after the title, without the
    closing line. *)
Theorem short_header_raises_EOFError (E : env) (a : args) (st : state)
    (bs : list byte) :
  short_header bs = true ->
  http_get E (index_file_url a) = Ok bs ->
  download_error E a = None ->
  (forall cols st', _read_csv E (BytesIO bs) cols st' = (Raise EOFError, st'))
  /\ main E a st = (Raise EOFError, fetched E a (entered a st) bs)
  /\ stdout (snd (main E a st)) = stdout st ++ [title].
Proof.
  intros Hs Hget Hsave.
  assert (forall cols, table_of E bs cols = Raise EOFError) as Ht.
  { intros cols. unfold table_of.
    rewrite (short_header_EOFError _ _ Hs). reflexivity. }
  split; [|split].
  - intros cols st'. rewrite read_csv_bytes, Ht. reflexivity.
  - rewrite main_cases, Hget, Hsave, Ht. reflexivity.
  - rewrite main_cases, Hget, Hsave, Ht. simpl. apply stdout_fetched.
Qed.

Lemma short_header_raises_EOFError_witness :
  short_header [x1f; x8b; x08; x00; x00] = true
  /\ download_error (Sample.serving (Ok [x1f; x8b; x08; x00; x00]))
       (Sample.run "amd64" true None 10) = None
  /\ fst (main (Sample.serving (Ok [x1f; x8b; x08; x00; x00]))
            (Sample.run "amd64" true None 10) Sample.start)
     = Raise EOFError
  /\ stdout (snd (main (Sample.serving (Ok [x1f; x8b; x08; x00; x00]))
                    (Sample.run "amd64" true None 10) Sample.start))
     = [title].
Proof.
  split; [reflexivity|]. split; [reflexivity|].
  destruct (short_header_raises_EOFError
              (Sample.serving (Ok [x1f; x8b; x08; x00; x00]))
              (Sample.run "amd64" true None 10) Sample.start
              [x1f; x8b; x08; x00; x00] eq_refl eq_refl eq_refl)
    as (_ & Hm & Ho).
  split; [rewrite Hm; reflexivity|exact Ho].
Defined.

End Failures.

Section WholeRun.
Import Pd Props Debindex Further.

(** X6.  When the request is answered, the bytes are parsed into a table
    and the files asked for can be opened (the file of the download, with
    the download option; the output path, when one is given), [main]
    returns normally.  It prints its title, then (without an output path)
    the preview of a ranked result of the table, then its closing line;
    the ranked result holds the sizes of the groups of the table in
    descending order of count.  It writes the downloaded file when the
    download option is set and then, with an output path at which [to_csv]
    opens a file, the result file at that path: the text of the result, or
    its archive when the path has the ending of an archive format. *)
Theorem parsed_index_is_counted_and_emitted (E : env) (a : args) (st : state)
    (bs : list byte) (df : frame) :
  http_get E (index_file_url a) = Ok bs ->
  table_of E bs ["filename"; "package"] = Ok df ->
  download_error E a = None ->
  output_error E a = None ->
  exists l st1,
    Permutation l (group_sizes (packages df)) /\ descending l
    /\ main E a st = (Ok tt, st1)
    /\ stdout st1
       = stdout st ++ [title]
         ++ match output a with
            | None => preview l (number_of_elements a)
            | Some _ => []
            end
         ++ ["Finished."]
    /\ files st1 = files_after E a bs l (files st)
    /\ log_level st1 = log_level_arg a.
Proof.
  intros Hget Ht Hsave Hout. exists (ranking df).
  rewrite main_cases, Hget, Hsave, Ht.
  set (s0 := counted (logged (fetched E a (entered a st) bs)
                             INFO "Reading finished.")).
  pose proof (fst_emission E a (ranking df) s0) as Hfst.
  pose proof (stdout_emission E a (ranking df) s0) as Hso.
  pose proof (files_emission E a (ranking df) s0) as Hfi.
  pose proof (log_level_emission E a (ranking df) s0) as Hll.
  rewrite Hout in Hfst.
  destruct (emission E a (ranking df) s0) as [r s1]. cbn [fst snd] in *.
  subst r. cbn [ending]. eexists.
  split; [apply sort_values_desc_perm|].
  split; [apply sorted_descending, sort_values_desc_sorted|].
  split; [reflexivity|]. cbn [stdout files log_level printed].
  rewrite Hso, Hfi, Hll. subst s0. cbn [stdout files log_level counted logged].
  rewrite stdout_fetched, files_fetched, log_level_fetched.
  cbn [stdout log_level entered printed with_level].
  rewrite <- !app_assoc. repeat split.
Qed.

Lemma parsed_index_is_counted_and_emitted_witness :
  http_get Sample.world
    (index_file_url (Sample.run "amd64" true (Some "out.csv") 10))
  = Ok Sample.example_gz
  /\ table_of Sample.world Sample.example_gz ["filename"; "package"]
     = Ok Sample.example_frame
  /\ download_error Sample.world (Sample.run "amd64" true (Some "out.csv") 10)
     = None
  /\ output_error Sample.world (Sample.run "amd64" true (Some "out.csv") 10)
     = None
  /\ exists l st1,
       main Sample.world (Sample.run "amd64" true (Some "out.csv") 10)
         Sample.start
       = (Ok tt, st1)
       /\ stdout st1 = [title; "Finished."]
       /\ files st1
          = <["out.csv" := result_file l]>
              (<["Contents-amd64.20240102-030405.gz" := Sample.example_gz]> ∅).
Proof.
  split; [reflexivity|]. split; [reflexivity|].
  split; [reflexivity|]. split; [reflexivity|].
  destruct (parsed_index_is_counted_and_emitted Sample.world
              (Sample.run "amd64" true (Some "out.csv") 10) Sample.start
              Sample.example_gz Sample.example_frame eq_refl eq_refl
              eq_refl eq_refl)
    as (l & st1 & _ & _ & Hm & Hout & Hfiles & _).
  exists l, st1. split; [exact Hm|]. split; [exact Hout|exact Hfiles].
Defined.

End WholeRun.

Section Options.
Import Pd Props Debindex Further.

(** X7.  When the file of the download can be opened for writing, the
    download option does not change what [main] returns or raises nor what
    it prints; the files after the two runs differ at most in the
    downloaded file. *)
Theorem download_option_keeps_the_output (E : env) (a : args) (st : state) :
  open_wb E (download_file_name a (Py.strftime (now E))) = None ->
  let with_file := main E (with_download a true) st in
  let without := main E (with_download a false) st in
  fst with_file = fst without
  /\ stdout (snd with_file) = stdout (snd without)
  /\ (forall p, p <> download_file_name a (Py.strftime (now E)) ->
        files (snd with_file) !! p = files (snd without) !! p).
Proof.
  intros Hopen. cbv zeta. rewrite !main_cases.
  change (index_file_url (with_download a true)) with (index_file_url a).
  change (index_file_url (with_download a false)) with (index_file_url a).
  change (download_error E (with_download a false)) with (@None exn).
  change (download_error E (with_download a true))
    with (open_wb E (download_file_name a (Py.strftime (now E)))).
  rewrite Hopen.
  destruct (http_get E (index_file_url a)) as [bs|e].
  - destruct (table_of E bs _) as [df|e] eqn:Ht.
    + rewrite !fst_ending, !stdout_ending, !files_ending, !fst_ending.
      rewrite !fst_emission, !stdout_emission, !files_emission.
      change (output_error E (with_download a true))
        with (output_error E a).
      change (output_error E (with_download a false))
        with (output_error E a).
      change (handled (with_download a true)) with (handled a).
      change (handled (with_download a false)) with (handled a).
      cbn [output number_of_elements with_download stdout files counted
           logged].
      rewrite !stdout_fetched, !files_fetched.
      split; [reflexivity|]. split; [reflexivity|].
      intros p Hp. cbn [download with_download].
      change (download_file_name (with_download a true))
        with (download_file_name a).
      destruct (output a) as [path|].
      * destruct (get_handle E path);
          try (rewrite lookup_insert_ne by congruence; reflexivity).
        destruct (decide (path = p)) as [->|Hne].
        -- rewrite !lookup_insert_eq. reflexivity.
        -- rewrite !lookup_insert_ne by congruence. reflexivity.
      * rewrite lookup_insert_ne by congruence. reflexivity.
    + rewrite !fst_finish, !stdout_finish, !files_finish.
      change (handled (with_download a true) e) with (handled a e).
      change (handled (with_download a false) e) with (handled a e).
      rewrite !stdout_fetched, !files_fetched.
      split; [reflexivity|]. split; [reflexivity|].
      intros p Hp. cbn [download with_download].
      change (download_file_name (with_download a true))
        with (download_file_name a).
      rewrite lookup_insert_ne by congruence. reflexivity.
  - unfold finish.
    change (handled (with_download a true) e) with (handled a e).
    change (handled (with_download a false) e) with (handled a e).
    destruct (handled a e) as [r|]; repeat split; reflexivity.
Qed.

Lemma download_option_keeps_the_output_witness :
  open_wb Sample.world
    (download_file_name (Sample.run "amd64" false None 10)
       (Py.strftime (now Sample.world))) = None
  /\ fst (main Sample.world (Sample.run "amd64" true None 10) Sample.start)
     = fst (main Sample.world (Sample.run "amd64" false None 10) Sample.start)
  /\ stdout (snd (main Sample.world (Sample.run "amd64" true None 10)
                    Sample.start))
     = stdout (snd (main Sample.world (Sample.run "amd64" false None 10)
                      Sample.start)).
Proof.
  split; [reflexivity|].
  destruct (download_option_keeps_the_output Sample.world
              (Sample.run "amd64" false None 10) Sample.start eq_refl)
    as (Hfst & Hout & _).
  split; [exact Hfst|exact Hout].
Defined.

(** X8.  [main] leaves every file as it is but the downloaded file and the
    file at the output path; without the download option, every file but
    the latter; without both options, every file. *)
Theorem main_writes_only_its_files (E : env) (a : args) (st : state) :
  (forall p,
     p <> download_file_name a (Py.strftime (now E)) -> output a <> Some p ->
     files (snd (main E a st)) !! p = files st !! p)
  /\ (download a = false ->
      forall p, output a <> Some p ->
                files (snd (main E a st)) !! p = files st !! p)
  /\ (download a = false -> output a = None ->
      files (snd (main E a st)) = files st).
Proof.
  assert (forall p,
            (download a = true ->
             p <> download_file_name a (Py.strftime (now E))) ->
            output a <> Some p ->
            files (snd (main E a st)) !! p = files st !! p) as H.
  { intros p Hp Ho. rewrite main_cases.
    assert (forall bs, files (fetched E a (entered a st) bs) !! p
                       = files st !! p) as Hf.
    { intros bs. rewrite files_fetched. destruct (download a); [|reflexivity].
      rewrite lookup_insert_ne; [reflexivity|].
      intros Heq. apply Hp; [reflexivity|]. symmetry. exact Heq. }
    destruct (http_get E (index_file_url a)) as [bs|e];
      [|rewrite files_finish; reflexivity].
    destruct (download_error E a) as [e|];
      [rewrite files_finish; reflexivity|].
    destruct (table_of E bs _) as [df|e]; [|rewrite files_finish; apply Hf].
    rewrite files_ending, files_emission. cbn [files counted logged].
    destruct (output a) as [path|]; [|apply Hf].
    destruct (get_handle E path); try apply Hf.
    rewrite lookup_insert_ne by congruence. apply Hf. }
  split; [|split].
  - intros p Hp Ho. apply H; auto.
  - intros Hd p Ho. apply H; [congruence|exact Ho].
  - intros Hd Ho. apply map_eq. intros p. apply H; congruence.
Qed.

(** X9.  The log level option sets the threshold of the logger and nothing
    else: with another level [main] returns or raises the same, prints the
    same, writes the same files and gives the same records to the logger.
    At the end of a run the threshold is the level asked for. *)
Theorem log_level_changes_the_threshold_only (E : env) (a : args) (st : state)
    (l : level) :
  main E (with_log_level a l) st
  = (fst (main E a st), with_level (snd (main E a st)) l)
  /\ log_level (snd (main E a st)) = log_level_arg a.
Proof.
  rewrite !main_cases.
  change (index_file_url (with_log_level a l)) with (index_file_url a).
  change (download_error E (with_log_level a l)) with (download_error E a).
  destruct (http_get E (index_file_url a)) as [bs|e].
  - destruct (download_error E a) as [e|].
    + unfold finish.
      change (handled (with_log_level a l) e) with (handled a e).
      destruct (handled a e) as [r|]; split; reflexivity.
    + destruct (table_of E bs _) as [df|e] eqn:Ht.
      * unfold ending, emission, finish, fetched, requested, preview, counted.
        cbn [download with_log_level output number_of_elements].
        destruct (download a), (output a) as [path|];
          try destruct (get_handle E path) as [| |e];
          try (change (handled (with_log_level a l) e) with (handled a e);
               destruct (handled a e) as [r|]);
          split; reflexivity.
      * unfold finish.
        change (handled (with_log_level a l) e) with (handled a e).
        unfold fetched, requested. cbn [download with_log_level].
        destruct (handled a e) as [r|], (download a); split; reflexivity.
  - unfold finish.
    change (handled (with_log_level a l) e) with (handled a e).
    destruct (handled a e) as [r|]; split; reflexivity.
Qed.

End Options.

Section Logging.
Import Pd Props Debindex Further.

Lemma progress_refl st st' : log st' = log st -> progress st st'.
Proof. intros H. exists []. rewrite app_nil_r. auto. Qed.

Lemma progress_trans st1 st2 st3 :
  progress st1 st2 -> progress st2 st3 -> progress st1 st3.
Proof.
  intros (l1 & H1 & F1) (l2 & H2 & F2). exists (l1 ++ l2).
  rewrite H2, H1, app_assoc. split; [reflexivity|].
  apply Forall_app. auto.
Qed.

Lemma progress_logged st st' msg :
  progress st st' -> progress st (logged st' INFO msg).
Proof.
  intros H. apply (progress_trans _ _ _ H). exists [(INFO, msg)].
  split; [reflexivity|]. repeat constructor.
Qed.

Lemma progress_fetched E a st bs : progress st (fetched E a st bs).
Proof.
  unfold fetched, requested. destruct (download a);
    repeat apply progress_logged; apply progress_refl; reflexivity.
Qed.

Lemma progress_emission E a l st : progress st (snd (emission E a l st)).
Proof.
  unfold emission. destruct (output a) as [path|].
  - destruct (get_handle E path); cbn [snd];
      repeat apply progress_logged; apply progress_refl; reflexivity.
  - unfold preview. cbn [fold_left snd]. apply progress_refl. reflexivity.
Qed.

(** X10.  [main] adds to the log progress records of level info and then,
    when its body raised an error that it handles, the one record of that
    error; it adds nothing else: no record of level warning or critical,
    and no error record on a run whose body does not fail. *)
Theorem log_holds_progress_then_the_report (E : env) (a : args) (st : state) :
  exists infos report,
    log (snd (main E a st)) = log st ++ infos ++ report
    /\ Forall (fun r => fst r = INFO) infos
    /\ report
       = match fst (main_try E a (entered a st)) with
         | Ok _ => []
         | Raise e => match handled a e with Some r => [r] | None => [] end
         end.
Proof.
  assert (forall r, progress st (snd r) ->
            exists infos report,
              log (snd (ending a r)) = log st ++ infos ++ report
              /\ Forall (fun r => fst r = INFO) infos
              /\ report
                 = match fst r with
                   | Ok _ => []
                   | Raise e => match handled a e with
                                | Some r => [r] | None => [] end
                   end) as Hend.
  { intros [[[]|e] s] (infos & Hl & Hi); cbn [snd fst ending] in *.
    - exists infos, []. cbn [log printed]. rewrite Hl, app_nil_r. auto.
    - exists infos. unfold finish.
      destruct (handled a e) as [[lvl msg]|]; eexists; (split; [|split;
        [exact Hi|reflexivity]]); cbn [snd log printed logged fst].
      + rewrite Hl, app_assoc. reflexivity.
      + rewrite Hl, app_nil_r. reflexivity. }
  assert (progress st (entered a st)) as He
    by (apply progress_refl; reflexivity).
  rewrite main_ending. apply Hend. rewrite main_try_run.
  destruct (http_get E (index_file_url a)) as [bs|e].
  - destruct (download_error E a) as [e|].
    + cbn [snd]. eapply progress_trans; [exact He|].
      unfold requested. apply progress_logged, progress_refl. reflexivity.
    + destruct (table_of E bs _) as [df|e].
      * eapply progress_trans; [|apply progress_emission].
        unfold counted. repeat apply progress_logged.
        eapply progress_trans; [exact He|apply progress_fetched].
      * cbn [snd]. eapply progress_trans; [exact He|apply progress_fetched].
  - cbn [snd]. eapply progress_trans; [exact He|].
    unfold requested. apply progress_logged, progress_refl. reflexivity.
Qed.

End Logging.

Section Tables.
Import Pd Props Debindex Further.

Lemma read_csv_run E data cols st :
  _read_csv E data cols st
  = (match content st data with
     | Some bs => table_of E bs cols
     | None => Raise FileNotFoundError
     end, st).
Proof.
  destruct data as [p|bs]; [|reflexivity].
  unfold _read_csv, bindM, source_bytes, read_file, content.
  destruct (files st !! p); reflexivity.
Qed.

Lemma split1_no_space s : no_space s = true -> Re.split1 s = (s, None).
Proof.
  unfold no_space. induction s as [|c s IH]; [reflexivity|]. simpl.
  intros [Hc Hs]%andb_prop. apply negb_true_iff in Hc. rewrite Hc, (IH Hs).
  reflexivity.
Qed.

Lemma split1_has_space s :
  no_space s = false -> exists a b, Re.split1 s = (a, Some b).
Proof.
  intros H. destruct (Re.split1 s) as [a [b|]] eqn:Hs; [eauto|].
  apply split1_one_piece in Hs as [_ Hs]. congruence.
Qed.

Lemma split_value_width v :
  length (split_value v) = if has_space v then 2 else 1.
Proof.
  destruct v as [s|]; [|reflexivity]. simpl.
  destruct (no_space s) eqn:Hs; simpl.
  - rewrite (split1_no_space s Hs). reflexivity.
  - destruct (split1_has_space s Hs) as (a & b & ->). reflexivity.
Qed.

Lemma pad_row_of v : pad_row 2 (split_value v) = row_of v.
Proof.
  destruct v as [s|]; [|reflexivity]. simpl.
  destruct (Re.split1 s) as [a [b|]]; reflexivity.
Qed.

Lemma expand_width vs :
  foldr Nat.max 0 (map (@length _) (map split_value vs))
  = match vs with
    | [] => 0
    | _ => if existsb has_space vs then 2 else 1
    end.
Proof.
  induction vs as [|v vs IH]; [reflexivity|].
  cbn [map foldr existsb]. rewrite IH, split_value_width.
  destruct (has_space v), vs as [|w vs]; simpl; try reflexivity;
    destruct (has_space w || existsb has_space vs); reflexivity.
Qed.

Lemma width_bound vs v :
  v ∈ vs ->
  length (split_value v)
  <= foldr Nat.max 0 (map (@length _) (map split_value vs)).
Proof.
  induction vs as [|w vs IH]; intros Hin; [inversion Hin|].
  cbn [map foldr]. apply elem_of_cons in Hin as [->|Hin]; [lia|].
  specialize (IH Hin). lia.
Qed.

(** The table of two names, from the column that was read. *)
Lemma table_of_two_names E bs c1 c2 :
  table_of E bs [c1; c2]
  = let* text := Gzip.read (inflate E) bs in
    let* column := read_csv text in
    let* vs := str column in
    if existsb has_space vs
    then Ok {| columns := [c1; c2]; rows := map row_of vs |}
    else Raise ValueError.
Proof.
  unfold table_of.
  destruct (Gzip.read _ _) as [text|e]; [|reflexivity]. simpl.
  destruct (read_csv text) as [c|e]; [|reflexivity]. simpl.
  destruct (str c) as [vs|e]; [|reflexivity]. simpl.
  unfold set_columns, str_split_expand. cbn [columns rows].
  rewrite length_map, length_seq, expand_width.
  destruct vs as [|v vs]; [reflexivity|].
  destruct (existsb has_space (v :: vs)); [|reflexivity]. cbn [length Nat.eqb].
  f_equal. f_equal. rewrite map_map. apply map_ext. intros x. apply pad_row_of.
Qed.

Lemma row_of_shape v : record_shape (row_of v).
Proof.
  destruct v as [s|]; [|left; reflexivity]. simpl.
  destruct (Re.split1 s) as [a [b|]] eqn:Hs.
  - right. right. exists a, b.
    destruct (split1_two_pieces s a b Hs) as (run & _ & _ & _ & Ha & Hb).
    auto.
  - right. left. exists a. destruct (split1_one_piece s a Hs) as [-> Hn]. auto.
Qed.

(** X11.  [_read_csv] changes no state, and a table it returns has the
    column names it was given and, in every row, as many fields as there
    are names. *)
Theorem table_has_the_given_columns (E : env) (data : source)
    (cols : list string) (st st' : state) (df : frame) :
  _read_csv E data cols st = (Ok df, st') ->
  st' = st /\ columns df = cols
  /\ Forall (fun r => length r = length cols) (rows df).
Proof.
  rewrite read_csv_run. intros [= Ht <-]. split; [reflexivity|].
  destruct (content st data) as [bs|]; [|discriminate].
  split; [exact (table_of_columns _ _ _ _ Ht)|].
  revert Ht. unfold table_of.
  destruct (Gzip.read _ _) as [text|e]; [|discriminate]. simpl.
  destruct (read_csv text) as [c|e]; [|discriminate]. simpl.
  destruct (str c) as [vs|e]; [|discriminate]. simpl.
  unfold set_columns, str_split_expand. cbn [columns rows].
  rewrite length_map, length_seq.
  destruct (_ =? _) eqn:Hw; [|discriminate]. apply Nat.eqb_eq in Hw.
  intros [= <-]. cbn [rows]. apply Forall_forall. intros r Hr.
  apply list_elem_of_fmap in Hr as (p & -> & Hp).
  apply list_elem_of_fmap in Hp as (v & -> & Hv).
  unfold pad_row. rewrite length_app, repeat_length, Hw.
  pose proof (width_bound vs v Hv). lia.
Qed.

Lemma table_has_the_given_columns_witness :
  _read_csv Sample.world (Path "Contents-amd64.20240102-030405.gz")
    ["filename"; "package"] Sample.downloaded
  = (Ok Sample.example_frame, Sample.downloaded)
  /\ columns Sample.example_frame = ["filename"; "package"]
  /\ Forall (fun r => length r = 2) (rows Sample.example_frame).
Proof.
  split; [reflexivity|].
  destruct (table_has_the_given_columns Sample.world
              (Path "Contents-amd64.20240102-030405.gz")
              ["filename"; "package"] Sample.downloaded Sample.downloaded
              Sample.example_frame eq_refl) as (_ & Hc & Hr).
  split; [exact Hc|exact Hr].
Defined.

(** X12.  In a table that [_read_csv] returns for two column names, every
    row is one of: two missing fields; a path without whitespace and no
    package string; a path without whitespace and a package string that
    does not start with whitespace.  Some row has a package string. *)
Theorem table_rows_are_records (E : env) (data : source) (c1 c2 : string)
    (st st' : state) (df : frame) :
  _read_csv E data [c1; c2] st = (Ok df, st') ->
  Forall record_shape (rows df) /\ Exists has_package (rows df).
Proof.
  rewrite read_csv_run. intros [= Ht _].
  destruct (content st data) as [bs|]; [|discriminate].
  rewrite table_of_two_names in Ht.
  destruct (Gzip.read _ _) as [text|e]; [|discriminate]. simpl in Ht.
  destruct (read_csv text) as [c|e]; [|discriminate]. simpl in Ht.
  destruct (str c) as [vs|e]; [|discriminate]. simpl in Ht.
  destruct (existsb has_space vs) eqn:Hx; [|discriminate].
  injection Ht as <-. cbn [rows]. split.
  - apply Forall_forall. intros r Hr.
    apply list_elem_of_fmap in Hr as (v & -> & _). apply row_of_shape.
  - apply existsb_exists in Hx as (v & Hin & Hv).
    apply Exists_exists. exists (row_of v). split.
    + apply list_elem_of_fmap. exists v. split; [reflexivity|].
      apply list_elem_of_In. exact Hin.
    + destruct v as [s|]; [|discriminate]. simpl in Hv.
      apply negb_true_iff in Hv.
      destruct (split1_has_space s Hv) as (a & b & Hs).
      exists a, b. simpl. rewrite Hs. reflexivity.
Qed.

Lemma table_rows_are_records_witness :
  _read_csv Sample.world (BytesIO Sample.example_gz) ["filename"; "package"]
    Sample.start = (Ok Sample.example_frame, Sample.start)
  /\ Forall record_shape (rows Sample.example_frame).
Proof.
  split; [reflexivity|].
  apply (table_rows_are_records Sample.world (BytesIO Sample.example_gz)
           "filename" "package" Sample.start Sample.start
           Sample.example_frame eq_refl).
Defined.

End Tables.

Section ReadErrors.
Import Pd Props Debindex Further.

(** X13.  When the column read from the text holds strings none of which
    has whitespace (or holds nothing at all), the split yields fewer than
    two columns: [_read_csv] with two names raises [ValueError], and
    [main], which does not handle it, ends with it (once the download, if
    asked for, is saved). *)
Theorem values_without_whitespace_raise_ValueError (E : env) (bs : list byte)
    (text : string) (vs : list (option string)) (c1 c2 : string) :
  Gzip.read (inflate E) bs = Ok text ->
  read_csv text = Ok (Strings vs) ->
  existsb has_space vs = false ->
  (forall st, _read_csv E (BytesIO bs) [c1; c2] st = (Raise ValueError, st))
  /\ (forall a st,
        http_get E (index_file_url a) = Ok bs ->
        download_error E a = None ->
        main E a st = (Raise ValueError, fetched E a (entered a st) bs)).
Proof.
  intros Hgz Hcsv Hsp.
  assert (forall x y, table_of E bs [x; y] = Raise ValueError) as Ht.
  { intros x y. rewrite table_of_two_names, Hgz. simpl. rewrite Hcsv. simpl.
    rewrite Hsp. reflexivity. }
  split.
  - intros st. rewrite read_csv_bytes, Ht. reflexivity.
  - intros a st Hget Hsave. rewrite main_cases, Hget, Hsave, Ht. reflexivity.
Qed.

Lemma values_without_whitespace_raise_ValueError_witness :
  Gzip.read (inflate Sample.world) Sample.paths_gz
  = Ok ("usr/bin/foo" +:+ Py.chr Py.LF +:+ "usr/bin/bar" +:+ Py.chr Py.LF)
  /\ read_csv ("usr/bin/foo" +:+ Py.chr Py.LF +:+ "usr/bin/bar" +:+ Py.chr Py.LF)
     = Ok (Strings [Some "usr/bin/foo"; Some "usr/bin/bar"])
  /\ _read_csv Sample.world (BytesIO Sample.paths_gz) ["filename"; "package"]
       Sample.start
     = (Raise ValueError, Sample.start)
  /\ fst (main (Sample.serving (Ok Sample.paths_gz))
            (Sample.run "amd64" true None 10) Sample.start)
     = Raise ValueError.
Proof.
  split; [reflexivity|]. split; [reflexivity|].
  destruct (values_without_whitespace_raise_ValueError
              (Sample.serving (Ok Sample.paths_gz)) Sample.paths_gz
              _ [Some "usr/bin/foo"; Some "usr/bin/bar"] "filename" "package"
              eq_refl eq_refl eq_refl) as [Hread Hmain].
  split; [apply Hread|].
  rewrite (Hmain (Sample.run "amd64" true None 10) Sample.start eq_refl
             eq_refl).
  reflexivity.
Defined.

Lemma skip_other f s :
  match s with String c _ => f c = false | EmptyString => True end ->
  skip f s = s.
Proof. destruct s as [|c s]; [reflexivity|]. simpl. intros ->. reflexivity. Qed.

Lemma skip_all f s : forallb_string f s = true -> skip f s = EmptyString.
Proof.
  induction s as [|c s IH]; [reflexivity|]. simpl.
  intros [Hc Hs]%andb_prop. rewrite Hc. exact (IH Hs).
Qed.

(** The number written by digits is below the power of ten of their
    count. *)
Lemma digit_value_bound c :
  is_digit c = true -> (0 <= Z.of_nat (nat_of_ascii c - 48) <= 9)%Z.
Proof.
  unfold is_digit. intros [H1 H2]%andb_prop.
  apply Nat.leb_le in H1, H2. lia.
Qed.

Lemma digits_value_bound s :
  forall acc,
    (0 <= acc)%Z -> forallb_string is_digit s = true ->
    (0 <= digits_value acc s
     < (acc + 1) * 10 ^ Z.of_nat (String.length s))%Z.
Proof.
  induction s as [|c s IH]; intros acc Hacc Hd.
  - simpl. lia.
  - cbn [forallb_string] in Hd. apply andb_prop in Hd as [Hc Hs].
    cbn [digits_value String.length]. rewrite Hc.
    pose proof (digit_value_bound c Hc) as Hv.
    specialize (IH (10 * acc + Z.of_nat (nat_of_ascii c - 48))%Z
                   ltac:(lia) Hs).
    rewrite Nat2Z.inj_succ, Z.pow_succ_r by lia.
    assert (0 < 10 ^ Z.of_nat (String.length s))%Z by (apply Z.pow_pos_nonneg; lia).
    nia.
Qed.

Lemma digits_not_nul s : forallb_string is_digit s = true -> c_str s = s.
Proof.
  induction s as [|c s IH]; [reflexivity|]. cbn [forallb_string c_str].
  intros [Hc Hs]%andb_prop. rewrite (IH Hs).
  destruct (Ascii.eqb_spec c Py.NUL) as [->|_]; [discriminate|reflexivity].
Qed.

(** A line of at most 18 digits is read as an integer. *)
Lemma digits_are_an_integer line :
  digits line = true -> c_str line = line /\ str_to_int64 line = Converted.
Proof.
  unfold digits. intros [[Hd Hne]%andb_prop Hlen]%andb_prop.
  split; [apply digits_not_nul, Hd|].
  destruct line as [|c line]; [discriminate|]. clear Hne.
  pose proof Hd as Hd'. cbn [forallb_string] in Hd'.
  apply andb_prop in Hd' as [Hc _].
  unfold str_to_int64.
  rewrite (skip_other isspace_ascii).
  2:{ destruct (isspace_ascii c) eqn:Hs; [|reflexivity].
      apply ascii_space_is_space in Hs.
      rewrite (digit_no_space c Hc) in Hs. discriminate. }
  assert (starts_with "-"%char (String c line) = false) as ->.
  { simpl. destruct (Ascii.eqb_spec c "-"%char) as [->|_];
      [discriminate|reflexivity]. }
  assert (skip_sign (String c line) = String c line) as ->.
  { simpl. destruct (is_sign c) eqn:Hs; [|reflexivity].
    destruct c as [[] [] [] [] [] [] [] []]; discriminate. }
  assert ((0 <? count_while is_digit (String c line)) = true) as ->.
  { simpl. rewrite Hc. reflexivity. }
  rewrite (skip_all _ _ Hd). cbn [skip].
  destruct (digits_value_bound (String c line) 0 ltac:(lia) Hd) as [_ Hv].
  apply Nat.leb_le in Hlen.
  assert (10 ^ Z.of_nat (String.length (String c line)) <= 10 ^ 18)%Z
    by (apply Z.pow_le_mono_r; lia).
  assert ((int64_max <? digits_value 0 (String c line))%Z = false) as ->;
    [|reflexivity].
  apply Z.ltb_ge. unfold int64_max. lia.
Qed.

Lemma try_int64_digits lines :
  forallb digits lines = true -> try_int64 (map c_str lines) = Converted.
Proof.
  induction lines as [|l ls IH]; [reflexivity|]. cbn [forallb map try_int64].
  intros [Hl Hls]%andb_prop.
  destruct (digits_are_an_integer l Hl) as [-> ->].
  rewrite (IH Hls). destruct (is_na l); reflexivity.
Qed.

(** X14.  A text without comma, double quote and carriage return whose
    lines (those that are not blank, at least one) are made of decimal
    digits, at most 18 of them, is read as a column of integers:
    [_read_csv] raises [AttributeError] at the [.str] accessor, and [main]
    ends with it (once the download, if asked for, is saved). *)
Theorem lines_of_digits_raise_AttributeError (E : env) (bs : list byte)
    (text : string) (cols : list string) :
  Gzip.read (inflate E) bs = Ok text ->
  plain text = true ->
  kept_lines text <> [] ->
  forallb digits (kept_lines text) = true ->
  (forall st, _read_csv E (BytesIO bs) cols st = (Raise AttributeError, st))
  /\ (forall a st,
        http_get E (index_file_url a) = Ok bs ->
        download_error E a = None ->
        main E a st = (Raise AttributeError, fetched E a (entered a st) bs)).
Proof.
  intros Hgz Hp Hne Hd.
  assert (forall names, table_of E bs names = Raise AttributeError) as Ht.
  { intros names. unfold table_of. rewrite Hgz. simpl.
    rewrite (read_csv_lines text Hp). simpl.
    unfold infer. rewrite (try_int64_digits _ Hd).
    destruct (kept_lines text) as [|l ls]; [contradiction|]. reflexivity. }
  split.
  - intros st. rewrite read_csv_bytes, Ht. reflexivity.
  - intros a st Hget Hsave. rewrite main_cases, Hget, Hsave, Ht. reflexivity.
Qed.

Lemma lines_of_digits_raise_AttributeError_witness :
  Gzip.read (inflate Sample.world) Sample.digits_gz
  = Ok ("2024" +:+ Py.chr Py.LF +:+ "17" +:+ Py.chr Py.LF)
  /\ _read_csv Sample.world (BytesIO Sample.digits_gz) ["filename"; "package"]
       Sample.start
     = (Raise AttributeError, Sample.start)
  /\ fst (main (Sample.serving (Ok Sample.digits_gz))
            (Sample.run "amd64" true None 10) Sample.start)
     = Raise AttributeError.
Proof.
  split; [reflexivity|].
  destruct (lines_of_digits_raise_AttributeError
              (Sample.serving (Ok Sample.digits_gz)) Sample.digits_gz
              ("2024" +:+ Py.chr Py.LF +:+ "17" +:+ Py.chr Py.LF)
              ["filename"; "package"] eq_refl eq_refl
              ltac:(discriminate) eq_refl) as [Hread Hmain].
  split; [apply Hread|].
  rewrite (Hmain (Sample.run "amd64" true None 10) Sample.start eq_refl
             eq_refl).
  reflexivity.
Defined.

End ReadErrors.

Section Counting.
Import Pd Props Debindex Further.

Lemma index_of_None key names : index_of key names = None <-> key ∉ names.
Proof.
  induction names as [|n names IH]; simpl.
  - split; [intros _ H; inversion H|reflexivity].
  - rewrite not_elem_of_cons. destruct (String.eqb_spec n key) as [->|Hne].
    + split; [discriminate|]. intros [H _]. contradiction.
    + destruct (index_of key names); simpl.
      * split; [discriminate|]. intros [_ H]. apply IH in H. discriminate.
      * split; [|reflexivity]. intros _. split; [congruence|].
        apply IH. reflexivity.
Qed.

(** X15.  [count_occurrences] with a key that is no column of the table
    raises [KeyError], after its first progress record and before the
    second. *)
Theorem missing_key_column_raises_KeyError (df : frame) (key : string)
    (st : state) :
  key ∉ columns df ->
  count_occurrences df key st
  = (Raise KeyError, logged st INFO "Counting index entries occurrences ...").
Proof.
  intros H. apply index_of_None in H.
  unfold count_occurrences, bindM, logger_info, logger_log, lift,
    pivot_table_size. rewrite H. reflexivity.
Qed.

Lemma missing_key_column_raises_KeyError_witness :
  fst (count_occurrences Sample.example_frame "section" Sample.start)
  = Raise KeyError.
Proof.
  rewrite (missing_key_column_raises_KeyError Sample.example_frame "section"
             Sample.start); [reflexivity|].
  intros H. repeat (apply elem_of_cons in H as [H|H]; [discriminate|]).
  inversion H.
Defined.

Lemma lookup_index k t : k ∈ index t <-> exists n, lookup k t = Some n.
Proof.
  induction t as [|[k' n'] t IH]; simpl.
  - split; [intros H; inversion H|intros [n H]; discriminate].
  - rewrite elem_of_cons, IH.
    destruct (String.eqb_spec k' k) as [->|Hne].
    + split; [eauto|auto].
    + split; [intros [H|H]; [congruence|exact H]|auto].
Qed.

Lemma occurrences_elem k keys : 0 < occurrences k keys <-> Some k ∈ keys.
Proof.
  unfold occurrences. induction keys as [|[k'|] keys IH]; simpl.
  - split; [lia|intros H; inversion H].
  - rewrite elem_of_cons. destruct (String.eqb_spec k' k) as [->|Hne]; simpl.
    + split; [auto|lia].
    + rewrite IH. split; [auto|]. intros [H|H]; [congruence|exact H].
  - rewrite elem_of_cons, IH. split; [auto|].
    intros [H|H]; [discriminate|exact H].
Qed.

Lemma count_of_positive k t :
  Forall (fun e => 0 < snd e) t -> (0 < count_of k t <-> k ∈ index t).
Proof.
  intros Hpos. rewrite lookup_index. unfold count_of. split.
  - destruct (lookup k t) as [n|]; [eauto|lia].
  - intros [n Hn]. rewrite Hn. apply lookup_elem in Hn.
    rewrite Forall_forall in Hpos. exact (Hpos _ Hn).
Qed.

Lemma total_lower_bound t :
  Forall (fun e => 0 < snd e) t -> length t <= total t.
Proof.
  unfold total. induction 1 as [|[k n] t Hn Ht IH]; simpl in *; lia.
Qed.

Lemma present_le_length keys : present keys <= length keys.
Proof.
  unfold present. induction keys as [|[k|] keys IH]; simpl; lia.
Qed.

(** X16.  The ranked result has an entry for each string that occurs in the
    key column and for nothing else, and no two entries with the same key;
    every count is at least 1, and there are at most as many entries as
    the table has rows. *)
Theorem ranked_result_lists_each_key_once (df : frame) (key : string)
    (i : nat) (st : state) :
  index_of key (columns df) = Some i ->
  exists l,
    fst (count_occurrences df key st) = Ok (ranked l)
    /\ NoDup (index l)
    /\ (forall k, k ∈ index l <-> Some k ∈ column_values i df)
    /\ Forall (fun e => 1 <= snd e) l
    /\ length l <= length (rows df).
Proof.
  intros Hi. exists (sort_values_desc (group_sizes (column_values i df))).
  rewrite (count_occurrences_run _ _ _ _ Hi).
  pose proof (sort_values_desc_perm (group_sizes (column_values i df))) as Hp.
  pose proof (group_sizes_positive (column_values i df)) as Hpos.
  pose proof (key_sorted_NoDup _ (group_sizes_sorted (column_values i df)))
    as Hnd.
  split; [reflexivity|]. split; [|split; [|split]].
  - rewrite (index_perm _ _ Hp). exact Hnd.
  - intros k. rewrite (index_perm _ _ Hp).
    rewrite <- (count_of_positive k _ Hpos), group_sizes_count.
    apply occurrences_elem.
  - rewrite Hp. exact Hpos.
  - rewrite Hp. etransitivity; [apply (total_lower_bound _ Hpos)|].
    rewrite group_sizes_total. etransitivity; [apply present_le_length|].
    unfold column_values. rewrite length_map. reflexivity.
Qed.

Lemma ranked_result_lists_each_key_once_witness :
  exists l,
    fst (count_occurrences Sample.example_frame "package" Sample.start)
    = Ok (ranked l)
    /\ NoDup (index l)
    /\ length l <= 3.
Proof.
  destruct (ranked_result_lists_each_key_once Sample.example_frame "package"
              1 Sample.start eq_refl) as (l & Hl & Hnd & _ & _ & Hlen).
  exists l. split; [exact Hl|]. split; [exact Hnd|exact Hlen].
Defined.

(** Sorted tables with the same counts are the same table. *)
Lemma lookup_below k t :
  Forall (fun e => String.compare k (fst e) = Lt) t -> lookup k t = None.
Proof.
  induction 1 as [|[k' n] t Hk Ht IH]; [reflexivity|]. simpl in *.
  destruct (String.eqb_spec k' k) as [->|_]; [|exact IH].
  rewrite compare_refl in Hk. discriminate.
Qed.

Lemma sorted_above k n t :
  Sorted key_lt ((k, n) :: t) ->
  Forall (fun e => String.compare k (fst e) = Lt) t.
Proof.
  intros Hs. apply Sorted_StronglySorted in Hs; [|apply key_lt_trans].
  inversion Hs; subst. assumption.
Qed.

Lemma sorted_tail x t : Sorted key_lt (x :: t) -> Sorted key_lt t.
Proof. intros Hs. inversion Hs; assumption. Qed.

Lemma count_of_head k n t : count_of k ((k, n) :: t) = n.
Proof. unfold count_of. simpl. rewrite String.eqb_refl. reflexivity. Qed.

Lemma count_of_below k t :
  Forall (fun e => String.compare k (fst e) = Lt) t -> count_of k t = 0.
Proof. intros H. unfold count_of. rewrite (lookup_below k t H). reflexivity. Qed.

Lemma sorted_tables_agree t t' :
  Sorted key_lt t -> Sorted key_lt t' ->
  Forall (fun e => 0 < snd e) t -> Forall (fun e => 0 < snd e) t' ->
  (forall k, count_of k t = count_of k t') -> t = t'.
Proof.
  revert t'. induction t as [|[k n] t IH]; intros [|[k' n'] t'] Hs Hs' Hp Hp' Hc.
  - reflexivity.
  - specialize (Hc k'). rewrite count_of_head in Hc.
    apply Forall_inv in Hp'. simpl in Hp'.
    unfold count_of in Hc. simpl in Hc. lia.
  - specialize (Hc k). rewrite count_of_head in Hc.
    apply Forall_inv in Hp. simpl in Hp.
    unfold count_of in Hc. simpl in Hc. lia.
  - pose proof (Forall_inv Hp) as Hn. pose proof (Forall_inv_tail Hp) as Hpt.
    pose proof (Forall_inv Hp') as Hn'.
    pose proof (Forall_inv_tail Hp') as Hpt'. simpl in Hn, Hn'.
    pose proof (sorted_above _ _ _ Hs) as Ha.
    pose proof (sorted_above _ _ _ Hs') as Ha'.
    destruct (String.compare k k') eqn:E.
    + apply String.compare_eq_iff in E. subst k'.
      pose proof (Hc k) as Hk. rewrite !count_of_head in Hk. subst n'.
      f_equal. apply IH; try assumption; try (eapply sorted_tail; eassumption).
      intros x. destruct (String.eqb_spec k x) as [<-|Hne].
      * rewrite !count_of_below by assumption. reflexivity.
      * specialize (Hc x). unfold count_of in *. simpl in Hc.
        destruct (String.eqb_spec k x); [contradiction|]. exact Hc.
    + exfalso. specialize (Hc k). rewrite count_of_head in Hc.
      rewrite count_of_below in Hc; [lia|].
      constructor; [exact E|].
      eapply Forall_impl; [exact Ha'|]. intros e He. simpl in He.
      eapply compare_lt_trans; eassumption.
    + exfalso. apply compare_gt_lt in E. specialize (Hc k').
      rewrite count_of_head in Hc.
      rewrite count_of_below in Hc; [lia|].
      constructor; [exact E|].
      eapply Forall_impl; [exact Ha|]. intros e He. simpl in He.
      eapply compare_lt_trans; eassumption.
Qed.

Lemma occurrences_perm k keys keys' :
  Permutation keys keys' -> occurrences k keys = occurrences k keys'.
Proof.
  unfold occurrences. induction 1 as [|x l l' Hp IH|x y l|l1 l2 l3 H1 IH1 H2 IH2].
  - reflexivity.
  - simpl. destruct x as [s|]; [destruct (String.eqb s k)|]; simpl; lia.
  - simpl. destruct x as [s|], y as [s'|];
      repeat (match goal with |- context [String.eqb ?a ?b] =>
                destruct (String.eqb a b) end); reflexivity.
  - lia.
Qed.

Lemma group_sizes_perm keys keys' :
  Permutation keys keys' -> group_sizes keys = group_sizes keys'.
Proof.
  intros Hp. apply sorted_tables_agree;
    try apply group_sizes_sorted; try apply group_sizes_positive.
  intros k. rewrite !group_sizes_count. apply occurrences_perm, Hp.
Qed.

(** X17.  [count_occurrences] does not depend on the order of the rows: on
    two tables with the same columns whose rows are a permutation of each
    other it returns the same ranked result and logs the same. *)
Theorem counting_ignores_the_order_of_rows (df df' : frame) (key : string)
    (st : state) :
  columns df' = columns df ->
  Permutation (rows df) (rows df') ->
  count_occurrences df' key st = count_occurrences df key st.
Proof.
  intros Hc Hp.
  destruct (index_of key (columns df)) as [i|] eqn:Hi.
  - rewrite (count_occurrences_run df key i st Hi).
    rewrite (count_occurrences_run df' key i st) by (rewrite Hc; exact Hi).
    rewrite (group_sizes_perm (column_values i df') (column_values i df));
      [reflexivity|].
    unfold column_values. apply Permutation_map. symmetry. exact Hp.
  - unfold count_occurrences, bindM, logger_info, logger_log, lift,
      pivot_table_size. rewrite Hc, Hi. reflexivity.
Qed.

Lemma counting_ignores_the_order_of_rows_witness :
  count_occurrences
    {| columns := ["filename"; "package"];
       rows := [ [Some "usr/lib/baz"; Some "lib-pkg"];
                 [Some "usr/bin/foo"; Some "util-pkg"];
                 [Some "usr/bin/bar"; Some "util-pkg"] ] |}
    "package" Sample.start
  = count_occurrences Sample.example_frame "package" Sample.start.
Proof.
  apply counting_ignores_the_order_of_rows; [reflexivity|].
  simpl. symmetry. apply (Permutation_cons_append [_; _] _).
Defined.

End Counting.

Section SimpleTexts.
Import Pd Props Debindex Further.
Import Csv.

Lemma split_none c s :
  forallb_string (fun x => negb (Ascii.eqb x c)) s = true ->
  Py.split c s = [s].
Proof.
  induction s as [|x s IH]; [reflexivity|]. simpl.
  intros [Hx Hs]%andb_prop. apply negb_true_iff in Hx. rewrite Hx, (IH Hs).
  reflexivity.
Qed.

Lemma split_snoc_sep c s : Py.split c (s +:+ Py.chr c) = Py.split c s ++ [EmptyString].
Proof. unfold Py.chr. rewrite split_app. reflexivity. Qed.

Lemma split_snoc_other c x s l f :
  Ascii.eqb x c = false -> Py.split c s = l ++ [f] ->
  Py.split c (s +:+ Py.chr x) = l ++ [f +:+ Py.chr x].
Proof.
  intros Hx. revert l f. induction s as [|y s IH]; intros l f Hs.
  - simpl in Hs. destruct l as [|a [|b l]]; try discriminate.
    injection Hs as <-. rewrite append_nil_l. simpl. rewrite Hx. reflexivity.
  - rewrite append_cons. simpl in *. destruct (Ascii.eqb y c).
    + destruct l as [|a l].
      * injection Hs as _ Hs. exfalso. exact (split_nonempty c s Hs).
      * injection Hs as <- Hs. rewrite (IH l f Hs). reflexivity.
    + pose proof (split_nonempty c s) as Hne.
      destruct (Py.split c s) as [|p rest]; [contradiction|].
      destruct l as [|a l].
      * injection Hs as <- ->. rewrite (IH [] p eq_refl). reflexivity.
      * injection Hs as <- ->. rewrite (IH (p :: l) f eq_refl). reflexivity.
Qed.

Lemma blank_no_comma s : blank s = true -> fields s = [s].
Proof.
  intros H. apply split_none. revert H. unfold blank.
  induction s as [|x s IH]; [reflexivity|]. simpl.
  intros [Hx Hs]%andb_prop. rewrite (IH Hs), andb_true_r.
  unfold is_blank in Hx.
  apply orb_prop in Hx as [Hx|Hx]; apply Ascii.eqb_eq in Hx; subst;
    reflexivity.
Qed.

Lemma simple_char_cases c :
  simple_char c = true ->
  Ascii.eqb c Py.CR = false /\ Ascii.eqb c Py.DQUOTE = false.
Proof.
  unfold simple_char. intros H. apply negb_true_iff in H.
  apply orb_false_elim in H as [Hq Hcr]. auto.
Qed.

Lemma comma_not_blank : is_blank DELIM = false.
Proof. reflexivity. Qed.

(** Reading a simple text from inside a line of it, of which [cur] is
    read. *)
Lemma feed_simple text :
  forall st fld line rows ex cur,
    simple text = true -> no_lf cur = true ->
    at_fields st fld line cur ->
    Py.bind (feed {| p_state := st; p_field := fld; p_line := line;
                     p_rows := rows; p_expected := ex; p_since_lf := cur |}
                  text) handle_eof
    = let* r := rows_of ex (Py.split Py.LF (cur +:+ text)) in Ok (rows ++ r).
Proof.
  induction text as [|c text IH];
    intros st fld line rows ex cur Hp Hcur Hat.
  - (* the end of the text *)
    rewrite append_nil_r, (split_no_lf _ Hcur). cbn [feed Py.bind rows_of].
    unfold handle_eof. cbn [p_state p_rows].
    destruct Hat as [(-> & -> & -> & ->)|[(-> & Hb & _ & -> & ->)
                                          |(Hst & Hb & Hf)]].
    + cbn [blank forallb_string]. unfold blank. simpl.
      rewrite app_nil_r. reflexivity.
    + rewrite Hb. simpl. rewrite app_nil_r. reflexivity.
    + rewrite Hb.
      assert (handle_eof_open :
                (let* p' := end_line (end_field
                              {| p_state := st; p_field := fld;
                                 p_line := line; p_rows := rows;
                                 p_expected := ex; p_since_lf := cur |}) in
                 Ok (p_rows p'))
                = match ex with
                  | None =>
                      let* r := Ok [] in Ok (rows ++ fields cur :: r)
                  | Some n =>
                      if n <? length (fields cur) then Raise ParserError
                      else let* r := Ok [] in
                           Ok (rows ++ (fields cur ++ repeat EmptyString
                                          (n - length (fields cur))) :: r)
                  end).
      { unfold end_field, end_line. cbn [p_expected p_line p_rows p_field].
        rewrite Hf. destruct ex as [n|]; [|reflexivity].
        destruct (n <? length (fields cur)); reflexivity. }
      destruct Hst as [-> | ->]; rewrite handle_eof_open;
        destruct ex as [n|]; try reflexivity;
        destruct (n <? length (fields cur)); reflexivity.
  - change (simple (String c text)) with (simple_char c && simple text) in Hp.
    apply andb_prop in Hp as [Hc Hp].
    destruct (simple_char_cases c Hc) as (Hcr & Hq).
    destruct (Ascii.eqb_spec c Py.LF) as [->|Hlf].
    + (* the line ends *)
      rewrite (split_line _ _ Hcur). cbn [rows_of].
      destruct Hat as [(-> & -> & -> & ->)|[(-> & Hb & _ & -> & ->)
                                            |(Hst & Hb & Hf)]].
      * tok. unfold start_record. rewrite Ascii.eqb_refl. tok_records.
        change (blank EmptyString) with true. cbv iota.
        rewrite (IH START_RECORD _ _ _ _ EmptyString Hp eq_refl)
          by (left; auto).
        rewrite append_nil_l. reflexivity.
      * rewrite Hb. tok. unfold whitespace_line. rewrite Ascii.eqb_refl.
        tok_records.
        rewrite (IH START_RECORD _ _ _ _ EmptyString Hp eq_refl)
          by (left; auto).
        rewrite append_nil_l. reflexivity.
      * rewrite Hb. cbn [feed].
        assert (step {| p_state := st; p_field := fld; p_line := line;
                        p_rows := rows; p_expected := ex;
                        p_since_lf := cur |} Py.LF
                = let* q := end_line {| p_state := st; p_field := EmptyString;
                                        p_line := fields cur; p_rows := rows;
                                        p_expected := ex;
                                        p_since_lf := cur |} in
                  Ok (set_since EmptyString q)) as ->.
        { rewrite <- Hf. destruct Hst as [-> | ->]; reflexivity. }
        unfold end_line. cbn [p_expected p_line p_rows p_since_lf].
        destruct ex as [n|].
        -- destruct (n <? length (fields cur)); [reflexivity|].
           cbn [Py.bind]. tok_records.
           rewrite (IH START_RECORD _ _ _ _ EmptyString Hp eq_refl)
             by (left; auto).
           rewrite append_nil_l.
           destruct (rows_of _ _) as [r|e]; [|reflexivity]. cbn [Py.bind].
           rewrite <- app_assoc. reflexivity.
        -- cbn [Py.bind]. tok_records.
           rewrite (IH START_RECORD _ _ _ _ EmptyString Hp eq_refl)
             by (left; auto).
           rewrite append_nil_l.
           destruct (rows_of _ _) as [r|e]; [|reflexivity]. cbn [Py.bind].
           rewrite <- app_assoc. reflexivity.
    + (* the line goes on *)
      apply Ascii.eqb_neq in Hlf.
      rewrite <- snoc_append.
      assert (no_lf (cur +:+ Py.chr c) = true) as Hcur'.
      { rewrite no_lf_snoc, Hcur, Hlf. reflexivity. }
      destruct Hat as [(-> & -> & -> & ->)|[(-> & Hb & Hne & -> & ->)
                                            |(Hst & Hb & Hf)]].
      * tok. unfold start_record. rewrite Hlf, Hcr.
        rewrite (next_since_other _ _ Hlf).
        destruct (is_blank c) eqn:Hbl.
        -- tok_records. apply (IH WHITESPACE_LINE); try assumption.
           right. left. rewrite append_nil_l. unfold blank. simpl.
           rewrite Hbl. repeat split; auto; discriminate.
        -- unfold start_field. tok. rewrite Hlf, Hcr, Hq.
           destruct (Ascii.eqb_spec c DELIM) as [->|Hd].
           ++ tok_records. apply (IH START_FIELD); try assumption.
              right. right. split; [auto|]. split; reflexivity.
           ++ apply Ascii.eqb_neq in Hd. tok_records.
              apply (IH IN_FIELD); try assumption.
              right. right. split; [auto|]. rewrite append_nil_l.
              split; [unfold blank; simpl; rewrite Hbl; reflexivity|].
              unfold fields. simpl. rewrite Hd. reflexivity.
      * destruct (is_blank c) eqn:Hbl.
        -- tok. unfold whitespace_line. rewrite Hlf, Hcr, Hbl. tok_records.
           rewrite (next_since_other _ _ Hlf).
           apply (IH WHITESPACE_LINE); try assumption.
           right. left. rewrite blank_snoc, Hb, Hbl. repeat split; auto.
           destruct cur; discriminate.
        -- cbn [feed].
           rewrite (step_after_blanks cur c _ _ _ Hb Hne Hlf Hcr Hbl).
           unfold in_field. rewrite Hlf, Hcr.
           destruct (Ascii.eqb_spec c DELIM) as [->|Hd].
           ++ tok_records. apply (IH START_FIELD); try assumption.
              right. right. split; [auto|].
              split; [rewrite blank_snoc, Hb; reflexivity|].
              unfold fields. rewrite split_snoc_sep.
              fold (fields cur). rewrite (blank_no_comma cur Hb). reflexivity.
           ++ apply Ascii.eqb_neq in Hd. tok_records.
              apply (IH IN_FIELD); try assumption.
              right. right. split; [auto|].
              split; [rewrite blank_snoc, Hb, Hbl; reflexivity|].
              unfold fields.
              rewrite (split_snoc_other DELIM c cur [] cur Hd);
                [reflexivity|]. apply (blank_no_comma cur Hb).
      * cbn [feed].
        assert (step {| p_state := st; p_field := fld; p_line := line;
                        p_rows := rows; p_expected := ex;
                        p_since_lf := cur |} c
                = if Ascii.eqb c DELIM
                  then Ok {| p_state := START_FIELD; p_field := EmptyString;
                             p_line := line ++ [fld]; p_rows := rows;
                             p_expected := ex;
                             p_since_lf := cur +:+ Py.chr c |}
                  else Ok {| p_state := IN_FIELD; p_field := fld +:+ Py.chr c;
                             p_line := line; p_rows := rows;
                             p_expected := ex;
                             p_since_lf := cur +:+ Py.chr c |}) as ->.
        { destruct Hst as [-> | ->]; unfold step, step_with; cbn [p_state];
            unfold in_field, start_field; rewrite Hlf, Hcr, ?Hq;
            rewrite (next_since_other _ _ Hlf);
            destruct (Ascii.eqb c DELIM); reflexivity. }
        destruct (Ascii.eqb_spec c DELIM) as [->|Hd].
        -- tok. apply (IH START_FIELD); try assumption.
           right. right. split; [auto|].
           split; [rewrite blank_snoc, Hb; reflexivity|].
           unfold fields. rewrite split_snoc_sep. fold (fields cur).
           rewrite Hf. reflexivity.
        -- apply Ascii.eqb_neq in Hd. tok.
           apply (IH IN_FIELD); try assumption.
           right. right. split; [auto|].
           split; [rewrite blank_snoc, Hb; reflexivity|].
           unfold fields. symmetry.
           apply split_snoc_other; [exact Hd|]. symmetry. exact Hf.
Qed.

(** A simple text is read line by line; the lines that are not blank are
    cut at their commas. *)
Lemma tokenize_simple text :
  simple text = true -> tokenize text = rows_of None (Py.split Py.LF text).
Proof.
  intros Hp. unfold tokenize, init.
  rewrite (feed_simple text START_RECORD _ _ _ _ EmptyString Hp eq_refl).
  - rewrite append_nil_l. destruct (rows_of _ _); reflexivity.
  - left. auto.
Qed.

End SimpleTexts.

Section CommasAndRows.
Import Pd Props Debindex Further.
Import Csv.

Lemma rows_of_keep ex lines : rows_of ex lines = rows_of ex (keep lines).
Proof.
  revert ex. induction lines as [|l lines IH]; intros ex; [reflexivity|].
  unfold keep. cbn [rows_of List.filter]. fold (keep lines).
  destruct (blank l) eqn:Hb; cbn [negb]; [apply IH|].
  cbn [rows_of]. rewrite Hb. destruct ex as [n|].
  - destruct (n <? _); [reflexivity|]. rewrite IH. reflexivity.
  - rewrite IH. reflexivity.
Qed.

Lemma keep_not_blank lines : Forall (fun l => blank l = false) (keep lines).
Proof.
  apply Forall_forall. intros l Hl. unfold keep in Hl.
  apply list_elem_of_In, filter_In in Hl as [_ Hl].
  apply negb_true_iff in Hl. exact Hl.
Qed.

Lemma length_fields line : length (fields line) = commas line + 1.
Proof.
  unfold fields, commas. induction line as [|c line IH]; [reflexivity|].
  simpl. destruct (Ascii.eqb c DELIM); simpl; [lia|].
  pose proof (split_nonempty DELIM line) as Hne.
  destruct (Py.split DELIM line) as [|p rest]; [contradiction|].
  simpl in *. lia.
Qed.

(** The rows after the first one: an error when a line has more fields
    than are expected, else every line completed with empty fields. *)
Lemma rows_of_width n lines :
  Forall (fun l => blank l = false) lines ->
  rows_of (Some n) lines
  = if existsb (fun l => n <? length (fields l)) lines
    then Raise ParserError
    else Ok (map (fun l => fields l
                           ++ repeat EmptyString (n - length (fields l)))
                 lines).
Proof.
  induction 1 as [|l lines Hb Hl IH]; [reflexivity|].
  cbn [rows_of existsb map]. rewrite Hb.
  destruct (n <? length (fields l)); [reflexivity|]. cbn [orb].
  rewrite IH. destruct (existsb _ lines); reflexivity.
Qed.

Lemma existsb_more_commas first others :
  existsb (fun l => Nat.max (length (fields first)) 1 <? length (fields l))
          others
  = existsb (fun l => commas first <? commas l) others.
Proof.
  induction others as [|l others IH]; [reflexivity|]. simpl. rewrite IH.
  f_equal. rewrite !length_fields.
  destruct (Nat.ltb_spec (commas first) (commas l));
    [apply Nat.ltb_lt|apply Nat.ltb_ge]; lia.
Qed.

(** The rows of a simple text, by its first line that is not blank. *)
Lemma tokenize_kept_lines text first others :
  simple text = true ->
  kept_lines text = first :: others ->
  tokenize text
  = if existsb (fun l => commas first <? commas l) others
    then Raise ParserError
    else Ok (fields first
             :: map (fun l => fields l
                              ++ repeat EmptyString
                                   (Nat.max (length (fields first)) 1
                                    - length (fields l)))
                    others).
Proof.
  intros Hs Hk. rewrite (tokenize_simple text Hs), rows_of_keep.
  change (keep (Py.split Py.LF text)) with (kept_lines text).
  pose proof (keep_not_blank (Py.split Py.LF text)) as Hnb.
  change (keep (Py.split Py.LF text)) with (kept_lines text) in Hnb.
  rewrite Hk in *. apply Forall_cons in Hnb as [Hf Ho].
  cbn [rows_of]. rewrite Hf, (rows_of_width _ _ Ho), existsb_more_commas.
  destruct (existsb _ others); reflexivity.
Qed.

(** X18.  For a text without double quote and carriage return, [_read_csv]
    raises [ParserError] exactly when some line after the first line that
    is not blank has more commas than that first line; [main] does not
    handle this error and ends with it (once the download, if asked for,
    is saved). *)
Theorem line_with_more_commas_raises_ParserError (E : env) (bs : list byte)
    (text first : string) (others : list string) :
  Gzip.read (inflate E) bs = Ok text ->
  simple text = true ->
  kept_lines text = first :: others ->
  (forall cols st,
     _read_csv E (BytesIO bs) cols st = (Raise ParserError, st)
     <-> existsb (fun l => commas first <? commas l) others = true)
  /\ (existsb (fun l => commas first <? commas l) others = true ->
      forall a st,
        http_get E (index_file_url a) = Ok bs ->
        download_error E a = None ->
        main E a st = (Raise ParserError, fetched E a (entered a st) bs)).
Proof.
  intros Hgz Hs Hk.
  assert (forall cols,
            table_of E bs cols = Raise ParserError
            <-> existsb (fun l => commas first <? commas l) others = true)
    as Ht.
  { intros cols. unfold table_of, read_csv. rewrite Hgz. cbn [Py.bind].
    rewrite (tokenize_kept_lines text first others Hs Hk).
    destruct (existsb _ others); [split; reflexivity|].
    cbn [Py.bind]. split; [|discriminate].
    destruct (infer _) as [vs|n]; cbn [Py.bind str]; [|discriminate].
    unfold set_columns. destruct (_ =? _); discriminate. }
  split.
  - intros cols st. rewrite read_csv_bytes, <- (Ht cols).
    split; [intros [= ->]; reflexivity|intros ->; reflexivity].
  - intros Hx a st Hget Hsave. rewrite main_cases, Hget, Hsave.
    rewrite (proj2 (Ht _) Hx). reflexivity.
Qed.

Lemma line_with_more_commas_raises_ParserError_witness :
  Gzip.read (inflate Sample.world) Sample.late_comma_gz
  = Ok ("bin/sh   shells/dash" +:+ Py.chr Py.LF
        +:+ "bin/ls   utils/a,utils/b" +:+ Py.chr Py.LF)
  /\ _read_csv Sample.world (BytesIO Sample.late_comma_gz)
       ["filename"; "package"] Sample.start
     = (Raise ParserError, Sample.start)
  /\ fst (main (Sample.serving (Ok Sample.late_comma_gz))
            (Sample.run "amd64" true None 10) Sample.start)
     = Raise ParserError.
Proof.
  split; [reflexivity|].
  destruct (line_with_more_commas_raises_ParserError
              (Sample.serving (Ok Sample.late_comma_gz))
              Sample.late_comma_gz
              ("bin/sh   shells/dash" +:+ Py.chr Py.LF
               +:+ "bin/ls   utils/a,utils/b" +:+ Py.chr Py.LF)
              "bin/sh   shells/dash" ["bin/ls   utils/a,utils/b"]
              eq_refl eq_refl eq_refl) as [Hread Hmain].
  split; [apply Hread; reflexivity|].
  rewrite (Hmain eq_refl (Sample.run "amd64" true None 10) Sample.start
             eq_refl eq_refl).
  reflexivity.
Defined.

(** X19.  Blank lines do not count, nor does a line feed at the end: two
    texts without double quote and carriage return that have the same
    lines, those that are empty or made of spaces and tabs apart, are read
    by [_read_csv] as the same table, or with the same error.  A text that
    has such lines only is read like the empty text: with the two names of
    the program [_read_csv] raises [ValueError]. *)
Theorem blank_lines_do_not_count (E : env) (bs bs' : list byte)
    (text text' : string) (cols : list string) :
  Gzip.read (inflate E) bs = Ok text ->
  Gzip.read (inflate E) bs' = Ok text' ->
  simple text = true -> simple text' = true ->
  kept_lines text = kept_lines text' ->
  (forall st st',
     fst (_read_csv E (BytesIO bs) cols st)
     = fst (_read_csv E (BytesIO bs') cols st'))
  /\ (kept_lines text = [] ->
      forall st,
        _read_csv E (BytesIO bs) ["filename"; "package"] st
        = (Raise ValueError, st)).
Proof.
  intros Hgz Hgz' Hs Hs' Hk.
  assert (forall t, simple t = true ->
            tokenize t = rows_of None (kept_lines t)) as Htok.
  { intros t Ht. rewrite (tokenize_simple t Ht). apply rows_of_keep. }
  split.
  - intros st st'. rewrite !read_csv_bytes. cbn [fst].
    unfold table_of, read_csv. rewrite Hgz, Hgz'. cbn [Py.bind].
    rewrite (Htok text Hs), (Htok text' Hs'), Hk. reflexivity.
  - intros He st. rewrite read_csv_bytes. unfold table_of, read_csv.
    rewrite Hgz. cbn [Py.bind]. rewrite (Htok text Hs), He. reflexivity.
Qed.

Lemma blank_lines_do_not_count_witness :
  Gzip.read (inflate Sample.world) Sample.blank_lines_gz
  = Ok ("usr/bin/foo   util-pkg" +:+ Py.chr Py.LF +:+ Py.chr Py.LF
        +:+ " " +:+ Py.chr Py.TAB +:+ Py.chr Py.LF
        +:+ "usr/bin/bar   util-pkg" +:+ Py.chr Py.LF
        +:+ "usr/lib/baz   lib-pkg")
  /\ fst (_read_csv Sample.world (BytesIO Sample.blank_lines_gz)
            ["filename"; "package"] Sample.start)
     = fst (_read_csv Sample.world (BytesIO Sample.example_gz)
              ["filename"; "package"] Sample.start).
Proof.
  split; [reflexivity|].
  apply (blank_lines_do_not_count Sample.world Sample.blank_lines_gz
           Sample.example_gz
           ("usr/bin/foo   util-pkg" +:+ Py.chr Py.LF +:+ Py.chr Py.LF
            +:+ " " +:+ Py.chr Py.TAB +:+ Py.chr Py.LF
            +:+ "usr/bin/bar   util-pkg" +:+ Py.chr Py.LF
            +:+ "usr/lib/baz   lib-pkg")
           Sample.example_text ["filename"; "package"]);
    reflexivity.
Defined.

End CommasAndRows.

Section ReadingBack.
Import Pd Props Debindex Further.
Import Csv.

Lemma plain_no_quotes k :
  plain k = true -> no_lf k = true -> needs_quotes k = false.
Proof.
  unfold plain, no_lf, needs_quotes. induction k as [|c k IH]; [reflexivity|].
  simpl. intros [Hc Hk]%andb_prop [Hl Hn]%andb_prop.
  rewrite (IH Hk Hn), orb_false_r.
  destruct (plain_char_cases c Hc) as (_ & Hq & Hd).
  apply negb_true_iff in Hl. rewrite Hd, Hq, Hl. reflexivity.
Qed.

Lemma plain_simple s : plain s = true -> simple s = true.
Proof.
  unfold plain, simple. induction s as [|c s IH]; [reflexivity|]. simpl.
  intros [Hc Hs]%andb_prop. rewrite (IH Hs), andb_true_r.
  destruct (plain_char_cases c Hc) as (Hcr & Hq & _).
  unfold simple_char. rewrite Hq, Hcr. reflexivity.
Qed.

Lemma plain_no_comma s :
  plain s = true ->
  forallb_string (fun x => negb (Ascii.eqb x DELIM)) s = true.
Proof.
  unfold plain. induction s as [|c s IH]; [reflexivity|]. simpl.
  intros [Hc Hs]%andb_prop. rewrite (IH Hs), andb_true_r.
  destruct (plain_char_cases c Hc) as (_ & _ & Hd). rewrite Hd. reflexivity.
Qed.

Lemma digits_plain s : forallb_string is_digit s = true -> plain s = true.
Proof.
  unfold plain. induction s as [|c s IH]; [reflexivity|]. simpl.
  intros [Hc Hs]%andb_prop. rewrite (IH Hs), andb_true_r.
  destruct c as [[] [] [] [] [] [] [] []]; try reflexivity; discriminate.
Qed.

Lemma csv_text_cons k n l :
  Csv.needs_quotes k = false ->
  csv_text ((k, n) :: l)
  = (k +:+ String DELIM (Py.str_nat n)) +:+ String Py.LF (csv_text l).
Proof.
  intros Hk. unfold csv_text, csv_lines. cbn [map fst snd].
  rewrite concat_cons. unfold write_field. rewrite Hk.
  rewrite !append_assoc. reflexivity.
Qed.

Lemma rows_of_result_file l ex :
  ex = None \/ ex = Some 2 ->
  forallb (fun e => plain (fst e) && no_lf (fst e)) l = true ->
  simple (csv_text l) = true
  /\ rows_of ex (Py.split Py.LF (csv_text l)) = Ok (map csv_row l).
Proof.
  revert ex. induction l as [|[k n] l IH]; intros ex Hex Hl.
  - split; [reflexivity|]. destruct Hex as [-> | ->]; reflexivity.
  - cbn [forallb fst] in Hl. apply andb_prop in Hl as [Hk Hl].
    apply andb_prop in Hk as [Hp Hn].
    pose proof (str_nat_digits n) as Hd.
    destruct (IH (Some 2) (or_intror eq_refl) Hl) as [Hs Hr].
    rewrite (csv_text_cons k n l (plain_no_quotes k Hp Hn)). split.
    + unfold simple in *. rewrite !forallb_string_app. cbn [forallb_string].
      rewrite Hs. fold (simple k). fold (simple (Py.str_nat n)).
      rewrite (plain_simple k Hp), (plain_simple _ (digits_plain _ Hd)).
      reflexivity.
    + assert (no_lf (k +:+ String DELIM (Py.str_nat n)) = true) as Hno.
      { unfold no_lf in *. rewrite forallb_string_app. cbn [forallb_string].
        rewrite Hn. fold (no_lf (Py.str_nat n)).
        rewrite (digits_no_lf _ Hd). reflexivity. }
      rewrite (split_line _ _ Hno). cbn [rows_of].
      assert (blank (k +:+ String DELIM (Py.str_nat n)) = false) as ->.
      { unfold blank. rewrite forallb_string_app. cbn [forallb_string].
        rewrite comma_not_blank. apply andb_false_r. }
      assert (fields (k +:+ String DELIM (Py.str_nat n))
              = [k; Py.str_nat n]) as ->.
      { unfold fields. rewrite split_app.
        rewrite (split_none _ k (plain_no_comma k Hp)).
        rewrite (split_none _ _ (plain_no_comma _ (digits_plain _ Hd))).
        reflexivity. }
      destruct Hex as [-> | ->]; cbn [length Nat.max Nat.ltb Nat.leb];
        rewrite Hr; cbn [Py.bind Nat.sub repeat]; [reflexivity|].
      rewrite app_nil_r. reflexivity.
Qed.

(** X20.  The text of the result file, for keys without comma, double
    quote, carriage return and line feed, is read back by the tokenizer of
    [read_csv] as one row per entry, in the order of the result, with two
    fields: the key and the count in decimal. *)
Theorem saved_result_reads_back (l : sizes) :
  forallb (fun e => plain (fst e) && no_lf (fst e)) l = true ->
  tokenize (to_csv "package" true false (ranked l)) = Ok (map csv_row l).
Proof.
  intros Hl. rewrite to_csv_ranked.
  destruct (rows_of_result_file l None (or_introl eq_refl) Hl) as [Hs Hr].
  rewrite (tokenize_simple _ Hs). exact Hr.
Qed.

Lemma saved_result_reads_back_witness :
  tokenize (to_csv "package" true false (ranked Sample.example_ranked))
  = Ok [["util-pkg"; "2"]; ["lib-pkg"; "1"]].
Proof.
  apply (saved_result_reads_back Sample.example_ranked). reflexivity.
Defined.

End ReadingBack.

Section BaseUrl.
Import Pd Props Debindex Further.

Lemma rstrip_by_all drop s :
  forallb_string drop s = true -> Py.rstrip_by drop s = EmptyString.
Proof.
  induction s as [|c s IH]; [reflexivity|]. simpl.
  intros [Hc Hs]%andb_prop. rewrite (IH Hs), Hc. reflexivity.
Qed.

Lemma rstrip_by_keeps drop s :
  ends_with drop s = false -> Py.rstrip_by drop s = s.
Proof.
  induction s as [|c s IH]; [reflexivity|]. intros H.
  cbn [Py.rstrip_by]. destruct s as [|c' s].
  - simpl in *. rewrite H. reflexivity.
  - rewrite (IH H). reflexivity.
Qed.

Lemma rstrip_by_app drop s t :
  forallb_string drop t = true ->
  Py.rstrip_by drop (s +:+ t) = Py.rstrip_by drop s.
Proof.
  intros Ht. induction s as [|c s IH].
  - rewrite append_nil_l. apply rstrip_by_all, Ht.
  - rewrite append_cons. cbn [Py.rstrip_by]. rewrite IH. reflexivity.
Qed.

Lemma lstrip_app pre s :
  all_space pre = true -> Py.lstrip (pre +:+ s) = Py.lstrip s.
Proof.
  unfold all_space. induction pre as [|c pre IH]; [reflexivity|].
  cbn [forallb_string]. intros [Hc Hp]%andb_prop. rewrite append_cons.
  cbn [Py.lstrip]. rewrite Hc. exact (IH Hp).
Qed.

Lemma lstrip_keeps s : starts_with_space s = false -> Py.lstrip s = s.
Proof. destruct s as [|c s]; [reflexivity|]. simpl. intros ->. reflexivity. Qed.

Lemma ends_with_app f s t :
  t <> EmptyString -> ends_with f (s +:+ t) = ends_with f t.
Proof.
  intros Ht. induction s as [|c s IH]; [reflexivity|].
  rewrite append_cons. cbn [ends_with].
  destruct (s +:+ t) as [|c' r] eqn:Hst; [|exact IH].
  destruct s; [|discriminate]. rewrite append_nil_l in Hst. contradiction.
Qed.

Lemma ends_with_slashes f s :
  slashes s = true -> f "/"%char = false -> ends_with f s = false.
Proof.
  unfold slashes. intros Hs Hf. induction s as [|c s IH]; [reflexivity|].
  cbn [forallb_string] in Hs. apply andb_prop in Hs as [Hc Hs].
  apply Ascii.eqb_eq in Hc. subst c. cbn [ends_with]. destruct s as [|c' s]; [exact Hf|].
  exact (IH Hs).
Qed.

(** Whitespace around a text is stripped; the slashes at its end stay. *)
Lemma strip_padded pre post b sl :
  all_space pre = true -> all_space post = true -> slashes sl = true ->
  starts_with_space b = false -> ends_with Py.isspace b = false ->
  Py.strip (pre +:+ b +:+ sl +:+ post) = b +:+ sl.
Proof.
  intros Hpre Hpost Hsl Hb1 Hb2. unfold Py.strip, Py.rstrip.
  replace (pre +:+ b +:+ sl +:+ post) with ((pre +:+ b +:+ sl) +:+ post)
    by (rewrite !append_assoc; reflexivity).
  rewrite (rstrip_by_app _ _ _ Hpost).
  destruct (b +:+ sl) as [|c r] eqn:Hbs.
  - rewrite append_nil_r, (rstrip_by_all _ _ Hpre). reflexivity.
  - rewrite rstrip_by_keeps.
    + rewrite (lstrip_app _ _ Hpre). apply lstrip_keeps.
      destruct b as [|x b].
      * rewrite append_nil_l in Hbs. subst sl. unfold slashes in Hsl.
        cbn [forallb_string] in Hsl. apply andb_prop in Hsl as [Hc _].
        apply Ascii.eqb_eq in Hc. subst c. reflexivity.
      * rewrite append_cons in Hbs. injection Hbs as <- _. exact Hb1.
    + rewrite ends_with_app by discriminate. rewrite <- Hbs.
      destruct sl as [|x sl].
      * rewrite append_nil_r. exact Hb2.
      * rewrite ends_with_app by discriminate.
        apply (ends_with_slashes _ _ Hsl). reflexivity.
Qed.

(** X21.  Whitespace around the base URL and slashes at its end do not
    count: for a base URL made of whitespace, a text [b] that neither
    starts nor ends with whitespace and does not end with a slash, slashes
    and whitespace, the address requested is [b], one slash and
    [Contents-<architecture>.gz]. *)
Theorem index_url_ignores_padding_and_slashes (a : args)
    (pre b sl post : string) :
  all_space pre = true -> all_space post = true -> slashes sl = true ->
  starts_with_space b = false -> ends_with Py.isspace b = false ->
  ends_with (Ascii.eqb "/"%char) b = false ->
  index_file_url (with_baseurl a (pre +:+ b +:+ sl +:+ post))
  = b +:+ "/Contents-" +:+ architecture a +:+ ".gz".
Proof.
  intros Hpre Hpost Hsl Hb1 Hb2 Hb3. unfold index_file_url, index_file_name.
  cbn [baseurl architecture with_baseurl].
  rewrite (strip_padded _ _ _ _ Hpre Hpost Hsl Hb1 Hb2).
  unfold Py.rstrip_char. rewrite (rstrip_by_app _ _ _ Hsl).
  rewrite (rstrip_by_keeps _ _ Hb3). reflexivity.
Qed.

Lemma index_url_ignores_padding_and_slashes_witness :
  index_file_url
    (with_baseurl (Sample.run "amd64" false None 10)
       (" " +:+ Sample.mirror +:+ "//" +:+ "  "))
  = Sample.mirror +:+ "/Contents-amd64.gz".
Proof.
  apply (index_url_ignores_padding_and_slashes
           (Sample.run "amd64" false None 10) " " Sample.mirror "//" "  ");
    reflexivity.
Defined.

End BaseUrl.

Section Preview.
Import Pd Props Debindex Further.

Lemma length_spaces n : String.length (spaces n) = n.
Proof. induction n as [|n IH]; simpl; [reflexivity|]. rewrite IH. reflexivity. Qed.

Lemma spaces_app n m : spaces n +:+ spaces m = spaces (n + m).
Proof.
  induction n as [|n IH]; [reflexivity|]. simpl. rewrite append_cons, IH.
  reflexivity.
Qed.

Lemma max_length_bound s l : s ∈ l -> String.length s <= max_length l.
Proof.
  unfold max_length. induction l as [|x l IH]; intros Hin; [inversion Hin|].
  cbn [map foldr]. apply elem_of_cons in Hin as [->|Hin]; [lia|].
  specialize (IH Hin). lia.
Qed.

(** The line of an entry in a table whose labels are [wl] wide and whose
    values are [wv] wide. *)
Lemma preview_line_shape wl wv (k v : string) :
  String.length k <= wl -> String.length v <= wv ->
  ljust wl k +:+ "   " +:+ rjust wv (" " +:+ v)
  = k +:+ spaces (wl - String.length k + 3 + (wv - S (String.length v)) + 1)
      +:+ v
  /\ (S (String.length v) <= wv ->
      String.length (ljust wl k +:+ "   " +:+ rjust wv (" " +:+ v))
      = wl + 3 + wv).
Proof.
  intros Hk Hv. unfold ljust, rjust.
  change "   "%string with (spaces 3). change " "%string with (spaces 1).
  assert (String.length (spaces 1 +:+ v) = S (String.length v)) as Hlen
    by (rewrite length_append; reflexivity).
  rewrite Hlen. split.
  - rewrite !append_assoc. f_equal.
    rewrite <- !append_assoc, !spaces_app. reflexivity.
  - intros Hv'. rewrite !length_append, !length_spaces. simpl. lia.
Qed.

(** X22.  The table of the preview, for a ranked result that is not empty,
    has one line per entry, in the order of the result; all lines have the
    same length; each line is the key (tab, carriage return and line feed
    written as escapes), four spaces or more, and the count. *)
Theorem preview_table_is_aligned (l : sizes) :
  l <> [] ->
  exists lines,
    to_string (ranked l) = Py.join (Py.chr Py.LF) lines
    /\ length lines = length l
    /\ (forall i j a b,
          lines !! i = Some a -> lines !! j = Some b ->
          String.length a = String.length b)
    /\ (forall i e,
          l !! i = Some e ->
          exists n,
            4 <= n
            /\ lines !! i
               = Some (escape_label (fst e) +:+ spaces n
                       +:+ Py.str_nat (snd e))).
Proof.
  intros Hne.
  set (wl := max_length (map escape_label (index l))).
  set (wv := max_length (map (fun e => " " +:+ Py.str_nat (snd e)) l)).
  set (f := fun e : string * nat =>
              ljust wl (escape_label (fst e)) +:+ "   "
              +:+ rjust wv (" " +:+ Py.str_nat (snd e))).
  assert (forall e, e ∈ l ->
            String.length (escape_label (fst e)) <= wl
            /\ S (String.length (Py.str_nat (snd e))) <= wv) as Hw.
  { intros e He. split.
    - apply max_length_bound. unfold index. rewrite map_map.
      apply list_elem_of_fmap. exists e. auto.
    - change (S (String.length (Py.str_nat (snd e))))
        with (String.length (" " +:+ Py.str_nat (snd e))).
      apply max_length_bound.
      apply (list_elem_of_fmap_2 (fun e => " " +:+ Py.str_nat (snd e))).
      exact He. }
  exists (map f l). split; [|split; [|split]].
  - unfold to_string. destruct l as [|e0 l0]; [contradiction|].
    change (ranked (e0 :: l0)) with ((fst e0, Some (snd e0)) :: ranked l0).
    cbv iota.
    change ((fst e0, Some (snd e0)) :: ranked l0) with (ranked (e0 :: l0)).
    rewrite has_nan_ranked. f_equal. unfold ranked at 3. rewrite map_map.
    apply map_ext. intros e. unfold f, wl, wv. cbn [fst snd string_value].
    rewrite append_nil_r.
    replace (index (ranked (e0 :: l0))) with (index (e0 :: l0))
      by (unfold index, ranked; rewrite map_map; reflexivity).
    replace (map (fun e1 => string_value false (snd e1)) (ranked (e0 :: l0)))
      with (map (fun e1 : string * nat => " " +:+ Py.str_nat (snd e1))
                (e0 :: l0)); [reflexivity|].
    unfold ranked. rewrite map_map. apply map_ext. intros e1.
    cbn [snd string_value]. rewrite append_nil_r. reflexivity.
  - apply length_map.
  - intros i j a b Ha Hb. rewrite list_lookup_fmap in Ha, Hb.
    destruct (l !! i) as [ei|] eqn:Hi; [|discriminate].
    destruct (l !! j) as [ej|] eqn:Hj; [|discriminate].
    injection Ha as <-. injection Hb as <-.
    destruct (Hw ei (list_elem_of_lookup_2 _ _ _ Hi)) as [Hi1 Hi2].
    destruct (Hw ej (list_elem_of_lookup_2 _ _ _ Hj)) as [Hj1 Hj2].
    unfold f.
    rewrite (proj2 (preview_line_shape wl wv _ _ Hi1 (Nat.lt_le_incl _ _ Hi2))
               Hi2).
    rewrite (proj2 (preview_line_shape wl wv _ _ Hj1 (Nat.lt_le_incl _ _ Hj2))
               Hj2).
    reflexivity.
  - intros i e Hi. rewrite list_lookup_fmap, Hi.
    destruct (Hw e (list_elem_of_lookup_2 _ _ _ Hi)) as [H1 H2].
    change (f <$> Some e) with (Some (f e)).
    eexists. split; [|unfold f;
      rewrite (proj1 (preview_line_shape wl wv _ _ H1
                        (Nat.lt_le_incl _ _ H2)));
      reflexivity].
    lia.
Qed.

Lemma preview_table_is_aligned_witness :
  exists lines,
    to_string (ranked Sample.example_ranked) = Py.join (Py.chr Py.LF) lines
    /\ length lines = 2.
Proof.
  destruct (preview_table_is_aligned Sample.example_ranked)
    as (lines & Hs & Hl & _); [discriminate|].
  exists lines. split; [exact Hs|exact Hl].
Defined.

End Preview.

Section LastField.
Import Pd Props Debindex Further.
Import Csv.

Lemma nth_last {A} (l : list A) (d : A) :
  nth (length l - 1) l d = List.last l d.
Proof.
  induction l as [|x l IH]; [reflexivity|].
  destruct l as [|y l]; [reflexivity|].
  cbn [length Nat.sub] in *. rewrite Nat.sub_0_r in *.
  change (List.last (x :: y :: l) d) with (List.last (y :: l) d).
  rewrite <- IH. reflexivity.
Qed.

Lemma nth_padded (l : list string) n :
  length l < S n ->
  nth n (l ++ repeat EmptyString (S n - length l)) EmptyString = EmptyString.
Proof.
  intros H. rewrite app_nth2 by lia. apply nth_repeat.
Qed.

Lemma column_of_row first line :
  commas line <= commas first ->
  nth (Nat.max (length (fields first)) 1 - 1)
      (fields line
       ++ repeat EmptyString
            (Nat.max (length (fields first)) 1 - length (fields line)))
      EmptyString
  = column_text first line.
Proof.
  intros Hle. unfold column_text. rewrite !length_fields.
  replace (Nat.max (commas first + 1) 1) with (S (commas first)) by lia.
  destruct (Nat.eqb_spec (commas line) (commas first)) as [Heq|Hne].
  - rewrite Heq. replace (S (commas first) - (commas first + 1)) with 0 by lia.
    cbn [repeat]. rewrite app_nil_r.
    replace (S (commas first) - 1) with (length (fields line) - 1)
      by (rewrite length_fields; lia).
    apply nth_last.
  - replace (S (commas first) - 1) with (commas first) by lia.
    replace (commas line + 1) with (length (fields line))
      by apply length_fields.
    apply nth_padded. rewrite length_fields. lia.
Qed.

(** X23.  For a text without double quote and carriage return in which no
    line has more commas than the first line that is not blank, the field
    that [read_csv] takes from a line for its column is the text after the
    last comma of the line (as far as its first NUL, when it has one) when
    the line has as many commas as the first one, and is empty, which
    reads as a missing value, when it has fewer: what stands before the
    last comma is no part of the column.  The column is what the type
    inference makes of these fields. *)
Theorem column_is_what_follows_the_last_comma (text first : string)
    (others : list string) :
  simple text = true ->
  kept_lines text = first :: others ->
  existsb (fun l => commas first <? commas l) others = false ->
  read_csv text
  = Ok (infer (map (fun l => c_str (column_text first l))
                   (first :: others))).
Proof.
  intros Hs Hk Hx. unfold read_csv.
  rewrite (tokenize_kept_lines text first others Hs Hk), Hx. cbn [Py.bind].
  f_equal. f_equal. cbn [map]. f_equal.
  - f_equal. unfold column_text. rewrite Nat.eqb_refl.
    replace (Nat.max (length (fields first)) 1) with (length (fields first))
      by (rewrite length_fields; lia).
    apply nth_last.
  - rewrite map_map. apply map_ext_in. intros l Hl.
    rewrite column_of_row; [reflexivity|].
    destruct (Nat.le_gt_cases (commas l) (commas first)) as [H|H]; [exact H|].
    exfalso. apply Nat.ltb_lt in H.
    assert (existsb (fun l => commas first <? commas l) others = true) as Hy
      by (apply existsb_exists; eauto).
    congruence.
Qed.

Lemma column_is_what_follows_the_last_comma_witness :
  read_csv ("a b,c d" +:+ Py.chr Py.LF +:+ "e f" +:+ Py.chr Py.LF
            +:+ "g,h i" +:+ Py.chr Py.LF)
  = Ok (Strings [Some "c d"; None; Some "h i"]).
Proof.
  rewrite (column_is_what_follows_the_last_comma _ "a b,c d" ["e f"; "g,h i"]);
    reflexivity.
Defined.

End LastField.

Section LocalFile.
Import Pd Props Debindex Further.



End LocalFile.

Section TopEntry.
Import Pd Props Debindex Further.

(** X25.  The first entry of the ranked result is a key with the most rows:
    its count is the number of rows with that key, and no string occurs in
    the key column more often. *)
Theorem first_entry_has_the_most_rows (df : frame) (key : string) (i : nat)
    (st : state) :
  index_of key (columns df) = Some i ->
  exists l,
    fst (count_occurrences df key st) = Ok (ranked l)
    /\ forall k n,
         l !! 0 = Some (k, n) ->
         n = occurrences k (column_values i df)
         /\ forall k', occurrences k' (column_values i df) <= n.
Proof.
  intros Hi. exists (sort_values_desc (group_sizes (column_values i df))).
  rewrite (count_occurrences_run _ _ _ _ Hi). split; [reflexivity|].
  set (l := sort_values_desc (group_sizes (column_values i df))).
  assert (forall x, count_of x l = occurrences x (column_values i df)) as Hc.
  { intros x. rewrite <- group_sizes_count. apply count_of_perm.
    - apply key_sorted_NoDup, group_sizes_sorted.
    - apply sort_values_desc_perm. }
  intros k n H0. split.
  - rewrite <- Hc. unfold count_of.
    destruct l as [|[k0 n0] l0]; [discriminate|]. injection H0 as -> ->.
    simpl. rewrite String.eqb_refl. reflexivity.
  - intros k'. rewrite <- Hc. unfold count_of.
    destruct (lookup k' l) as [n'|] eqn:Hk; [|lia].
    apply lookup_elem, list_elem_of_lookup in Hk as [j Hj].
    destruct j as [|j].
    + rewrite H0 in Hj. injection Hj as _ <-. lia.
    + apply (sorted_desc_le l 0 (S j) (k, n) (k', n'));
        [apply sort_values_desc_sorted|lia|exact H0|exact Hj].
Qed.

Lemma first_entry_has_the_most_rows_witness :
  exists l,
    fst (count_occurrences Sample.example_frame "package" Sample.start)
    = Ok (ranked l)
    /\ forall k n,
         l !! 0 = Some (k, n) ->
         forall k', occurrences k' (column_values 1 Sample.example_frame) <= n.
Proof.
  destruct (first_entry_has_the_most_rows Sample.example_frame "package" 1
              Sample.start eq_refl) as (l & Hl & H).
  exists l. split; [exact Hl|]. intros k n H0. apply (H k n H0).
Defined.

End TopEntry.

Section Limits.
Import Pd Props Debindex Further.

(** X26.  With a negative limit the preview leaves out the last entries of
    the ranked result, as many as the limit says, and shows the others (all
    the entries left out count at most as much as an entry shown); a result
    with no more entries than that is shown as an empty one.  The header
    names the limit as it was given. *)
Theorem negative_limit_leaves_out_the_last_entries (E : env) (l : sizes)
    (n : Z) (st : state) :
  (n < 0)%Z -> descending l ->
  let shown := take (length l - Z.to_nat (- n)) l in
  stdout (snd (output_result E "package" (Some (ranked l)) None n st))
  = stdout st
    ++ [ rule;
         "  Top " +:+ Py.str_Z n +:+ " packages with more files associated:";
         rule; to_string (ranked shown); rule ]
  /\ Z.of_nat (length shown) = Z.max 0 (Z.of_nat (length l) + n)
  /\ (forall a b,
        a ∈ shown -> b ∈ drop (length l - Z.to_nat (- n)) l ->
        snd b <= snd a)
  /\ ((Z.of_nat (length l) <= - n)%Z ->
      to_string (ranked shown) = "Series([], )").
Proof.
  intros Hn Hd shown. split; [|split; [|split]].
  - unfold output_result, bindM, print. cbn [snd stdout printed].
    unfold head. destruct (Z.leb_spec 0 n) as [H|_]; [lia|].
    unfold ranked at 1. rewrite length_map. rewrite ranked_take.
    rewrite <- !app_assoc. reflexivity.
  - unfold shown. rewrite length_take. lia.
  - intros a b Ha Hb. apply elem_of_take in Ha as [i [Hi Hlt]].
    apply list_elem_of_lookup in Hb as [j Hj]. rewrite lookup_drop in Hj.
    apply (sorted_desc_le l i (length l - Z.to_nat (- n) + j) a b);
      [apply descending_sorted; exact Hd|lia|exact Hi|exact Hj].
  - intros Hlen. unfold shown.
    replace (length l - Z.to_nat (- n)) with 0 by lia. reflexivity.
Qed.

Lemma negative_limit_leaves_out_the_last_entries_witness :
  stdout (snd (output_result Sample.world "package"
                 (Some (ranked Sample.example_ranked)) None (-1)
                 Sample.start))
  = [rule; "  Top -1 packages with more files associated:"; rule;
     "util-pkg    2"; rule].
Proof.
  assert (descending Sample.example_ranked) as Hd.
  { intros [|[|i]] a b Ha Hb; simpl in *; try discriminate.
    injection Ha as <-. injection Hb as <-. simpl. lia. }
  destruct (negative_limit_leaves_out_the_last_entries Sample.world
              Sample.example_ranked (-1) Sample.start ltac:(lia) Hd)
    as [H _].
  rewrite H. reflexivity.
Defined.

End Limits.

Section EmptyBody.
Import Pd Props Debindex Further.

(** X27.  A response without any byte is not refused as a bad gzip file: it
    is read as the empty text, [_read_csv] with the two names of the
    program raises [ValueError], and [main], with or without the download
    option (whose file, when asked for, can be opened for writing), ends
    with it after its title; with the download option the empty file
    stays. *)
Theorem empty_body_raises_ValueError (E : env) (a : args) (st : state) :
  http_get E (index_file_url a) = Ok [] ->
  download_error E a = None ->
  Gzip.read (inflate E) [] = Ok EmptyString
  /\ (forall st', _read_csv E (BytesIO []) ["filename"; "package"] st'
                  = (Raise ValueError, st'))
  /\ main E a st = (Raise ValueError, fetched E a (entered a st) [])
  /\ stdout (snd (main E a st)) = stdout st ++ [title]
  /\ files (snd (main E a st))
     = if download a
       then <[download_file_name a (Py.strftime (now E)) := []]> (files st)
       else files st.
Proof.
  intros Hget Hsave. split; [reflexivity|]. split; [reflexivity|].
  assert (main E a st = (Raise ValueError, fetched E a (entered a st) []))
    as Hm by (rewrite main_cases, Hget, Hsave; reflexivity).
  rewrite Hm. cbn [snd]. rewrite stdout_fetched, files_fetched.
  repeat split.
Qed.

Lemma empty_body_raises_ValueError_witness :
  fst (main (Sample.serving (Ok [])) (Sample.run "amd64" true None 10)
         Sample.start)
  = Raise ValueError
  /\ files (snd (main (Sample.serving (Ok []))
                   (Sample.run "amd64" true None 10) Sample.start))
     = {[ "Contents-amd64.20240102-030405.gz" := [] ]}.
Proof.
  destruct (empty_body_raises_ValueError (Sample.serving (Ok []))
              (Sample.run "amd64" true None 10) Sample.start eq_refl eq_refl)
    as (_ & _ & Hm & _ & Hf).
  split; [rewrite Hm; reflexivity|exact Hf].
Defined.

End EmptyBody.

Section Defaults.
Import Pd Props Debindex Further.

(** X28.  With the defaults of the command line, for every architecture:
    the index is requested from the mirror ftp.uk.debian.org, at
    [dists/stable/main/Contents-<architecture>.gz]; the run writes no file
    and leaves the threshold of the logger at info; and when the index is
    parsed, it prints the title, the preview of the ranked result with the
    limit 10 and the closing line. *)
Theorem default_run_previews_ten_entries (E : env) (architecture : string)
    (st : state) :
  let a := default_args architecture in
  index_file_url a
  = "http://ftp.uk.debian.org/debian/dists/stable/main/Contents-"
    +:+ architecture +:+ ".gz"
  /\ files (snd (main E a st)) = files st
  /\ log_level (snd (main E a st)) = INFO
  /\ (forall bs df,
        http_get E (index_file_url a) = Ok bs ->
        table_of E bs ["filename"; "package"] = Ok df ->
        fst (main E a st) = Ok tt
        /\ stdout (snd (main E a st))
           = stdout st ++ [title] ++ preview (ranking df) 10 ++ ["Finished."]).
Proof.
  intros a. split; [reflexivity|].
  assert (download_error E a = None) as Hsave by reflexivity.
  split; [|split].
  - rewrite main_cases, Hsave.
    destruct (http_get E (index_file_url a)) as [bs|e];
      [|rewrite files_finish; reflexivity].
    destruct (table_of E bs _) as [df|e];
      [|rewrite files_finish; reflexivity].
    rewrite files_ending, files_emission. reflexivity.
  - rewrite main_cases, Hsave.
    destruct (http_get E (index_file_url a)) as [bs|e];
      [|rewrite log_level_finish; reflexivity].
    destruct (table_of E bs _) as [df|e];
      [|rewrite log_level_finish; reflexivity].
    rewrite log_level_ending, log_level_emission. reflexivity.
  - intros bs df Hget Ht. rewrite main_cases, Hget, Hsave, Ht.
    split; [reflexivity|]. rewrite stdout_ending, stdout_emission.
    cbn [stdout counted logged]. rewrite stdout_fetched.
    cbn [stdout entered printed]. rewrite <- !app_assoc. reflexivity.
Qed.

End Defaults.

Section WellFormedIndex.
Import Pd Props Debindex Further.

(** X29.  The program on an index without comma, double quote, carriage
    return and NUL in which some line has a path, whitespace and a package
    string, when the download file (if asked for) and the output path (if
    given) can be opened: [main] returns normally; between its title and
    its closing line it prints the preview of a ranked result (nothing with
    an output path: there, when the path is opened as a file, the file
    holds that result, packed when the path has the ending of an archive
    format); the result is in descending order of count, and the count of
    each key is the number of lines, blank ones apart, whose package string
    is that key. *)
Theorem index_is_counted_line_by_line (E : env) (a : args) (st : state)
    (bs : list byte) (text : string) :
  http_get E (index_file_url a) = Ok bs ->
  download_error E a = None ->
  output_error E a = None ->
  Gzip.read (inflate E) bs = Ok text ->
  plain text = true ->
  no_nul text = true ->
  existsb has_both (kept_lines text) = true ->
  exists l,
    fst (main E a st) = Ok tt
    /\ stdout (snd (main E a st))
       = stdout st ++ [title]
         ++ match output a with
            | None => preview l (number_of_elements a)
            | Some _ => []
            end
         ++ ["Finished."]
    /\ (forall path, output a = Some path -> get_handle E path = File ->
          files (snd (main E a st)) !! path = Some (result_at E path l))
    /\ descending l
    /\ (forall k,
          count_of k l = occurrences k (map package_of (kept_lines text))).
Proof.
  intros Hget Hsave Hout Hgz Hp Hn Hb.
  pose proof (table_of_plain E bs text Hgz Hp Hn Hb) as Ht.
  set (df := {| columns := ["filename"; "package"];
                rows := map record_of (kept_lines text) |}) in Ht.
  assert (packages df = map package_of (kept_lines text)) as Hpk.
  { unfold packages, column_values, df. cbn [rows]. apply map_map. }
  exists (ranking df). rewrite main_cases, Hget, Hsave, Ht.
  assert (fst (ending a (emission E a (ranking df)
                 (counted (logged (fetched E a (entered a st) bs)
                                  INFO "Reading finished.")))) = Ok tt)
    as Hok by (rewrite fst_ending, fst_emission, Hout; reflexivity).
  split; [exact Hok|]. split; [|split; [|split]].
  - rewrite stdout_ending, Hok, stdout_emission.
    cbn [stdout counted logged]. rewrite stdout_fetched.
    cbn [stdout entered printed]. rewrite <- !app_assoc. reflexivity.
  - intros path Hpath Hfile. rewrite files_ending, files_emission.
    rewrite Hpath, Hfile. apply lookup_insert_eq.
  - apply sorted_descending, sort_values_desc_sorted.
  - intros k. unfold ranking. rewrite <- Hpk, <- group_sizes_count.
    apply count_of_perm.
    + apply key_sorted_NoDup, group_sizes_sorted.
    + apply sort_values_desc_perm.
Qed.

Lemma index_is_counted_line_by_line_witness :
  exists l,
    stdout (snd (main Sample.world (Sample.run "amd64" false None 10)
                   Sample.start))
    = [title] ++ preview l 10 ++ ["Finished."]
    /\ count_of "util-pkg" l = 2 /\ count_of "lib-pkg" l = 1
    /\ count_of "usr/bin/foo" l = 0.
Proof.
  destruct (index_is_counted_line_by_line Sample.world
              (Sample.run "amd64" false None 10) Sample.start
              Sample.example_gz Sample.example_text
              eq_refl eq_refl eq_refl eq_refl eq_refl eq_refl eq_refl)
    as (l & _ & Hout & _ & _ & Hc).
  exists l. split; [exact Hout|]. rewrite !Hc. repeat split.
Defined.

End WellFormedIndex.
